(** * Registry purge handler: retention predicates and the cleanup run

    A shallow embedding of [handlers/handler.py]: the two retention
    predicates ([is_tag_old], [should_delete_tag_by_name]) and the
    [handle] entry point, run against an abstract registry client.

    Conventions.
    - A Python exception is a value of [Exn]; code that may raise returns
      [Result].  Code that talks to the registry lives in the monad [M]:
      it threads the registry's state, may raise, and records every
      client call together with its reply.
    - A Python [dict] with string keys is a [gmap string Value].
    - [print] only writes to standard output and is left out.
    - [handle] is the entry point with its client built;
      [handle_from_start] adds the construction of the client, which
      makes no call but can raise before the [try] block is entered.

    The file has the definitions first (the embedding, what is read off
    a record of calls, an in-memory registry to run examples on), then
    the lemmas on the phases of a run, the claims C1 to C10, and
    further properties X1 to X18. *)

From Stdlib Require Import ZArith List Ascii String Lia Bool.
From stdpp Require Import base gmap strings list fin_maps.

Open Scope string_scope.
Open Scope list_scope.
Open Scope Z_scope.

Set Warnings "-register-all".

(** ** Exceptions and results *)

Inductive ExnKind :=
| TypeError | AttributeError | OverflowError | KeyError | ReError | ApiError | ValueError.

(** [exn_msg] is what [str(e)] returns. *)
Record Exn := mkExn { exn_kind : ExnKind; exn_msg : string }.

Inductive Result (A : Type) :=
| Ok (a : A)
| Raise (e : Exn).
Arguments Ok {A} a.
Arguments Raise {A} e.

Definition rbind {A B} (r : Result A) (k : A -> Result B) : Result B :=
  match r with
  | Ok a => k a
  | Raise e => Raise e
  end.

(** [try: r except Exception: h] on pure code. *)
Definition rcatch {A} (r : Result A) (h : Exn -> A) : A :=
  match r with
  | Ok a => a
  | Raise e => h e
  end.

Declare Scope result_scope.
Delimit Scope result_scope with result.
Notation "x <- r ;; k" := (rbind r (fun x => k))
  (at level 100, r at next level, right associativity) : result_scope.

(** ** Datetimes

    A [datetime] carries its wall-clock reading, in microseconds since
    0001-01-01T00:00:00 ([datetime.min]), and its [tzinfo]: [None] for a
    naive value, [Some off] for an aware one at the fixed UTC offset
    [off] (microseconds).  The registry client parses timestamps from
    ISO 8601, which yields fixed offsets. *)

Record datetime := mkDatetime { wall : Z; tzinfo : option Z }.

Definition MICROS_PER_DAY : Z := 86400 * 1000000.

(** One past [datetime.max] (9999-12-31T23:59:59.999999); 3652059 is
    [date.max.toordinal()]. *)
Definition DATETIME_END : Z := 3652059 * MICROS_PER_DAY.

Definition valid_datetime (d : datetime) : Prop :=
  0 <= wall d < DATETIME_END.

(** [timedelta(days=n)] in microseconds. *)
Definition timedelta_days (n : Z) : Z := n * MICROS_PER_DAY.

(** Ordering of two datetimes (the [_cmp] of the datetime module with
    [allow_mixed=False]): same tzinfo or same offset compares the
    wall-clock fields, a naive and an aware value cannot be ordered, two
    aware values at different offsets are ordered by their UTC instant.
    The result is the sign of [a - b]. *)
Definition datetime_cmp (a b : datetime) : Result comparison :=
  match tzinfo a, tzinfo b with
  | None, None => Ok (wall a ?= wall b)
  | Some oa, Some ob =>
      if oa =? ob then Ok (wall a ?= wall b)
      else Ok (wall a - oa ?= wall b - ob)
  | _, _ => Raise (mkExn TypeError "can't compare offset-naive and offset-aware datetimes")
  end.

Definition datetime_lt (a b : datetime) : Result bool :=
  (c <- datetime_cmp a b ;; Ok (match c with Lt => true | _ => false end))%result.

Definition datetime_gt (a b : datetime) : Result bool :=
  (c <- datetime_cmp a b ;; Ok (match c with Gt => true | _ => false end))%result.

(** [d - delta]: the result must stay a representable datetime. *)
Definition datetime_sub (d : datetime) (delta : Z) : Result datetime :=
  let w := wall d - delta in
  if (0 <=? w) && (w <? DATETIME_END)
  then Ok (mkDatetime w (tzinfo d))
  else Raise (mkExn OverflowError "date value out of range").

(** The clock of the machine the handler runs on: the current UTC
    reading and the offset of the local zone (used by [datetime.now]
    when it is given no zone). *)
Record Clock := mkClock { utc_now : Z; local_offset : Z }.

(** [datetime.now(tz=tz)] *)
Definition datetime_now (clk : Clock) (tz : option Z) : datetime :=
  match tz with
  | None => mkDatetime (utc_now clk + local_offset clk) None
  | Some off => mkDatetime (utc_now clk + off) (Some off)
  end.

(** ** Registry objects

    The fields of the client's objects that the handler reads.  A
    timestamp the registry did not send is [None]; [image_name] is read
    with [getattr(tag, 'image_name', 'unknown')], so it may be absent. *)

Record Tag := mkTag {
  tag_id : string;
  tag_name : string;
  created_at : option datetime;
  updated_at : option datetime;
  tag_image_name : option string
}.

Record Image := mkImage { image_id : string; image_name : string }.

Record Namespace := mkNamespace { namespace_id : string; namespace_name : string }.

(** Both timestamps of the tag are present. *)
Definition has_timestamps (tag : Tag) : bool :=
  match created_at tag, updated_at tag with
  | Some _, Some _ => true
  | _, _ => false
  end.

(** ** The age predicate *)

(** [max(a, b)] on two attribute values: [None] is not orderable, and
    [max] keeps its first argument unless the second is greater. *)
Definition py_max (a b : option datetime) : Result datetime :=
  match a, b with
  | Some da, Some db =>
      (gt <- datetime_gt db da ;; Ok (if gt then db else da))%result
  | _, _ => Raise (mkExn TypeError "'>' not supported between instances")
  end.

Definition RETENTION_DAYS : Z := 90.

(** The body of the [try] block of [is_tag_old]. *)
Definition is_tag_old_body (clk : Clock) (tag : Tag) : Result bool :=
  (most_recent_date <- py_max (created_at tag) (updated_at tag) ;;
   cutoff_date <- datetime_sub (datetime_now clk (tzinfo most_recent_date))
                               (timedelta_days RETENTION_DAYS) ;;
   datetime_lt most_recent_date cutoff_date)%result.

Definition is_tag_old (clk : Clock) (tag : Tag) : bool :=
  rcatch (is_tag_old_body clk tag) (fun _ => false).

(** *** What the age predicate is meant to compute *)

(** Both timestamps are present, representable, and of the same kind
    (both naive or both aware). *)
Definition well_formed_timestamps (tag : Tag) : Prop :=
  match created_at tag, updated_at tag with
  | Some c, Some u =>
      valid_datetime c /\ valid_datetime u /\
      (is_Some (tzinfo c) <-> is_Some (tzinfo u))
  | _, _ => False
  end.

(** Position of a datetime on its time line: the UTC instant of an
    aware value, the wall-clock reading of a naive one. *)
Definition instant (d : datetime) : Z :=
  match tzinfo d with
  | Some off => wall d - off
  | None => wall d
  end.

(** The current time on the time line of [d]: UTC for an aware value,
    local wall-clock time for a naive one. *)
Definition current_instant (clk : Clock) (d : datetime) : Z :=
  match tzinfo d with
  | Some _ => utc_now clk
  | None => utc_now clk + local_offset clk
  end.

(** The later of the two timestamps lies more than 90 days back. *)
Definition older_than_retention (clk : Clock) (c u : datetime) : Prop :=
  Z.max (instant c) (instant u) + RETENTION_DAYS * MICROS_PER_DAY
  < current_instant clk c.

(** [datetime.now] returns a datetime, so the clock reading is
    representable in the zone it is asked for. *)
Definition clock_in_range (clk : Clock) (d : datetime) : Prop :=
  valid_datetime (datetime_now clk (tzinfo d)).


(** ** Regular expressions

    The [re] module is used through two operations: [re.compile], which
    raises [re.error] on an invalid pattern, and [Pattern.search].  An
    engine is described by its compiler and by the test "the pattern
    matches the subject starting at this offset"; [search] scans the
    offsets from the left and returns the first one that matches, and
    [fullmatch] is the anchored alternative the handler does not use. *)

Class RegexEngine := {
  Pattern : Type;
  re_compile : string -> Result Pattern;
  (** [match_at p s i]: end offset of the match of [p] in [s] that
      starts at offset [i], if there is one *)
  match_at : Pattern -> string -> nat -> option nat
}.

Definition str_len (s : string) : nat := String.length s.

Fixpoint scan_offsets `{RegexEngine} (p : Pattern) (s : string) (offsets : list nat)
    : option (nat * nat) :=
  match offsets with
  | [] => None
  | i :: rest =>
      match match_at p s i with
      | Some j => Some (i, j)
      | None => scan_offsets p s rest
      end
  end.

(** [pattern.search(s)]: the span of the leftmost match (the Match
    object), or [None]. *)
Definition pattern_search `{RegexEngine} (p : Pattern) (s : string) : option (nat * nat) :=
  scan_offsets p s (seq 0 (S (str_len s))).

(** [pattern.fullmatch(s)]: a match that starts at 0 and ends at the end. *)
Definition pattern_fullmatch `{RegexEngine} (p : Pattern) (s : string) : option (nat * nat) :=
  match match_at p s 0%nat with
  | Some j => if (j =? str_len s)%nat then Some (0%nat, j) else None
  | None => None
  end.

(** [bool(m)] for [m] a Match object or [None]. *)
Definition py_bool_match (m : option (nat * nat)) : bool :=
  match m with Some _ => true | None => false end.

(** Truth value of an optional string ([None] and [''] are falsy). *)
Definition py_truthy (o : option string) : bool :=
  match o with
  | Some s => negb (String.eqb s "")
  | None => false
  end.

(** ** The name-pattern predicate *)

Definition should_delete_tag_by_name `{RegexEngine}
    (tag : Tag) (name_pattern : option string) : bool :=
  match name_pattern with
  | Some src =>
      if negb (py_truthy name_pattern) then false
      else
        rcatch (pattern <- re_compile src ;;
                Ok (py_bool_match (pattern_search pattern (tag_name tag))))%result
               (fun e => match exn_kind e with
                         | ReError => false   (* except re.error *)
                         | _ => false         (* except Exception *)
                         end)
  | None => false
  end.

(** The pattern occurs somewhere in the subject: it matches starting at
    some offset of it. *)
Definition found_in `{RegexEngine} (p : Pattern) (s : string) : Prop :=
  exists i j, (i <= str_len s)%nat /\ match_at p s i = Some j.

(** *** A small engine

    An engine for a fragment of the pattern syntax, used to run the
    examples: literal characters, [.], a backslash before a punctuation
    character, [^] and [$].  The fragment has no groups, so a
    parenthesis is reported as the error [re.compile] raises on an
    unbalanced one; repetition, classes and alternation are outside the
    fragment and this engine refuses them. *)

Inductive Atom :=
| ALit (c : ascii)
| AAny
| ABol
| AEol.

Definition is_punct (c : ascii) : bool :=
  let n := nat_of_ascii c in
  ((33 <=? n) && (n <=? 47) || (58 <=? n) && (n <=? 64) ||
   (91 <=? n) && (n <=? 96) || (123 <=? n) && (n <=? 126))%nat.

Definition is_meta (c : ascii) : bool :=
  existsb (Ascii.eqb c) (list_ascii_of_string "*+?{}[]|").

Definition newline : ascii := ascii_of_nat 10.

Fixpoint parse_atoms (cs : list ascii) : Result (list Atom) :=
  match cs with
  | [] => Ok []
  | "\"%char :: c :: rest =>
      if is_punct c
      then (ps <- parse_atoms rest ;; Ok (ALit c :: ps))%result
      else Raise (mkExn ReError "bad escape")
  | "\"%char :: [] => Raise (mkExn ReError "bad escape (end of pattern)")
  | "("%char :: _ => Raise (mkExn ReError "missing ), unterminated subpattern")
  | ")"%char :: _ => Raise (mkExn ReError "unbalanced parenthesis")
  | "."%char :: rest => (ps <- parse_atoms rest ;; Ok (AAny :: ps))%result
  | "^"%char :: rest => (ps <- parse_atoms rest ;; Ok (ABol :: ps))%result
  | "$"%char :: rest => (ps <- parse_atoms rest ;; Ok (AEol :: ps))%result
  | c :: rest =>
      if is_meta c
      then Raise (mkExn ReError "outside the fragment")
      else (ps <- parse_atoms rest ;; Ok (ALit c :: ps))%result
  end.

(** [match_atoms ps rest i]: [rest] is the subject from offset [i] on. *)
Fixpoint match_atoms (ps : list Atom) (rest : list ascii) (i : nat) : option nat :=
  match ps with
  | [] => Some i
  | ALit c :: ps' =>
      match rest with
      | x :: rest' => if Ascii.eqb x c then match_atoms ps' rest' (S i) else None
      | [] => None
      end
  | AAny :: ps' =>
      match rest with
      | x :: rest' => if Ascii.eqb x newline then None else match_atoms ps' rest' (S i)
      | [] => None
      end
  | ABol :: ps' => if (i =? 0)%nat then match_atoms ps' rest i else None
  | AEol :: ps' =>
      match rest with
      | [] => match_atoms ps' rest i
      | [x] => if Ascii.eqb x newline then match_atoms ps' rest i else None
      | _ => None
      end
  end.

#[export] Instance small_engine : RegexEngine := {|
  Pattern := list Atom;
  re_compile src := parse_atoms (list_ascii_of_string src);
  match_at p s i :=
    if (i <=? str_len s)%nat
    then match_atoms p (drop i (list_ascii_of_string s)) i
    else None
|}.

(** ** Python values

    The handler returns nested dicts and lists of strings, integers,
    booleans and [None]. *)

Inductive Value :=
| VNone
| VBool (b : bool)
| VInt (n : Z)
| VStr (s : string)
| VList (l : list Value)
| VDict (d : gmap string Value).

(** A dict display [{k1: v1, ...}]. *)
Definition dict (kvs : list (string * Value)) : Value :=
  VDict (list_to_map kvs).

(** [v[k]] when [v] is a dict that has the key. *)
Definition get (k : string) (v : Value) : option Value :=
  match v with
  | VDict d => d !! k
  | _ => None
  end.

(** [v[k1][k2]...] *)
Fixpoint at_path (ks : list string) (v : Value) : option Value :=
  match ks with
  | [] => Some v
  | k :: rest =>
      match get k v with
      | Some v' => at_path rest v'
      | None => None
      end
  end.

(** [len(l)] *)
Definition len {A} (l : list A) : Z := Z.of_nat (length l).

(** [v['status'] == s] *)
Definition has_status (s : string) (v : Value) : bool :=
  match get "status" v with
  | Some (VStr s') => String.eqb s' s
  | _ => false
  end.

(** The number of records that say "deleted". *)
Definition count_deleted (records : list Value) : Z :=
  len (List.filter (has_status "deleted") records).

(** A record about a tag carries [tag_id]; one about a namespace carries
    [namespace_id] and [type] instead. *)
Definition is_tag_record (v : Value) : Prop := is_Some (get "tag_id" v).

Definition is_namespace_record (v : Value) : Prop :=
  get "type" v = Some (VStr "namespace") /\ get "tag_id" v = None.


Definition keys (v : Value) : gset string :=
  match v with
  | VDict d => dom d
  | _ => ∅
  end.




(** The fields of the two records the deletion loop appends. *)
Definition deleted_record_keys : gset string :=
  list_to_set ["tag_id"; "tag_name"; "image_name"; "status"; "deletion_reasons";
               "created_at"; "updated_at"].

Definition error_record_keys : gset string :=
  list_to_set ["tag_id"; "tag_name"; "status"; "deletion_reasons"; "error"].

Definition is_tag_recordb (v : Value) : bool :=
  match get "tag_id" v with Some _ => true | None => false end.

(** The records of a message log that are about tags. *)
Definition tag_records (msg : list Value) : list Value :=
  List.filter is_tag_recordb msg.

(** A record about a tag is one of the two. *)
Definition tag_record_shape (v : Value) : Prop :=
  (keys v = deleted_record_keys /\ get "status" v = Some (VStr "deleted")) \/
  (keys v = error_record_keys /\ get "status" v = Some (VStr "error")).

Definition VOptStr (o : option string) : Value :=
  match o with
  | Some s => VStr s
  | None => VNone
  end.

(** *** Reading a result *)

Definition status_code (result : Value) : option Value := get "statusCode" result.

(** The message log [result['body']['message']]. *)
Definition message_log (result : Value) : option (list Value) :=
  match at_path ["body"; "message"] result with
  | Some (VList msg) => Some msg
  | _ => None
  end.

Definition summary (result : Value) : option Value :=
  at_path ["body"; "summary"] result.

(** [result['body']['summary'][k]] when it is an integer. *)
Definition counter (k : string) (result : Value) : option Z :=
  match at_path ["body"; "summary"; k] result with
  | Some (VInt n) => Some n
  | _ => None
  end.

(** The counters a summary may hold. *)
Definition summary_counters : list string :=
  ["total_images_analyzed"; "total_tags_found"; "successfully_deleted"; "errors";
   "namespaces_deleted"; "namespace_errors"].

(** Every integer of the summary is zero. *)
Definition all_counters_zero (result : Value) : Prop :=
  forall k n, counter k result = Some n -> n = 0.


(** ** The environment *)

(** [os.environ[k]] *)
Definition environ_getitem (environ : gmap string string) (k : string) : Result string :=
  match environ !! k with
  | Some v => Ok v
  | None => Raise (mkExn KeyError ("'" +:+ k +:+ "'"))
  end.

(** [os.environ.get(k, default)] *)
Definition environ_get (environ : gmap string string) (k : string)
    (default : option string) : option string :=
  match environ !! k with
  | Some v => Some v
  | None => default
  end.

Definition ascii_lower (c : ascii) : ascii :=
  let n := nat_of_ascii c in
  if ((65 <=? n) && (n <=? 90))%nat then ascii_of_nat (n + 32) else c.

(** [s.lower()] (on ASCII; other bytes are kept) *)
Fixpoint lower (s : string) : string :=
  match s with
  | EmptyString => EmptyString
  | String c rest => String (ascii_lower c) (lower rest)
  end.

(** [os.environ.get(k, default).lower() == 'true'] *)
Definition environ_flag (environ : gmap string string) (k default : string) : bool :=
  match environ_get environ k (Some default) with
  | Some v => String.eqb (lower v) "true"
  | None => false
  end.

(** ** The registry client

    The client is a collaborator: each operation takes the registry's
    state, may raise, and leaves a new state.  Arguments follow the
    keyword arguments of the calls the handler makes ([None] for an
    argument that is not passed). *)

Class RegistryAPI (W : Type) := {
  api_list_images_all :
    forall (region : string) (namespace_id order_by : option string),
      W -> Result (list Image) * W;
  api_list_tags_all :
    forall (region image_id : string) (order_by : option string),
      W -> Result (list Tag) * W;
  api_delete_tag : forall (region tag_id : string), W -> Result unit * W;
  api_get_namespace : forall (region namespace_id : string), W -> Result Namespace * W;
  api_list_namespaces_all : forall (region : string), W -> Result (list Namespace) * W;
  api_delete_namespace : forall (region namespace_id : string), W -> Result unit * W
}.

(** A call the handler makes, and what came back. *)
Inductive Call :=
| ListImagesAll (region : string) (namespace_id order_by : option string)
| ListTagsAll (region image_id : string) (order_by : option string)
| DeleteTag (region tag_id : string)
| GetNamespace (region namespace_id : string)
| ListNamespacesAll (region : string)
| DeleteNamespace (region namespace_id : string).

Inductive Reply :=
| Raised (e : Exn)
| Images (l : list Image)
| Tags (l : list Tag)
| Done
| ANamespace (n : Namespace)
| Namespaces (l : list Namespace).

Definition Event : Type := Call * Reply.


(** *** Reading a record of calls *)

(** The tags returned by the tag listings that succeeded. *)
Definition listed_tags (tr : list Event) : list Tag :=
  flat_map (fun ev => match ev with
                      | (ListTagsAll _ _ _, Tags ts) => ts
                      | _ => []
                      end) tr.

(** The images whose tags were asked for. *)
Definition tag_listing_calls (tr : list Event) : list string :=
  flat_map (fun ev => match ev with
                      | (ListTagsAll _ i _, _) => [i]
                      | _ => []
                      end) tr.

(** The [delete_tag] calls: tag id and reply. *)
Definition delete_tag_events (tr : list Event) : list (string * Reply) :=
  flat_map (fun ev => match ev with
                      | (DeleteTag _ t, r) => [(t, r)]
                      | _ => []
                      end) tr.

(** The image listings of the sweep (one namespace, no ordering):
    namespace id and reply. *)
Definition sweep_listings (tr : list Event) : list (string * Reply) :=
  flat_map (fun ev => match ev with
                      | (ListImagesAll _ (Some n) None, r) => [(n, r)]
                      | _ => []
                      end) tr.

(** The namespaces [delete_namespace] was called on. *)
Definition delete_namespace_calls (tr : list Event) : list string :=
  flat_map (fun ev => match ev with
                      | (DeleteNamespace _ n, _) => [n]
                      | _ => []
                      end) tr.

(** Among listings, the namespaces whose listing came back with no image. *)
Definition empty_listed (l : list (string * Reply)) : list string :=
  flat_map (fun p => match p with
                     | (n, Images []) => [n]
                     | _ => []
                     end) l.

(** The calls that fetch the namespaces to check. *)
Definition namespace_fetches (tr : list Event) : list Event :=
  List.filter (fun ev => match ev with
                         | (GetNamespace _ _, _) | (ListNamespacesAll _, _) => true
                         | _ => false
                         end) tr.

(** The [delete_namespace] calls: namespace id and reply. *)
Definition delete_namespace_events (tr : list Event) : list (string * Reply) :=
  flat_map (fun ev => match ev with
                      | (DeleteNamespace _ n, r) => [(n, r)]
                      | _ => []
                      end) tr.

(** The namespaces the fetches returned. *)
Definition fetched_namespaces (tr : list Event) : list Namespace :=
  flat_map (fun ev => match ev with
                      | (GetNamespace _ _, ANamespace n) => [n]
                      | (ListNamespacesAll _, Namespaces l) => l
                      | _ => []
                      end) tr.

(** How many listings of all namespaces raised (at most one is made). *)
Definition namespace_listing_failures (tr : list Event) : Z :=
  len (List.filter (fun ev => match ev with
                              | (ListNamespacesAll _, Raised _) => true
                              | _ => false
                              end) tr).

Definition is_raised (reply : Reply) : bool :=
  match reply with Raised _ => true | _ => false end.

Definition is_done (reply : Reply) : bool :=
  match reply with Done => true | _ => false end.

(** How many of the calls raised, and how many went through. *)
Definition count_raised (l : list (string * Reply)) : Z :=
  len (List.filter (fun p => is_raised (snd p)) l).

Definition count_done (l : list (string * Reply)) : Z :=
  len (List.filter (fun p => is_done (snd p)) l).

(** The region a call is made in. *)
Definition call_region (c : Call) : string :=
  match c with
  | ListImagesAll r _ _ | ListTagsAll r _ _ | DeleteTag r _
  | GetNamespace r _ | ListNamespacesAll r | DeleteNamespace r _ => r
  end.

(** The operation a call belongs to. *)
Inductive Operation :=
| OpListImages | OpListTags | OpDeleteTag
| OpGetNamespace | OpListNamespaces | OpDeleteNamespace.

Definition operation (c : Call) : Operation :=
  match c with
  | ListImagesAll _ _ _ => OpListImages
  | ListTagsAll _ _ _ => OpListTags
  | DeleteTag _ _ => OpDeleteTag
  | GetNamespace _ _ => OpGetNamespace
  | ListNamespacesAll _ => OpListNamespaces
  | DeleteNamespace _ _ => OpDeleteNamespace
  end.

(** The calls of the sweep: fetching namespaces, listing the images of
    one namespace (no ordering), deleting a namespace. *)
Definition is_sweep_call (c : Call) : bool :=
  match c with
  | ListImagesAll _ (Some _) None => true
  | GetNamespace _ _ | ListNamespacesAll _ | DeleteNamespace _ _ => true
  | _ => false
  end.

(** ** The monad of the handler

    A computation takes the registry's state and returns its result (or
    the exception it raised), the new state, and the calls it made. *)

Definition M (W A : Type) : Type := W -> Result A * W * list Event.

Definition ret {W A} (a : A) : M W A := fun w => (Ok a, w, []).

Definition bind {W A B} (m : M W A) (k : A -> M W B) : M W B :=
  fun w =>
    match m w with
    | (Ok a, w1, t1) => let '(r, w2, t2) := k a w1 in (r, w2, t1 ++ t2)
    | (Raise e, w1, t1) => (Raise e, w1, t1)
    end.

(** [try: m except Exception as e: h e].  The handler runs in the state
    the failed block left behind. *)
Definition try_except {W A} (m : M W A) (h : Exn -> M W A) : M W A :=
  fun w =>
    match m w with
    | (Ok a, w1, t1) => (Ok a, w1, t1)
    | (Raise e, w1, t1) => let '(r, w2, t2) := h e w1 in (r, w2, t1 ++ t2)
    end.

Definition lift {W A} (r : Result A) : M W A := fun w => (r, w, []).

(** One client call, recorded with its reply. *)
Definition invoke {W A} (c : Call) (op : W -> Result A * W) (reply : A -> Reply) : M W A :=
  fun w =>
    let '(r, w1) := op w in
    (r, w1, [(c, match r with Ok a => reply a | Raise e => Raised e end)]).

Declare Scope m_scope.
Delimit Scope m_scope with M.
Notation "x <- m ;; k" := (bind m (fun x => k))
  (at level 100, m at next level, right associativity) : m_scope.

(** ** The handler *)

(** An entry of [tags_to_delete]: [{'tag': tag, 'reason': deletion_reason}] *)
Record Candidate := mkCandidate { cand_tag : Tag; cand_reason : list string }.

(** The configuration read from the environment at the top of [handle]. *)
Record Config := mkConfig {
  region : string;
  delete_old_tags : bool;
  tag_name_pattern : option string;
  delete_unused_namespaces : bool;
  target_namespace_id : option string
}.

(** The first call of a run: the listing of the images, restricted to
    the targeted namespace when there is one. *)
Definition first_call (cfg : Config) : Call :=
  ListImagesAll (region cfg)
    (if py_truthy (target_namespace_id cfg) then target_namespace_id cfg else None)
    (Some "created_at_asc").

(** The record of a run that got past the first call: the listing of the
    images, then the calls of the scan, of the deletion and of the sweep. *)
Definition run_record (cfg : Config) (images : list Image)
    (t_scan t_del t_sweep : list Event) : list Event :=
  (first_call cfg, Images images) :: t_scan ++ t_del ++ t_sweep.

(** The call that fetches the namespaces to check in the sweep: the
    targeted namespace when there is one, all of them otherwise. *)
Definition fetch_call (cfg : Config) : Call :=
  match target_namespace_id cfg with
  | Some target =>
      if py_truthy (target_namespace_id cfg)
      then GetNamespace (region cfg) target
      else ListNamespacesAll (region cfg)
  | None => ListNamespacesAll (region cfg)
  end.

Section Handler.
Context `{RegexEngine} {W : Type} `{RegistryAPI W}.

(** [d.isoformat()], the rendering of a datetime in ISO 8601 *)
Variable isoformat : datetime -> string.

Variable clk : Clock.

Definition list_images_all (region : string) (namespace_id order_by : option string)
    : M W (list Image) :=
  invoke (ListImagesAll region namespace_id order_by)
         (api_list_images_all region namespace_id order_by) Images.

Definition list_tags_all (region image_id : string) (order_by : option string)
    : M W (list Tag) :=
  invoke (ListTagsAll region image_id order_by)
         (api_list_tags_all region image_id order_by) Tags.

Definition delete_tag (region tag_id : string) : M W unit :=
  invoke (DeleteTag region tag_id) (api_delete_tag region tag_id) (fun _ => Done).

Definition get_namespace (region namespace_id : string) : M W Namespace :=
  invoke (GetNamespace region namespace_id)
         (api_get_namespace region namespace_id) ANamespace.

Definition list_namespaces_all (region : string) : M W (list Namespace) :=
  invoke (ListNamespacesAll region) (api_list_namespaces_all region) Namespaces.

Definition delete_namespace (region namespace_id : string) : M W unit :=
  invoke (DeleteNamespace region namespace_id)
         (api_delete_namespace region namespace_id) (fun _ => Done).

(** *** Classification (the body of [for tag in tags_response]) *)

(** The two guarded tests, in the order the loop body makes them. *)
Definition age_triggered (cfg : Config) (tag : Tag) : bool :=
  delete_old_tags cfg && is_tag_old clk tag.

Definition name_triggered (cfg : Config) (tag : Tag) : bool :=
  py_truthy (tag_name_pattern cfg)
  && should_delete_tag_by_name tag (tag_name_pattern cfg).

(** One iteration: [should_delete] and [deletion_reason] start at
    [False] and [[]]; the iteration appends at most one entry. *)
Definition classify_tag (cfg : Config) (tags_to_delete : list Candidate) (tag : Tag)
    : list Candidate :=
  let should_delete := false in
  let deletion_reason := @nil string in
  let '(should_delete, deletion_reason) :=
    if age_triggered cfg tag
    then (true, deletion_reason ++ ["old"])
    else (should_delete, deletion_reason) in
  let '(should_delete, deletion_reason) :=
    if name_triggered cfg tag
    then (true, deletion_reason ++ ["name_match"])
    else (should_delete, deletion_reason) in
  if should_delete
  then tags_to_delete ++ [mkCandidate tag deletion_reason]
  else tags_to_delete.

Definition classify_tags (cfg : Config) (tags_to_delete : list Candidate)
    (tags_response : list Tag) : list Candidate :=
  fold_left (classify_tag cfg) tags_response tags_to_delete.

(** [for image in images_response]: a failed tag listing is caught
    and the loop goes on with the next image.  The listing is the
    first thing the [try] block does, so the handler sees
    [tags_to_delete] as it was when the block was entered. *)
Fixpoint scan_images (cfg : Config) (images : list Image)
    (tags_to_delete : list Candidate) : M W (list Candidate) :=
  match images with
  | [] => ret tags_to_delete
  | image :: rest =>
      (tags_to_delete' <-
         try_except
           (tags_response <-
              list_tags_all (region cfg) (image_id image) (Some "created_at_desc") ;;
            ret (classify_tags cfg tags_to_delete tags_response))
           (fun e => ret tags_to_delete) ;;
       scan_images cfg rest tags_to_delete')%M
  end.

(** *** Deletion (the body of [for tag_info in tags_to_delete]) *)

(** [a.isoformat()] on an attribute that may be [None] *)
Definition isoformat_of (a : option datetime) : Result string :=
  match a with
  | Some d => Ok (isoformat d)
  | None => Raise (mkExn AttributeError "'NoneType' object has no attribute 'isoformat'")
  end.

(** The record appended after a successful [delete_tag]. *)
Definition deleted_record (tag : Tag) (reasons : list string) : Result Value :=
  (let image_name := default "unknown" (tag_image_name tag) in
   created <- isoformat_of (created_at tag) ;;
   updated <- isoformat_of (updated_at tag) ;;
   Ok (dict [("tag_id", VStr (tag_id tag));
             ("tag_name", VStr (tag_name tag));
             ("image_name", VStr image_name);
             ("status", VStr "deleted");
             ("deletion_reasons", VList (VStr <$> reasons));
             ("created_at", VStr created);
             ("updated_at", VStr updated)]))%result.

(** The record appended by the [except] branch. *)
Definition error_record (tag : Tag) (reasons : list string) (e : Exn) : Value :=
  dict [("tag_id", VStr (tag_id tag));
        ("tag_name", VStr (tag_name tag));
        ("status", VStr "error");
        ("deletion_reasons", VList (VStr <$> reasons));
        ("error", VStr (exn_msg e))].

(** One iteration.  Whatever raises in the [try] block does so before
    [msg.append], so the handler sees [msg] and [deleted_count] as
    they were when the block was entered. *)
Definition delete_one (cfg : Config) (tag_info : Candidate)
    (acc : list Value * Z) : M W (list Value * Z) :=
  let '(msg, deleted_count) := acc in
  let tag := cand_tag tag_info in
  let reasons := cand_reason tag_info in
  try_except
    (_ <- delete_tag (region cfg) (tag_id tag) ;;
     record <- lift (deleted_record tag reasons) ;;
     ret (msg ++ [record], deleted_count + 1))%M
    (fun e => ret (msg ++ [error_record tag reasons e], deleted_count)).

Fixpoint delete_tags (cfg : Config) (tags_to_delete : list Candidate)
    (acc : list Value * Z) : M W (list Value * Z) :=
  match tags_to_delete with
  | [] => ret acc
  | tag_info :: rest =>
      (acc' <- delete_one cfg tag_info acc ;;
       delete_tags cfg rest acc')%M
  end.

(** *** The sweep of empty namespaces *)

Definition namespace_record (namespace : Namespace) (status : string)
    (error : option string) : Value :=
  dict ([("namespace_id", VStr (namespace_id namespace));
         ("namespace_name", VStr (namespace_name namespace));
         ("status", VStr status);
         ("type", VStr "namespace");
         ("reason", VStr "empty_namespace")]
        ++ match error with
           | Some s => [("error", VStr s)]
           | None => []
           end).

(** The accumulators of the sweep: [msg], [deleted_namespaces_count]
    and [namespace_errors]. *)
Definition SweepAcc : Type := list Value * Z * Z.

(** One iteration of [for namespace in namespaces_to_check]. *)
Definition sweep_one (cfg : Config) (namespace : Namespace) (acc : SweepAcc)
    : M W SweepAcc :=
  let '(msg, deleted_namespaces_count, namespace_errors) := acc in
  try_except
    (images_in_namespace <-
       list_images_all (region cfg) (Some (namespace_id namespace)) None ;;
     if len images_in_namespace =? 0
     then
       try_except
         (_ <- delete_namespace (region cfg) (namespace_id namespace) ;;
          ret (msg ++ [namespace_record namespace "deleted" None],
               deleted_namespaces_count + 1, namespace_errors))
         (fun e =>
            ret (msg ++ [namespace_record namespace "error" (Some (exn_msg e))],
                 deleted_namespaces_count, namespace_errors + 1))
     else ret acc)%M
    (fun e => ret (msg, deleted_namespaces_count, namespace_errors + 1)).

Fixpoint sweep_namespaces (cfg : Config) (namespaces_to_check : list Namespace)
    (acc : SweepAcc) : M W SweepAcc :=
  match namespaces_to_check with
  | [] => ret acc
  | namespace :: rest =>
      (acc' <- sweep_one cfg namespace acc ;;
       sweep_namespaces cfg rest acc')%M
  end.

(** The namespaces to check: the targeted one (none if it cannot be
    fetched), or all of them. *)
Definition namespaces_to_check (cfg : Config) : M W (list Namespace) :=
  match target_namespace_id cfg with
  | Some target =>
      if py_truthy (target_namespace_id cfg)
      then
        try_except
          (namespace <- get_namespace (region cfg) target ;; ret [namespace])%M
          (fun e => ret [])
      else list_namespaces_all (region cfg)
  | None => list_namespaces_all (region cfg)
  end.

(** [if delete_unused_namespaces: try: ... except: namespace_errors += 1].
    Inside the [try] only the listing of all namespaces can raise, and
    it does so before the loop starts. *)
Definition sweep (cfg : Config) (msg : list Value) : M W SweepAcc :=
  let deleted_namespaces_count := 0 in
  let namespace_errors := 0 in
  if delete_unused_namespaces cfg
  then
    try_except
      (to_check <- namespaces_to_check cfg ;;
       sweep_namespaces cfg to_check (msg, deleted_namespaces_count, namespace_errors))%M
      (fun e => ret (msg, deleted_namespaces_count, namespace_errors + 1))
  else ret (msg, deleted_namespaces_count, namespace_errors).

(** *** Results *)

Definition criteria_used (cfg : Config) : Value :=
  dict [("delete_old_tags", VBool (delete_old_tags cfg));
        ("tag_name_pattern", VOptStr (tag_name_pattern cfg));
        ("delete_unused_namespaces", VBool (delete_unused_namespaces cfg));
        ("target_namespace_id", VOptStr (target_namespace_id cfg))].

Definition success_result (cfg : Config) (images_response : list Image)
    (tags_to_delete : list Candidate) (msg : list Value) (deleted_count : Z)
    (deleted_namespaces_count namespace_errors : Z) : Value :=
  dict [("body",
         dict [("message", VList msg);
               ("summary",
                dict [("total_images_analyzed", VInt (len images_response));
                      ("total_tags_found", VInt (len tags_to_delete));
                      ("successfully_deleted", VInt deleted_count);
                      ("errors", VInt (len tags_to_delete - deleted_count));
                      ("namespaces_deleted",
                       VInt (if delete_unused_namespaces cfg
                             then deleted_namespaces_count else 0));
                      ("namespace_errors",
                       VInt (if delete_unused_namespaces cfg
                             then namespace_errors else 0));
                      ("criteria_used", criteria_used cfg)])]);
        ("statusCode", VInt 200)].

Definition error_result (cfg : Config) (e : Exn) : Value :=
  dict [("body",
         dict [("error", VStr ("Erreur générale du script: " +:+ exn_msg e));
               ("summary",
                dict [("total_images_analyzed", VInt 0);
                      ("total_tags_found", VInt 0);
                      ("successfully_deleted", VInt 0);
                      ("errors", VInt 1);
                      ("criteria_used", criteria_used cfg)])]);
        ("statusCode", VInt 500)].

(** The outer [try] block of [handle]. *)
Definition run (cfg : Config) : M W Value :=
  let tags_to_delete := @nil Candidate in
  (images_response <-
     (if py_truthy (target_namespace_id cfg)
      then list_images_all (region cfg) (target_namespace_id cfg) (Some "created_at_asc")
      else list_images_all (region cfg) None (Some "created_at_asc")) ;;
   tags_to_delete <- scan_images cfg images_response tags_to_delete ;;
   let msg := @nil Value in
   let deleted_count := 0 in
   deleted <- delete_tags cfg tags_to_delete (msg, deleted_count) ;;
   let '(msg, deleted_count) := deleted in
   swept <- sweep cfg msg ;;
   let '(msg, deleted_namespaces_count, namespace_errors) := swept in
   ret (success_result cfg images_response tags_to_delete msg deleted_count
                       deleted_namespaces_count namespace_errors))%M.

Definition read_config (environ : gmap string string) : Result Config :=
  (region <- environ_getitem environ "REGION" ;;
   Ok {| region := region;
         delete_old_tags := environ_flag environ "DELETE_OLD_TAGS" "true";
         tag_name_pattern := environ_get environ "TAG_NAME_PATTERN" None;
         delete_unused_namespaces := environ_flag environ "DELETE_UNUSED_NAMESPACE" "false";
         target_namespace_id := environ_get environ "NAMESPACE_ID" None |})%result.

(** [handle(event, context)] with its client built: the configuration
    is read, then the [try] block is run.  Neither argument is read. *)
Definition handle (environ : gmap string string) : M W Value :=
  (cfg <- lift (read_config environ) ;;
   try_except (run cfg) (fun e => ret (error_result cfg e)))%M.

(** [handle(event, context)] from its first line.  Between reading the
    configuration and entering the [try] block the handler builds its
    client ([Client.from_config_file_and_env()], then
    [RegistryV1API(client)]).  This makes no call to the registry, but
    it raises (a [ValueError]) when the credentials are missing or
    malformed, and nothing catches that.  [new_client] is the outcome
    of the construction. *)
Definition handle_from_start (new_client : Result unit)
    (environ : gmap string string) : M W Value :=
  (cfg <- lift (read_config environ) ;;
   _ <- lift new_client ;;
   try_except (run cfg) (fun e => ret (error_result cfg e)))%M.

(** *** What the handler is meant to do, in terms of its inputs *)

(** The reasons that apply to a tag, and whether any does. *)
Definition reasons (cfg : Config) (tag : Tag) : list string :=
  (if age_triggered cfg tag then ["old"] else [])
  ++ (if name_triggered cfg tag then ["name_match"] else []).

Definition triggered (cfg : Config) (tag : Tag) : bool :=
  age_triggered cfg tag || name_triggered cfg tag.

(** One candidate per listed tag that triggered, in listing order. *)
Definition candidates_of (cfg : Config) (tags : list Tag) : list Candidate :=
  (fun tag => mkCandidate tag (reasons cfg tag)) <$> List.filter (triggered cfg) tags.

(** The record a candidate leaves in the message log, given the reply
    to its [delete_tag] call. *)
Definition outcome_record (tag_info : Candidate) (reply : Reply) : Value :=
  let tag := cand_tag tag_info in
  let reasons := cand_reason tag_info in
  match reply with
  | Raised e => error_record tag reasons e
  | _ =>
      match deleted_record tag reasons with
      | Ok record => record
      | Raise e => error_record tag reasons e
      end
  end.

(** The record of a candidate says "deleted" exactly when the call
    went through and the record could be built. *)
Definition succeeded (tag_info : Candidate) (reply : Reply) : bool :=
  has_status "deleted" (outcome_record tag_info reply).

(** What the registry answers to the first call. *)
Definition first_listing (cfg : Config) (w : W) : Result (list Image) * W :=
  api_list_images_all (region cfg)
    (if py_truthy (target_namespace_id cfg) then target_namespace_id cfg else None)
    (Some "created_at_asc") w.

End Handler.

(** The record a namespace found empty leaves in the message log, given
    the reply to its [delete_namespace] call. *)
Definition namespace_outcome (namespace : Namespace) (reply : Reply) : Value :=
  match reply with
  | Raised e => namespace_record namespace "error" (Some (exn_msg e))
  | _ => namespace_record namespace "deleted" None
  end.

(** Among the namespaces examined, those whose listing came back with
    no image. *)
Definition found_empty (namespaces : list Namespace) (listings : list (string * Reply))
    : list Namespace :=
  flat_map (fun p => match snd (snd p) with
                     | Images [] => [fst p]
                     | _ => []
                     end) (zip namespaces listings).

(** ** An in-memory registry

    A client over a small registry held in memory, with switches that
    make selected calls fail.  It is used to run the handler on concrete
    inputs. *)

Record Registry := mkRegistry {
  reg_namespaces : list Namespace;
  reg_images : list (string * Image);      (* namespace id, image *)
  reg_tags : list (string * Tag);          (* image id, tag *)
  images_down : bool;                      (* image listings fail *)
  namespaces_down : bool;                  (* the listing of namespaces fails *)
  broken_images : list string;             (* images whose tag listing fails *)
  locked_tags : list string                (* tags that cannot be deleted *)
}.

Definition in_strings (s : string) (l : list string) : bool :=
  existsb (String.eqb s) l.

Definition exists_tag (tag_id' : string) (r : Registry) : bool :=
  existsb (fun p => String.eqb (tag_id (snd p)) tag_id') (reg_tags r).

Definition mem_list_images_all (_ : string) (namespace_id' _ : option string)
    (r : Registry) : Result (list Image) * Registry :=
  if images_down r then (Raise (mkExn ApiError "registry unavailable"), r)
  else
    (Ok (snd <$> List.filter (fun p => match namespace_id' with
                                       | Some n => String.eqb (fst p) n
                                       | None => true
                                       end) (reg_images r)), r).

Definition mem_list_tags_all (_ image_id' : string) (_ : option string)
    (r : Registry) : Result (list Tag) * Registry :=
  if in_strings image_id' (broken_images r)
  then (Raise (mkExn ApiError "cannot list tags"), r)
  else (Ok (snd <$> List.filter (fun p => String.eqb (fst p) image_id') (reg_tags r)), r).

Definition mem_delete_tag (_ tag_id' : string) (r : Registry) : Result unit * Registry :=
  if in_strings tag_id' (locked_tags r)
  then (Raise (mkExn ApiError "tag is locked"), r)
  else if exists_tag tag_id' r
  then (Ok tt,
        mkRegistry (reg_namespaces r) (reg_images r)
          (List.filter (fun p => negb (String.eqb (tag_id (snd p)) tag_id')) (reg_tags r))
          (images_down r) (namespaces_down r) (broken_images r) (locked_tags r))
  else (Raise (mkExn ApiError "tag not found"), r).

Definition mem_get_namespace (_ namespace_id' : string) (r : Registry)
    : Result Namespace * Registry :=
  match List.find (fun n => String.eqb (namespace_id n) namespace_id') (reg_namespaces r) with
  | Some n => (Ok n, r)
  | None => (Raise (mkExn ApiError "namespace not found"), r)
  end.

Definition mem_list_namespaces_all (_ : string) (r : Registry)
    : Result (list Namespace) * Registry :=
  if namespaces_down r then (Raise (mkExn ApiError "registry unavailable"), r)
  else (Ok (reg_namespaces r), r).

Definition mem_delete_namespace (_ namespace_id' : string) (r : Registry)
    : Result unit * Registry :=
  if existsb (fun n => String.eqb (namespace_id n) namespace_id') (reg_namespaces r)
  then (Ok tt,
        mkRegistry
          (List.filter (fun n => negb (String.eqb (namespace_id n) namespace_id'))
                       (reg_namespaces r))
          (reg_images r) (reg_tags r)
          (images_down r) (namespaces_down r) (broken_images r) (locked_tags r))
  else (Raise (mkExn ApiError "namespace not found"), r).

#[export] Instance mem_registry : RegistryAPI Registry := {|
  api_list_images_all := mem_list_images_all;
  api_list_tags_all := mem_list_tags_all;
  api_delete_tag := mem_delete_tag;
  api_get_namespace := mem_get_namespace;
  api_list_namespaces_all := mem_list_namespaces_all;
  api_delete_namespace := mem_delete_namespace
|}.

(** A rendering of datetimes for the in-memory runs: the zone kind only
    (the calendar rendering plays no part in what is proved). *)
Definition mem_isoformat (d : datetime) : string :=
  match tzinfo d with
  | Some _ => "aware"
  | None => "naive"
  end.

(** *** Sample data *)

Definition DAY : Z := MICROS_PER_DAY.

(** A clock reading of day 739000 (in the year 2024), UTC zone. *)
Definition sample_clock : Clock := mkClock (739000 * DAY) 0.

Definition utc (days : Z) : option datetime := Some (mkDatetime (days * DAY) (Some 0)).

(** Created and updated 200 days ago. *)
Definition tag_stale : Tag :=
  mkTag "t-stale" "build-17" (utc 738800) (utc 738800) None.
(** Created 200 days ago, updated yesterday. *)
Definition tag_touched : Tag :=
  mkTag "t-touched" "build-18" (utc 738800) (utc 738999) None.
(** Old, and named like a release candidate. *)
Definition tag_rc : Tag :=
  mkTag "t-rc" "v1.2-rc1" (utc 738000) (utc 738001) None.
(** Recent, and named like a release candidate. *)
Definition tag_rc_new : Tag :=
  mkTag "t-rc-new" "v2.0-rc1" (utc 738990) (utc 738990) None.
(** A tag whose timestamps the registry did not send. *)
Definition tag_undated : Tag :=
  mkTag "t-undated" "v3.0-rc2" None None None.

Definition img_a : Image := mkImage "img-a" "api".
Definition img_b : Image := mkImage "img-b" "worker".

Definition ns_main : Namespace := mkNamespace "ns-main" "main".
Definition ns_empty : Namespace := mkNamespace "ns-empty" "scratch".

Definition sample_registry : Registry := {|
  reg_namespaces := [ns_main; ns_empty];
  reg_images := [("ns-main", img_a); ("ns-main", img_b)];
  reg_tags := [("img-a", tag_stale); ("img-a", tag_touched);
               ("img-b", tag_rc); ("img-b", tag_rc_new); ("img-b", tag_undated)];
  images_down := false;
  namespaces_down := false;
  broken_images := [];
  locked_tags := []
|}.

(** The same registry when it cannot list images at all. *)
Definition registry_down : Registry := {|
  reg_namespaces := reg_namespaces sample_registry;
  reg_images := reg_images sample_registry;
  reg_tags := reg_tags sample_registry;
  images_down := true;
  namespaces_down := false;
  broken_images := [];
  locked_tags := []
|}.

(** The same registry when the tags of one image cannot be listed and
    one tag of the other image cannot be deleted. *)
Definition registry_flaky : Registry := {|
  reg_namespaces := reg_namespaces sample_registry;
  reg_images := reg_images sample_registry;
  reg_tags := reg_tags sample_registry;
  images_down := false;
  namespaces_down := false;
  broken_images := ["img-a"];
  locked_tags := ["t-rc"]
|}.

(** The same registry when it cannot list its namespaces. *)
Definition registry_no_namespaces : Registry := {|
  reg_namespaces := reg_namespaces sample_registry;
  reg_images := reg_images sample_registry;
  reg_tags := reg_tags sample_registry;
  images_down := false;
  namespaces_down := true;
  broken_images := [];
  locked_tags := []
|}.

Definition sample_environ : gmap string string :=
  list_to_map [("REGION", "fr-par"); ("TAG_NAME_PATTERN", "-rc");
               ("DELETE_UNUSED_NAMESPACE", "True")].

Definition sample_config : Config :=
  mkConfig "fr-par" true (Some "-rc") true None.

(** The same environment, restricted to a namespace the registry does
    not have. *)
Definition targeted_environ : gmap string string :=
  list_to_map [("REGION", "fr-par"); ("TAG_NAME_PATTERN", "-rc");
               ("DELETE_UNUSED_NAMESPACE", "True"); ("NAMESPACE_ID", "ns-gone")].

Definition targeted_config : Config :=
  mkConfig "fr-par" true (Some "-rc") true (Some "ns-gone").

(** Running the handler on the in-memory registry. *)
Definition mem_handle (environ : gmap string string) (r : Registry)
    : Result Value * Registry * list Event :=
  handle mem_isoformat sample_clock environ r.
Lemma datetime_cmp_same_kind (a b : datetime) :
  (is_Some (tzinfo a) <-> is_Some (tzinfo b)) ->
  datetime_cmp a b = Ok (instant a ?= instant b).
Proof.
  unfold datetime_cmp, instant.
  destruct (tzinfo a) as [oa|], (tzinfo b) as [ob|]; intros [H1 H2].
  - destruct (Z.eqb_spec oa ob) as [->|]; [|reflexivity].
    f_equal. destruct (Z.compare_spec (wall a) (wall b));
      symmetry; [apply Z.compare_eq_iff|apply Z.compare_lt_iff|apply Z.compare_gt_iff]; lia.
  - exfalso. destruct H1 as [? ?]; [eauto|discriminate].
  - exfalso. destruct H2 as [? ?]; [eauto|discriminate].
  - reflexivity.
Qed.

(** The cutoff test for a given most recent date.  When the cutoff falls
    before [datetime.min] the subtraction raises, and no representable
    date lies before the cutoff either. *)
Lemma cutoff_test (clk : Clock) (m : datetime) :
  valid_datetime m -> clock_in_range clk m ->
  rcatch (cutoff_date <- datetime_sub (datetime_now clk (tzinfo m))
                                      (timedelta_days RETENTION_DAYS) ;;
          datetime_lt m cutoff_date)%result (fun _ => false) = true
  <-> instant m + RETENTION_DAYS * MICROS_PER_DAY < current_instant clk m.
Proof.
  unfold clock_in_range, valid_datetime, datetime_sub, datetime_now, datetime_lt,
    datetime_cmp, instant, current_instant, timedelta_days.
  assert (Hpos : 0 < RETENTION_DAYS * MICROS_PER_DAY) by reflexivity.
  destruct m as [wm [off|]]; simpl; intros Vm Vn.
  - set (w := utc_now clk + off - RETENTION_DAYS * MICROS_PER_DAY).
    destruct (Z.leb_spec 0 w); destruct (Z.ltb_spec w DATETIME_END); simpl;
      rewrite ?Z.eqb_refl; simpl; subst w;
      try (split; [discriminate | lia]).
    destruct (Z.compare_spec wm (utc_now clk + off - RETENTION_DAYS * MICROS_PER_DAY));
      split; intros; try discriminate; try lia; reflexivity.
  - set (w := utc_now clk + local_offset clk - RETENTION_DAYS * MICROS_PER_DAY).
    destruct (Z.leb_spec 0 w); destruct (Z.ltb_spec w DATETIME_END); simpl; subst w;
      try (split; [discriminate | lia]).
    destruct (Z.compare_spec wm
                (utc_now clk + local_offset clk - RETENTION_DAYS * MICROS_PER_DAY));
      split; intros; try discriminate; try lia; reflexivity.
Qed.

Lemma current_instant_same_kind (clk : Clock) (a b : datetime) :
  (is_Some (tzinfo a) <-> is_Some (tzinfo b)) ->
  current_instant clk a = current_instant clk b.
Proof.
  unfold current_instant.
  destruct (tzinfo a) as [oa|], (tzinfo b) as [ob|]; intros [H1 H2];
    try reflexivity; exfalso.
  - destruct H1 as [? ?]; [eauto|discriminate].
  - destruct H2 as [? ?]; [eauto|discriminate].
Qed.

Lemma is_tag_old_some (clk : Clock) (tag : Tag) (c u : datetime) :
  created_at tag = Some c -> updated_at tag = Some u ->
  valid_datetime c -> valid_datetime u ->
  (is_Some (tzinfo c) <-> is_Some (tzinfo u)) ->
  clock_in_range clk c -> clock_in_range clk u ->
  is_tag_old clk tag = true <-> older_than_retention clk c u.
Proof.
  intros Hc Hu Vc Vu Hk Nc Nu.
  unfold is_tag_old, is_tag_old_body, py_max, datetime_gt.
  rewrite Hc, Hu.
  assert (Hk' : is_Some (tzinfo u) <-> is_Some (tzinfo c)) by tauto.
  rewrite (datetime_cmp_same_kind u c Hk'). cbn [rbind].
  set (m := if match instant u ?= instant c with Gt => true | _ => false end
            then u else c).
  assert (Hm : instant m = Z.max (instant c) (instant u) /\ valid_datetime m /\
               clock_in_range clk m /\
               current_instant clk m = current_instant clk c).
  { subst m.
    destruct (Z.compare_spec (instant u) (instant c));
      (split; [lia | split; [assumption | split; [assumption |]]]);
      try reflexivity.
    apply current_instant_same_kind. assumption. }
  destruct Hm as (Hi & Vm & Nm & Hcur).
  rewrite (cutoff_test clk m Vm Nm).
  unfold older_than_retention. rewrite Hi, Hcur. reflexivity.
Qed.


(** ** The phases of the run *)

Section Phases.
Context `{RegexEngine} {W : Type} `{RegistryAPI W}.
Variable isoformat : datetime -> string.
Variable clk : Clock.

(** *** Classification *)

Lemma classify_tag_eq (cfg : Config) (acc : list Candidate) (tag : Tag) :
  classify_tag clk cfg acc tag = acc ++ candidates_of clk cfg [tag].
Proof.
  unfold classify_tag, candidates_of, triggered, reasons.
  destruct (age_triggered clk cfg tag) eqn:Ha, (name_triggered cfg tag) eqn:Hn;
    simpl; rewrite ?Ha, ?Hn; simpl; rewrite ?Ha, ?Hn, ?app_nil_r; reflexivity.
Qed.

Lemma candidates_of_app (cfg : Config) (l1 l2 : list Tag) :
  candidates_of clk cfg (l1 ++ l2) = candidates_of clk cfg l1 ++ candidates_of clk cfg l2.
Proof. unfold candidates_of. rewrite List.filter_app, fmap_app. reflexivity. Qed.

Lemma classify_tags_eq (cfg : Config) (tags : list Tag) (acc : list Candidate) :
  classify_tags clk cfg acc tags = acc ++ candidates_of clk cfg tags.
Proof.
  unfold classify_tags. revert acc.
  induction tags as [|t tags IH]; intros acc; simpl.
  - rewrite app_nil_r. reflexivity.
  - rewrite IH, classify_tag_eq, <- app_assoc.
    rewrite <- (candidates_of_app cfg [t] tags). reflexivity.
Qed.

(** Every image is asked for its tags, in order, and the candidates
    are those of the tags that were listed. *)
Lemma scan_images_spec (cfg : Config) (images : list Image) :
  forall (acc : list Candidate) (w : W),
  exists w' tr,
    scan_images clk cfg images acc w
      = (Ok (acc ++ candidates_of clk cfg (listed_tags tr)), w', tr) /\
    fst <$> tr
      = (fun image => ListTagsAll (region cfg) (image_id image) (Some "created_at_desc"))
          <$> images.
Proof.
  induction images as [|image rest IH]; intros acc w.
  - exists w, []. simpl. unfold ret. rewrite app_nil_r. split; reflexivity.
  - simpl. unfold bind, try_except at 1, bind, list_tags_all, invoke, ret.
    destruct (api_list_tags_all (region cfg) (image_id image) (Some "created_at_desc") w)
      as [[tags|e] w1] eqn:Hcall; simpl.
    + destruct (IH (classify_tags clk cfg acc tags) w1) as (w' & tr & Hrun & Hcalls).
      rewrite Hrun.
      exists w', ((ListTagsAll (region cfg) (image_id image) (Some "created_at_desc"),
                   Tags tags) :: tr).
      split.
      * rewrite classify_tags_eq, <- app_assoc.
        change (listed_tags (_ :: tr)) with (tags ++ listed_tags tr).
        rewrite candidates_of_app. reflexivity.
      * rewrite !fmap_cons, Hcalls. reflexivity.
    + destruct (IH acc w1) as (w' & tr & Hrun & Hcalls).
      rewrite Hrun.
      exists w', ((ListTagsAll (region cfg) (image_id image) (Some "created_at_desc"),
                   Raised e) :: tr).
      split.
      * reflexivity.
      * rewrite !fmap_cons, Hcalls. reflexivity.
Qed.

(** *** Deletion *)

Lemma error_record_status (tag : Tag) (rs : list string) (e : Exn) :
  has_status "deleted" (error_record tag rs e) = false.
Proof. reflexivity. Qed.

Lemma deleted_record_status (tag : Tag) (rs : list string) (record : Value) :
  deleted_record isoformat tag rs = Ok record -> has_status "deleted" record = true.
Proof.
  unfold deleted_record, isoformat_of.
  destruct (created_at tag), (updated_at tag); simpl; try discriminate.
  intros [= <-]. reflexivity.
Qed.

Lemma delete_one_spec (cfg : Config) (tag_info : Candidate)
    (msg : list Value) (deleted_count : Z) (w : W) :
  exists w' reply,
    delete_one isoformat cfg tag_info (msg, deleted_count) w
      = (Ok (msg ++ [outcome_record isoformat tag_info reply],
             deleted_count + (if succeeded isoformat tag_info reply then 1 else 0)),
         w',
         [(DeleteTag (region cfg) (tag_id (cand_tag tag_info)), reply)]) /\
    (reply = Done \/ exists e, reply = Raised e).
Proof.
  unfold delete_one, try_except, bind, delete_tag, invoke, lift, ret, succeeded,
    outcome_record.
  destruct (api_delete_tag (region cfg) (tag_id (cand_tag tag_info)) w)
    as [[[]|e] w1] eqn:Hcall; simpl.
  - exists w1, Done.
    destruct (deleted_record isoformat (cand_tag tag_info) (cand_reason tag_info))
      as [record|e] eqn:Hrec; simpl.
    + rewrite (deleted_record_status _ _ _ Hrec). split; [reflexivity | left; reflexivity].
    + rewrite error_record_status, Z.add_0_r. split; [reflexivity | left; reflexivity].
  - exists w1, (Raised e). rewrite error_record_status, Z.add_0_r.
    split; [reflexivity | right; eauto].
Qed.

Lemma count_deleted_app (l1 l2 : list Value) :
  count_deleted (l1 ++ l2) = count_deleted l1 + count_deleted l2.
Proof.
  unfold count_deleted, len. rewrite List.filter_app, length_app. lia.
Qed.

(** Every candidate gets its [delete_tag] call, in order, whatever
    happened to the ones before it, and leaves one record. *)
Lemma delete_tags_spec (cfg : Config) (cands : list Candidate) :
  forall (msg : list Value) (deleted_count : Z) (w : W),
  exists w' tr,
    let records := zip_with (outcome_record isoformat) cands (snd <$> tr) in
    delete_tags isoformat cfg cands (msg, deleted_count) w
      = (Ok (msg ++ records, deleted_count + count_deleted records), w', tr) /\
    fst <$> tr
      = (fun c => DeleteTag (region cfg) (tag_id (cand_tag c))) <$> cands /\
    Forall (fun reply => reply = Done \/ exists e, reply = Raised e) (snd <$> tr).
Proof.
  induction cands as [|c rest IH]; intros msg deleted_count w.
  - exists w, []. simpl. unfold ret, count_deleted. simpl.
    rewrite app_nil_r, Z.add_0_r. repeat split. constructor.
  - cbn [delete_tags]. unfold bind at 1.
    destruct (delete_one_spec cfg c msg deleted_count w) as (w1 & reply & Hone & Hreply).
    rewrite Hone.
    destruct (IH (msg ++ [outcome_record isoformat c reply])
                 (deleted_count + (if succeeded isoformat c reply then 1 else 0)) w1)
      as (w' & tr & Hrest & Hcalls & Hreplies).
    simpl in Hrest. rewrite Hrest.
    exists w', ((DeleteTag (region cfg) (tag_id (cand_tag c)), reply) :: tr).
    rewrite !fmap_cons. cbn [fst snd zip_with].
    split; [|split].
    + rewrite <- app_assoc.
      set (o := outcome_record isoformat c reply).
      set (R := zip_with (outcome_record isoformat) rest tr.*2).
      assert (Hc : deleted_count + (if succeeded isoformat c reply then 1 else 0)
                     + count_deleted R
                   = deleted_count + count_deleted (o :: R)).
      { change (o :: R) with ([o] ++ R). rewrite count_deleted_app.
        unfold succeeded. fold o. unfold count_deleted at 2, len. simpl.
        destruct (has_status "deleted" o); simpl; lia. }
      rewrite Hc. reflexivity.
    + rewrite Hcalls. reflexivity.
    + constructor; assumption.
Qed.

(** *** The sweep *)

Lemma namespace_record_is (namespace : Namespace) (status : string)
    (error : option string) :
  is_namespace_record (namespace_record namespace status error).
Proof. destruct error; split; reflexivity. Qed.

Lemma len_eqb_0 {A} (l : list A) :
  (len l =? 0) = match l with [] => true | _ => false end.
Proof. destruct l; reflexivity. Qed.

(** One namespace: its images are listed, and [delete_namespace] is
    called exactly when the listing came back empty. *)
Lemma sweep_one_spec (cfg : Config) (namespace : Namespace)
    (msg : list Value) (d e : Z) (w : W) :
  exists w' tr records d' e',
    sweep_one cfg namespace (msg, d, e) w = (Ok (msg ++ records, d', e'), w', tr) /\
    Forall is_namespace_record records /\
    Forall (fun ev => is_sweep_call (fst ev) = true) tr /\
    namespace_fetches tr = [] /\
    fst <$> sweep_listings tr = [namespace_id namespace] /\
    delete_namespace_calls tr = empty_listed (sweep_listings tr).
Proof.
  unfold sweep_one, try_except at 1, bind, list_images_all, invoke.
  destruct (api_list_images_all (region cfg) (Some (namespace_id namespace)) None w)
    as [[images|ex] w1] eqn:Hlist.
  - rewrite len_eqb_0. destruct images as [|image images].
    + unfold try_except, bind, delete_namespace, invoke, ret.
      destruct (api_delete_namespace (region cfg) (namespace_id namespace) w1)
        as [[[]|ex] w2] eqn:Hdel; simpl.
      * exists w2. eexists. exists [namespace_record namespace "deleted" None]. do 2 eexists.
        split; [reflexivity|]. repeat split; repeat constructor.
      * exists w2. eexists.
        exists [namespace_record namespace "error" (Some (exn_msg ex))]. do 2 eexists.
        split; [reflexivity|]. repeat split; repeat constructor.
    + unfold ret. simpl.
      exists w1. eexists. exists []. do 2 eexists. rewrite app_nil_r.
      split; [reflexivity|]. repeat split; repeat constructor.
  - unfold ret. simpl.
    exists w1. eexists. exists []. do 2 eexists. rewrite app_nil_r.
    split; [reflexivity|]. repeat split; repeat constructor.
Qed.

Lemma sweep_listings_app (t1 t2 : list Event) :
  sweep_listings (t1 ++ t2) = sweep_listings t1 ++ sweep_listings t2.
Proof. apply flat_map_app. Qed.

Lemma delete_namespace_calls_app (t1 t2 : list Event) :
  delete_namespace_calls (t1 ++ t2)
  = delete_namespace_calls t1 ++ delete_namespace_calls t2.
Proof. apply flat_map_app. Qed.

Lemma empty_listed_app (l1 l2 : list (string * Reply)) :
  empty_listed (l1 ++ l2) = empty_listed l1 ++ empty_listed l2.
Proof. apply flat_map_app. Qed.

Lemma namespace_fetches_app (t1 t2 : list Event) :
  namespace_fetches (t1 ++ t2) = namespace_fetches t1 ++ namespace_fetches t2.
Proof. apply List.filter_app. Qed.

(** The loop: every namespace to check is examined once, in order. *)
Lemma sweep_namespaces_spec (cfg : Config) (to_check : list Namespace) :
  forall (msg : list Value) (d e : Z) (w : W),
  exists w' tr records d' e',
    sweep_namespaces cfg to_check (msg, d, e) w
      = (Ok (msg ++ records, d', e'), w', tr) /\
    Forall is_namespace_record records /\
    Forall (fun ev => is_sweep_call (fst ev) = true) tr /\
    namespace_fetches tr = [] /\
    fst <$> sweep_listings tr = namespace_id <$> to_check /\
    delete_namespace_calls tr = empty_listed (sweep_listings tr) /\
    (to_check = [] -> tr = [] /\ records = [] /\ d' = d /\ e' = e).
Proof.
  induction to_check as [|namespace rest IH]; intros msg d e w.
  - exists w, [], [], d, e. simpl. unfold ret. rewrite app_nil_r.
    repeat split; constructor.
  - cbn [sweep_namespaces]. unfold bind at 1.
    destruct (sweep_one_spec cfg namespace msg d e w)
      as (w1 & t1 & r1 & d1 & e1 & Hone & Hr1 & Hs1 & Hf1 & Hl1 & Hd1).
    rewrite Hone.
    destruct (IH (msg ++ r1) d1 e1 w1)
      as (w2 & t2 & r2 & d2 & e2 & Hrest & Hr2 & Hs2 & Hf2 & Hl2 & Hd2 & _).
    rewrite Hrest.
    exists w2, (t1 ++ t2), (r1 ++ r2), d2, e2.
    rewrite <- app_assoc. split; [reflexivity|].
    split; [apply Forall_app; split; assumption|].
    split; [apply Forall_app; split; assumption|].
    split; [rewrite namespace_fetches_app, Hf1, Hf2; reflexivity|].
    split; [rewrite sweep_listings_app, fmap_app, Hl1, Hl2; reflexivity|].
    split; [|discriminate].
    rewrite delete_namespace_calls_app, sweep_listings_app, empty_listed_app, Hd1, Hd2.
    reflexivity.
Qed.

(** The whole sweep.  It never raises; [delete_namespace] is called
    exactly on the namespaces whose listing came back empty, and
    nothing is called when the sweep is disabled.  A failed fetch of
    the namespaces leaves nothing to examine: it adds to
    [namespace_errors] when it was the listing of all namespaces and
    not when it was the fetch of the targeted one. *)
Lemma sweep_spec (cfg : Config) (msg : list Value) (w : W) :
  exists w' tr records d e,
    sweep cfg msg w = (Ok (msg ++ records, d, e), w', tr) /\
    Forall is_namespace_record records /\
    Forall (fun ev => is_sweep_call (fst ev) = true) tr /\
    delete_namespace_calls tr = empty_listed (sweep_listings tr) /\
    (delete_unused_namespaces cfg = false -> tr = []) /\
    (forall c ex, In (c, Raised ex) (namespace_fetches tr) ->
       sweep_listings tr = [] /\ records = [] /\ d = 0 /\
       e = match operation c with OpListNamespaces => 1 | _ => 0 end) /\
    fst <$> namespace_fetches tr
      = (if delete_unused_namespaces cfg then [fetch_call cfg] else []).
Proof.
  unfold sweep.
  destruct (delete_unused_namespaces cfg) eqn:Hen.
  2:{ exists w, [], [], 0, 0. unfold ret. rewrite app_nil_r.
      split; [reflexivity|]. split; [constructor|]. split; [constructor|].
      split; [reflexivity|]. split; [reflexivity|].
      split; [intros c ex []|reflexivity]. }
  assert (Hloop : forall (to_check : list Namespace) (w1 : W) (fetch : Event),
    is_sweep_call (fst fetch) = true ->
    namespace_fetches [fetch] = [fetch] ->
    sweep_listings [fetch] = [] -> delete_namespace_calls [fetch] = [] ->
    (forall ex, snd fetch = Raised ex ->
       to_check = [] /\ operation (fst fetch) <> OpListNamespaces) ->
    fst fetch = fetch_call cfg ->
    exists w' t2 records d e,
      sweep_namespaces cfg to_check (msg, 0, 0) w1
        = (Ok (msg ++ records, d, e), w', t2) /\
      Forall is_namespace_record records /\
      Forall (fun ev => is_sweep_call (fst ev) = true) ([fetch] ++ t2) /\
      delete_namespace_calls ([fetch] ++ t2)
        = empty_listed (sweep_listings ([fetch] ++ t2)) /\
      (true = false -> [fetch] ++ t2 = []) /\
      (forall c ex, In (c, Raised ex) (namespace_fetches ([fetch] ++ t2)) ->
         sweep_listings ([fetch] ++ t2) = [] /\ records = [] /\ d = 0 /\
         e = match operation c with OpListNamespaces => 1 | _ => 0 end) /\
      fst <$> namespace_fetches ([fetch] ++ t2) = [fetch_call cfg]).
  { intros to_check w1 fetch Hsw Hfe Hli Hde Hrai Hfc.
    destruct (sweep_namespaces_spec cfg to_check msg 0 0 w1)
      as (w2 & t2 & r2 & d2 & e2 & Hrun & Hr2 & Hs2 & Hf2 & Hl2 & Hd2 & Hnil).
    exists w2, t2, r2, d2, e2.
    split; [exact Hrun|]. split; [assumption|].
    split; [constructor; assumption|].
    split; [rewrite delete_namespace_calls_app, sweep_listings_app, Hli, Hde; exact Hd2|].
    split; [discriminate|].
    split; [|rewrite namespace_fetches_app, Hfe, Hf2, <- Hfc; reflexivity].
    intros c ex Hin. rewrite namespace_fetches_app, Hfe, Hf2 in Hin.
    destruct Hin as [Heq|[]]. subst fetch.
    destruct (Hrai ex eq_refl) as [-> Hop]. destruct (Hnil eq_refl) as (-> & -> & -> & ->).
    rewrite sweep_listings_app, Hli. simpl in Hop |- *.
    repeat split; try reflexivity. destruct (operation c); congruence. }
  assert (Hfail : forall (w1 : W) (ex : Exn),
    fetch_call cfg = ListNamespacesAll (region cfg) ->
    exists w' tr records d e,
      (Ok (msg, 0, 0 + 1), w1, [(ListNamespacesAll (region cfg), Raised ex)] ++ [])
        = (Ok (msg ++ records, d, e), w', tr) /\
      Forall is_namespace_record records /\
      Forall (fun ev => is_sweep_call (fst ev) = true) tr /\
      delete_namespace_calls tr = empty_listed (sweep_listings tr) /\
      (true = false -> tr = []) /\
      (forall c ex, In (c, Raised ex) (namespace_fetches tr) ->
         sweep_listings tr = [] /\ records = [] /\ d = 0 /\
         e = match operation c with OpListNamespaces => 1 | _ => 0 end) /\
      fst <$> namespace_fetches tr = [fetch_call cfg]).
  { intros w1 ex Hfc.
    exists w1, [(ListNamespacesAll (region cfg), Raised ex)], [], 0, 1.
    rewrite !app_nil_r.
    split; [reflexivity|]. split; [constructor|].
    split; [repeat constructor|]. split; [reflexivity|]. split; [discriminate|].
    split; [|rewrite Hfc; reflexivity].
    intros c ex' [[= <- <-]|[]]. repeat split; reflexivity. }
  unfold try_except at 1, bind at 1, namespaces_to_check.
  destruct (target_namespace_id cfg) as [target|] eqn:Htarget;
    [destruct (py_truthy (Some target)) eqn:Htruthy|].
  - unfold try_except, bind, get_namespace, invoke, ret.
    destruct (api_get_namespace (region cfg) target w) as [[namespace|ex] w1] eqn:Hget.
    + destruct (Hloop [namespace] w1 (GetNamespace (region cfg) target, ANamespace namespace))
        as (w' & t2 & records & d & e & Hrun & Hrest); try reflexivity.
      { intros ex [=]. }
      { unfold fetch_call. rewrite Htarget, Htruthy. reflexivity. }
      rewrite Hrun. exists w'. eexists. exists records, d, e.
      split; [reflexivity|exact Hrest].
    + destruct (Hloop [] w1 (GetNamespace (region cfg) target, Raised ex))
        as (w' & t2 & records & d & e & Hrun & Hrest); try reflexivity.
      { intros ex' _. split; [reflexivity | discriminate]. }
      { unfold fetch_call. rewrite Htarget, Htruthy. reflexivity. }
      rewrite Hrun. exists w'. eexists. exists records, d, e.
      split; [reflexivity|exact Hrest].
  - unfold list_namespaces_all, invoke.
    destruct (api_list_namespaces_all (region cfg) w) as [[namespaces|ex] w1] eqn:Hlist.
    + destruct (Hloop namespaces w1 (ListNamespacesAll (region cfg), Namespaces namespaces))
        as (w' & t2 & records & d & e & Hrun & Hrest); try reflexivity.
      { intros ex [=]. }
      { unfold fetch_call. rewrite Htarget, ?Htruthy. reflexivity. }
      rewrite Hrun. exists w'. eexists. exists records, d, e.
      split; [reflexivity|exact Hrest].
    + unfold ret. apply Hfail. unfold fetch_call. rewrite Htarget, ?Htruthy. reflexivity.
  - unfold list_namespaces_all, invoke.
    destruct (api_list_namespaces_all (region cfg) w) as [[namespaces|ex] w1] eqn:Hlist.
    + destruct (Hloop namespaces w1 (ListNamespacesAll (region cfg), Namespaces namespaces))
        as (w' & t2 & records & d & e & Hrun & Hrest); try reflexivity.
      { intros ex [=]. }
      { unfold fetch_call. rewrite Htarget, ?Htruthy. reflexivity. }
      rewrite Hrun. exists w'. eexists. exists records, d, e.
      split; [reflexivity|exact Hrest].
    + unfold ret. apply Hfail. unfold fetch_call. rewrite Htarget, ?Htruthy. reflexivity.
Qed.

End Phases.

(** ** Reading the record of a phase *)

Lemma flat_map_nil_Forall {A B} (f : A -> list B) (l : list A) :
  Forall (fun x => f x = []) l -> flat_map f l = [].
Proof.
  induction 1 as [|x l Hx _ IH]; simpl; [reflexivity|].
  rewrite Hx, IH. reflexivity.
Qed.

Lemma filter_nil_Forall {A} (f : A -> bool) (l : list A) :
  Forall (fun x => f x = false) l -> List.filter f l = [].
Proof.
  induction 1 as [|x l Hx _ IH]; simpl; [reflexivity|].
  rewrite Hx, IH. reflexivity.
Qed.

(** A property of every event whose call is of a given shape holds of a
    record made of such calls. *)
Lemma Forall_of_calls {X} (g : X -> Call) (xs : list X) (tr : list Event) :
  fst <$> tr = g <$> xs ->
  forall P : Event -> Prop, (forall x r, P (g x, r)) -> Forall P tr.
Proof.
  intros Heq P HP. revert tr Heq.
  induction xs as [|x xs IH]; intros [|[c r] tr]; simpl;
    try discriminate; intros Heq; constructor.
  - injection Heq as -> _. apply HP.
  - injection Heq as _ Heq. apply IH, Heq.
Qed.

Section ScanRecord.
Variables (r : string) (o : option string) (images : list Image) (tr : list Event).
Hypothesis Hcalls :
  fst <$> tr = (fun image => ListTagsAll r (image_id image) o) <$> images.

Lemma scan_tag_listing_calls : tag_listing_calls tr = image_id <$> images.
Proof.
  revert tr Hcalls. induction images as [|image rest IH]; intros [|[c rp] tr'];
    simpl; try discriminate; intros Heq; [reflexivity|].
  injection Heq as -> Heq. simpl. f_equal. apply IH, Heq.
Qed.

Lemma scan_delete_tag_events : delete_tag_events tr = [].
Proof.
  apply flat_map_nil_Forall.
  apply (Forall_of_calls _ _ _ Hcalls). reflexivity.
Qed.

Lemma scan_sweep_listings : sweep_listings tr = [].
Proof.
  apply flat_map_nil_Forall.
  apply (Forall_of_calls _ _ _ Hcalls). reflexivity.
Qed.

Lemma scan_delete_namespace_calls : delete_namespace_calls tr = [].
Proof.
  apply flat_map_nil_Forall.
  apply (Forall_of_calls _ _ _ Hcalls). reflexivity.
Qed.

Lemma scan_namespace_fetches : namespace_fetches tr = [].
Proof.
  apply filter_nil_Forall.
  apply (Forall_of_calls _ _ _ Hcalls). reflexivity.
Qed.
End ScanRecord.

Section DeleteRecord.
Variables (r : string) (cands : list Candidate) (tr : list Event).
Hypothesis Hcalls :
  fst <$> tr = (fun c => DeleteTag r (tag_id (cand_tag c))) <$> cands.

Lemma delete_events_ids :
  fst <$> delete_tag_events tr = (fun c => tag_id (cand_tag c)) <$> cands.
Proof.
  revert tr Hcalls. induction cands as [|c rest IH]; intros [|[c' rp] tr'];
    simpl; try discriminate; intros Heq; [reflexivity|].
  injection Heq as -> Heq. simpl. f_equal. apply IH, Heq.
Qed.

Lemma delete_events_replies : snd <$> delete_tag_events tr = snd <$> tr.
Proof.
  revert tr Hcalls. induction cands as [|c rest IH]; intros [|[c' rp] tr'];
    simpl; try discriminate; intros Heq; [reflexivity|].
  injection Heq as -> Heq. simpl. f_equal. apply IH, Heq.
Qed.

Lemma delete_listed_tags : listed_tags tr = [].
Proof.
  apply flat_map_nil_Forall.
  apply (Forall_of_calls _ _ _ Hcalls). reflexivity.
Qed.

Lemma delete_tag_listing_calls : tag_listing_calls tr = [].
Proof.
  apply flat_map_nil_Forall.
  apply (Forall_of_calls _ _ _ Hcalls). reflexivity.
Qed.

Lemma delete_sweep_listings : sweep_listings tr = [].
Proof.
  apply flat_map_nil_Forall.
  apply (Forall_of_calls _ _ _ Hcalls). reflexivity.
Qed.

Lemma delete_delete_namespace_calls : delete_namespace_calls tr = [].
Proof.
  apply flat_map_nil_Forall.
  apply (Forall_of_calls _ _ _ Hcalls). reflexivity.
Qed.

Lemma delete_namespace_fetches : namespace_fetches tr = [].
Proof.
  apply filter_nil_Forall.
  apply (Forall_of_calls _ _ _ Hcalls). reflexivity.
Qed.
End DeleteRecord.

Section SweepRecord.
Variable tr : list Event.
Hypothesis Hsweep : Forall (fun ev => is_sweep_call (fst ev) = true) tr.

Lemma sweep_listed_tags : listed_tags tr = [].
Proof.
  apply flat_map_nil_Forall. eapply Forall_impl; [exact Hsweep|].
  intros [[] rp]; simpl; intros; try discriminate; reflexivity.
Qed.

Lemma sweep_tag_listing_calls : tag_listing_calls tr = [].
Proof.
  apply flat_map_nil_Forall. eapply Forall_impl; [exact Hsweep|].
  intros [[] rp]; simpl; intros; try discriminate; reflexivity.
Qed.

Lemma sweep_delete_tag_events : delete_tag_events tr = [].
Proof.
  apply flat_map_nil_Forall. eapply Forall_impl; [exact Hsweep|].
  intros [[] rp]; simpl; intros; try discriminate; reflexivity.
Qed.
End SweepRecord.

Lemma listed_tags_app (t1 t2 : list Event) :
  listed_tags (t1 ++ t2) = listed_tags t1 ++ listed_tags t2.
Proof. apply flat_map_app. Qed.

Lemma tag_listing_calls_app (t1 t2 : list Event) :
  tag_listing_calls (t1 ++ t2) = tag_listing_calls t1 ++ tag_listing_calls t2.
Proof. apply flat_map_app. Qed.

Lemma delete_tag_events_app (t1 t2 : list Event) :
  delete_tag_events (t1 ++ t2) = delete_tag_events t1 ++ delete_tag_events t2.
Proof. apply flat_map_app. Qed.

(** ** The run as a whole *)

Section Run.
Context `{RegexEngine} {W : Type} `{RegistryAPI W}.
Variable isoformat : datetime -> string.
Variable clk : Clock.

Lemma bind_ok {A B} (m : M W A) (k : A -> M W B) (w w1 : W) (a : A) (t1 : list Event) :
  m w = (Ok a, w1, t1) ->
  bind m k w = (let '(r, w2, t2) := k a w1 in (r, w2, t1 ++ t2)).
Proof. intros Hm. unfold bind. rewrite Hm. reflexivity. Qed.

Lemma bind_raise {A B} (m : M W A) (k : A -> M W B) (w w1 : W) (e : Exn)
    (t1 : list Event) :
  m w = (Raise e, w1, t1) -> bind m k w = (Raise e, w1, t1).
Proof. intros Hm. unfold bind. rewrite Hm. reflexivity. Qed.

(** The first call of [run], and its reply. *)
Lemma run_first_call (cfg : Config) (w : W) :
  (if py_truthy (target_namespace_id cfg)
   then list_images_all (region cfg) (target_namespace_id cfg) (Some "created_at_asc")
   else list_images_all (region cfg) None (Some "created_at_asc")) w
  = (let '(r, w1) := first_listing cfg w in
     (r, w1, [(first_call cfg,
               match r with Ok images => Images images | Raise e => Raised e end)])).
Proof.
  unfold first_listing, first_call, list_images_all, invoke.
  destruct (py_truthy (target_namespace_id cfg)); reflexivity.
Qed.

(** When the images cannot be listed, [run] raises at once. *)
Lemma run_failure (cfg : Config) (w w1 : W) (ex : Exn) :
  first_listing cfg w = (Raise ex, w1) ->
  run isoformat clk cfg w = (Raise ex, w1, [(first_call cfg, Raised ex)]).
Proof.
  intros Hfirst. unfold run. apply bind_raise.
  rewrite run_first_call, Hfirst. reflexivity.
Qed.

(** When the images are listed, [run] goes through its three phases
    and returns a success result.  Everything is stated on the record
    [tr] of the calls made. *)
Lemma run_success (cfg : Config) (w w1 : W) (images : list Image) :
  first_listing cfg w = (Ok images, w1) ->
  exists w' tr ns_records d e,
    let cands := candidates_of clk cfg (listed_tags tr) in
    let records :=
      zip_with (outcome_record isoformat) cands (snd <$> delete_tag_events tr) in
    run isoformat clk cfg w
      = (Ok (success_result cfg images cands (records ++ ns_records)
                            (count_deleted records) d e), w', tr) /\
    tag_listing_calls tr = image_id <$> images /\
    fst <$> delete_tag_events tr = (fun c => tag_id (cand_tag c)) <$> cands /\
    Forall (fun reply => reply = Done \/ exists ex, reply = Raised ex)
           (snd <$> delete_tag_events tr) /\
    Forall is_namespace_record ns_records /\
    delete_namespace_calls tr = empty_listed (sweep_listings tr) /\
    (delete_unused_namespaces cfg = false ->
       sweep_listings tr = [] /\ namespace_fetches tr = []) /\
    (forall c ex, In (c, Raised ex) (namespace_fetches tr) ->
       sweep_listings tr = [] /\ ns_records = [] /\ d = 0 /\
       e = match operation c with OpListNamespaces => 1 | _ => 0 end) /\
    fst <$> namespace_fetches tr
      = (if delete_unused_namespaces cfg then [fetch_call cfg] else []).
Proof.
  intros Hfirst.
  destruct (scan_images_spec clk cfg images [] w1) as (w2 & t_scan & Hscan & Hscan_calls).
  set (cands := candidates_of clk cfg (listed_tags t_scan)) in *.
  destruct (delete_tags_spec isoformat cfg cands [] 0 w2)
    as (w3 & t_del & Hdel & Hdel_calls & Hdel_replies).
  cbv zeta in Hdel.
  set (records := zip_with (outcome_record isoformat) cands (snd <$> t_del)) in *.
  destruct (sweep_spec cfg ([] ++ records) w3)
    as (w4 & t_sweep & ns_records & d & e & Hsweep & Hns & Hcalls & Hdns & Hoff & Hfetch
        & Hfc).
  set (ev0 := (first_call cfg, Images images)).
  assert (Hev0 : sweep_listings [ev0] = []).
  { unfold ev0, first_call, sweep_listings. simpl.
    destruct (if py_truthy (target_namespace_id cfg) then target_namespace_id cfg else None);
      reflexivity. }
  assert (Hlisted : listed_tags ([ev0] ++ t_scan ++ t_del ++ t_sweep ++ []) = listed_tags t_scan).
  { rewrite !listed_tags_app, (delete_listed_tags _ _ _ Hdel_calls),
      (sweep_listed_tags _ Hcalls). simpl. rewrite !app_nil_r. reflexivity. }
  assert (Hevents : delete_tag_events ([ev0] ++ t_scan ++ t_del ++ t_sweep ++ [])
                    = delete_tag_events t_del).
  { rewrite !delete_tag_events_app, (scan_delete_tag_events _ _ _ _ Hscan_calls),
      (sweep_delete_tag_events _ Hcalls). simpl. rewrite !app_nil_r. reflexivity. }
  assert (Hsl : sweep_listings ([ev0] ++ t_scan ++ t_del ++ t_sweep ++ [])
                = sweep_listings t_sweep).
  { rewrite !sweep_listings_app, Hev0, (scan_sweep_listings _ _ _ _ Hscan_calls),
      (delete_sweep_listings _ _ _ Hdel_calls). simpl. rewrite !app_nil_r. reflexivity. }
  assert (Hnf : namespace_fetches ([ev0] ++ t_scan ++ t_del ++ t_sweep ++ [])
                = namespace_fetches t_sweep).
  { rewrite !namespace_fetches_app, (scan_namespace_fetches _ _ _ _ Hscan_calls),
      (delete_namespace_fetches _ _ _ Hdel_calls). simpl. rewrite !app_nil_r. reflexivity. }
  exists w4, ([ev0] ++ t_scan ++ t_del ++ t_sweep ++ []), ns_records, d, e.
  cbv zeta. rewrite Hlisted, Hevents, Hsl, Hnf.
  rewrite (delete_events_replies _ _ _ Hdel_calls), (delete_events_ids _ _ _ Hdel_calls).
  fold cands. fold records.
  split; [|split; [|split; [|split; [|split; [|split; [|split; [|split]]]]]]].
  - unfold run. rewrite (bind_ok _ _ w w1 images [ev0]).
    2:{ rewrite run_first_call, Hfirst. reflexivity. }
    rewrite (bind_ok _ _ w1 w2 _ t_scan Hscan). fold cands.
    rewrite (bind_ok _ _ w2 w3 _ t_del Hdel).
    rewrite (bind_ok _ _ w3 w4 _ t_sweep Hsweep).
    unfold ret. simpl. rewrite Z.add_0_l. reflexivity.
  - rewrite !tag_listing_calls_app, (delete_tag_listing_calls _ _ _ Hdel_calls),
      (sweep_tag_listing_calls _ Hcalls), (scan_tag_listing_calls _ _ _ _ Hscan_calls).
    simpl. rewrite !app_nil_r. reflexivity.
  - reflexivity.
  - exact Hdel_replies.
  - exact Hns.
  - rewrite !delete_namespace_calls_app,
      (scan_delete_namespace_calls _ _ _ _ Hscan_calls),
      (delete_delete_namespace_calls _ _ _ Hdel_calls). simpl.
    rewrite !app_nil_r. exact Hdns.
  - intros Hdis. rewrite (Hoff Hdis). split; reflexivity.
  - exact Hfetch.
  - exact Hfc.
Qed.

(** [handle] on a readable configuration. *)
Lemma handle_run (environ : gmap string string) (cfg : Config) (w : W) :
  read_config environ = Ok cfg ->
  handle isoformat clk environ w
  = try_except (run isoformat clk cfg) (fun e => ret (error_result cfg e)) w.
Proof.
  intros Hcfg. unfold handle, lift. unfold bind at 1. rewrite Hcfg.
  destruct (try_except _ _ w) as [[r w'] tr]. reflexivity.
Qed.

Lemma handle_failure (environ : gmap string string) (cfg : Config) (w w1 : W)
    (ex : Exn) :
  read_config environ = Ok cfg ->
  first_listing cfg w = (Raise ex, w1) ->
  handle isoformat clk environ w
  = (Ok (error_result cfg ex), w1, [(first_call cfg, Raised ex)]).
Proof.
  intros Hcfg Hfirst. rewrite (handle_run _ _ _ Hcfg). unfold try_except.
  rewrite (run_failure _ _ _ _ Hfirst). reflexivity.
Qed.

Lemma handle_success (environ : gmap string string) (cfg : Config) (w w1 : W)
    (images : list Image) :
  read_config environ = Ok cfg ->
  first_listing cfg w = (Ok images, w1) ->
  handle isoformat clk environ w = run isoformat clk cfg w.
Proof.
  intros Hcfg Hfirst. rewrite (handle_run _ _ _ Hcfg). unfold try_except.
  destruct (run_success cfg w w1 images Hfirst) as (w' & tr & ns & d & e & Hrun & _).
  cbv zeta in Hrun. rewrite Hrun. reflexivity.
Qed.

(** The record of a run that stopped at the first call. *)
Lemma first_call_only (cfg : Config) (reply : Reply) :
  let tr := [(first_call cfg, reply)] in
  listed_tags tr = [] /\ tag_listing_calls tr = [] /\ delete_tag_events tr = [] /\
  sweep_listings tr = [] /\ delete_namespace_calls tr = [] /\ namespace_fetches tr = [].
Proof.
  unfold first_call, sweep_listings. simpl.
  destruct (if py_truthy (target_namespace_id cfg) then target_namespace_id cfg else None);
    repeat split; reflexivity.
Qed.

End Run.

(** Given [H : run = (r, w', tr)] for a closed computation [run],
    replaces [tr] by the record of calls the computation leaves. *)
Ltac run_trace H :=
  match type of H with
  | ?lhs = (_, _, ?tr) =>
      let v := eval vm_compute in (snd lhs) in
      let E := fresh "E" in
      assert (E : snd lhs = v) by (vm_compute; reflexivity);
      rewrite H in E; cbn [snd] in E; subst tr
  end.
(** C1. On a tag whose two timestamps are well-formed, [is_tag_old]
    answers true exactly when the later of [created_at] and [updated_at]
    lies more than 90 days before the current time, read on the time
    line of that timestamp (UTC instants for aware values, local
    wall-clock time for naive ones).  Whenever evaluating the timestamps
    raises, the answer is false: the exception does not escape. *)
Theorem is_tag_old_spec (clk : Clock) (tag : Tag) :
  (forall c u,
     created_at tag = Some c -> updated_at tag = Some u ->
     well_formed_timestamps tag ->
     clock_in_range clk c -> clock_in_range clk u ->
     (is_tag_old clk tag = true <-> older_than_retention clk c u)) /\
  (forall e, is_tag_old_body clk tag = Raise e -> is_tag_old clk tag = false).
Proof.
  split.
  - intros c u Hc Hu. unfold well_formed_timestamps. rewrite Hc, Hu.
    intros (Vc & Vu & Hk) Nc Nu.
    apply (is_tag_old_some clk tag c u); assumption.
  - intros e He. unfold is_tag_old. rewrite He. reflexivity.
Qed.

Lemma is_tag_old_spec_witness :
  is_tag_old sample_clock tag_stale = true /\
  is_tag_old sample_clock tag_touched = false /\
  is_tag_old sample_clock tag_undated = false.
Proof.
  pose (stale := mkDatetime (738800 * DAY) (Some 0)).
  pose (touched := mkDatetime (738999 * DAY) (Some 0)).
  split; [|split].
  - apply (proj1 (is_tag_old_spec sample_clock tag_stale) stale stale eq_refl eq_refl).
    + repeat split; try (vm_compute; discriminate); eauto.
    + split; vm_compute; [discriminate | reflexivity].
    + split; vm_compute; [discriminate | reflexivity].
    + vm_compute. reflexivity.
  - destruct (is_tag_old sample_clock tag_touched) eqn:Hold; [|reflexivity].
    apply (proj1 (is_tag_old_spec sample_clock tag_touched) stale touched eq_refl eq_refl)
      in Hold.
    + vm_compute in Hold. discriminate Hold.
    + repeat split; try (vm_compute; discriminate); eauto.
    + split; vm_compute; [discriminate | reflexivity].
    + split; vm_compute; [discriminate | reflexivity].
  - apply (proj2 (is_tag_old_spec sample_clock tag_undated)
                 (mkExn TypeError "'>' not supported between instances")).
    reflexivity.
Defined.

(** ** The name-pattern predicate *)

Lemma scan_offsets_found `{RegexEngine} (p : Pattern) (s : string) (offsets : list nat) :
  py_bool_match (scan_offsets p s offsets) = true
  <-> exists i j, In i offsets /\ match_at p s i = Some j.
Proof.
  induction offsets as [|i rest IH]; simpl.
  - split; [discriminate | intros (i & j & [] & _)].
  - destruct (match_at p s i) as [j|] eqn:Hm; simpl.
    + split; [intros _; exists i, j; auto | reflexivity].
    + rewrite IH. split.
      * intros (i' & j & Hin & Hj). exists i', j. auto.
      * intros (i' & j & [<-|Hin] & Hj); [congruence | exists i', j; auto].
Qed.

Lemma pattern_search_found `{RegexEngine} (p : Pattern) (s : string) :
  py_bool_match (pattern_search p s) = true <-> found_in p s.
Proof.
  unfold pattern_search, found_in. rewrite scan_offsets_found.
  split; intros (i & j & Hi & Hj); exists i, j; split; try assumption.
  - apply in_seq in Hi. lia.
  - apply in_seq. lia.
Qed.

(** C2. [should_delete_tag_by_name] answers false when no pattern is
    configured ([None] or the empty string); with a pattern that
    compiles, it answers true exactly when the pattern matches starting
    at some offset of the tag's name (a search, not a match of the whole
    name); with a pattern that does not compile, it answers false
    instead of raising. *)
Theorem should_delete_tag_by_name_spec `{RegexEngine} (tag : Tag)
    (name_pattern : option string) :
  (py_truthy name_pattern = false ->
   should_delete_tag_by_name tag name_pattern = false) /\
  (forall src p,
     name_pattern = Some src -> py_truthy name_pattern = true ->
     re_compile src = Ok p ->
     (should_delete_tag_by_name tag name_pattern = true <-> found_in p (tag_name tag))) /\
  (forall src e,
     name_pattern = Some src -> re_compile src = Raise e ->
     should_delete_tag_by_name tag name_pattern = false).
Proof.
  split; [|split].
  - intros Hfalsy. unfold should_delete_tag_by_name.
    destruct name_pattern as [src|]; [|reflexivity]. rewrite Hfalsy. reflexivity.
  - intros src p -> Htruthy Hcompile. unfold should_delete_tag_by_name.
    rewrite Htruthy, Hcompile. simpl. apply pattern_search_found.
  - intros src e -> Hcompile. unfold should_delete_tag_by_name.
    rewrite Hcompile. simpl.
    destruct (negb _); [reflexivity|]. destruct (exn_kind e); reflexivity.
Qed.

Lemma should_delete_tag_by_name_spec_witness :
  should_delete_tag_by_name tag_rc None = false /\
  should_delete_tag_by_name tag_rc (Some "") = false /\
  (should_delete_tag_by_name tag_rc (Some "-rc") = true /\
   pattern_fullmatch ([ALit "-"; ALit "r"; ALit "c"]%char : @Pattern small_engine)
                     (tag_name tag_rc) = None) /\
  should_delete_tag_by_name tag_rc (Some "(rc") = false.
Proof.
  split; [|split; [|split]].
  - apply (proj1 (should_delete_tag_by_name_spec tag_rc None)). reflexivity.
  - apply (proj1 (should_delete_tag_by_name_spec tag_rc (Some ""))). reflexivity.
  - split; [|reflexivity].
    apply (proj1 (proj2 (should_delete_tag_by_name_spec tag_rc (Some "-rc")))
                 "-rc" ([ALit "-"; ALit "r"; ALit "c"]%char : @Pattern small_engine)
                 eq_refl eq_refl eq_refl).
    exists 4%nat, 7%nat. split; [vm_compute; lia | reflexivity].
  - apply (proj2 (proj2 (should_delete_tag_by_name_spec tag_rc (Some "(rc")))
                 "(rc" (mkExn ReError "missing ), unterminated subpattern") eq_refl).
    reflexivity.
Defined.

(** ** Claims about the run *)


Lemma filter_length_le {A} (f : A -> bool) (l : list A) :
  (length (List.filter f l) <= length l)%nat.
Proof.
  induction l as [|x l IH]; simpl; [lia|]. destruct (f x); simpl; lia.
Qed.




Section Candidates.
Context `{RegexEngine}.
Variables (clk : Clock) (cfg : Config).

Lemma candidates_of_tags (tags : list Tag) :
  cand_tag <$> candidates_of clk cfg tags = List.filter (triggered clk cfg) tags.
Proof.
  unfold candidates_of. rewrite <- list_fmap_compose.
  induction (List.filter (triggered clk cfg) tags) as [|t l IH]; simpl; [reflexivity|].
  f_equal. exact IH.
Qed.

Lemma candidates_of_reasons (tags : list Tag) (c : Candidate) :
  In c (candidates_of clk cfg tags) ->
  cand_reason c = reasons clk cfg (cand_tag c) /\ triggered clk cfg (cand_tag c) = true.
Proof.
  unfold candidates_of. intros Hin. apply list_elem_of_In, list_elem_of_fmap in Hin.
  destruct Hin as (t & -> & Ht). apply list_elem_of_In, filter_In in Ht.
  split; [reflexivity | apply Ht].
Qed.

End Candidates.



(** C4, as stated, fails: when the images cannot be listed the result
    has status 500, but its summary counts one error. *)
Lemma failed_listing_counts_an_error :
  exists result w tr,
    mem_handle sample_environ registry_down = (Ok result, w, tr) /\
    status_code result = Some (VInt 500) /\
    counter "errors" result = Some 1 /\
    ~ all_counters_zero result.
Proof.
  exists (error_result sample_config (mkExn ApiError "registry unavailable")),
    registry_down, [(first_call sample_config, Raised (mkExn ApiError "registry unavailable"))].
  split; [apply handle_failure; reflexivity|].
  split; [reflexivity|]. split; [reflexivity|].
  intros Hzero. specialize (Hzero "errors" 1 eq_refl). discriminate Hzero.
Qed.

(** C4, amended. When the listing of the images raises, [handle]
    returns a result with status 500 whose body holds the error string
    and a summary in which [total_images_analyzed], [total_tags_found]
    and [successfully_deleted] are zero and [errors] is one; the summary
    has no other counter, and in particular neither [namespaces_deleted]
    nor [namespace_errors]. *)
Theorem failed_listing_result `{RegexEngine} {W : Type} `{RegistryAPI W}
    (isoformat : datetime -> string) (clk : Clock)
    (environ : gmap string string) (cfg : Config) (w w1 : W) (ex : Exn) :
  read_config environ = Ok cfg ->
  first_listing cfg w = (Raise ex, w1) ->
  exists result,
    handle isoformat clk environ w = (Ok result, w1, [(first_call cfg, Raised ex)]) /\
    status_code result = Some (VInt 500) /\
    at_path ["body"; "error"] result
      = Some (VStr ("Erreur générale du script: " +:+ exn_msg ex)) /\
    counter "total_images_analyzed" result = Some 0 /\
    counter "total_tags_found" result = Some 0 /\
    counter "successfully_deleted" result = Some 0 /\
    counter "errors" result = Some 1 /\
    counter "namespaces_deleted" result = None /\
    counter "namespace_errors" result = None /\
    (forall k n, counter k result = Some n -> k <> "errors" -> n = 0).
Proof.
  intros Hcfg Hfirst. exists (error_result cfg ex).
  split; [apply handle_failure; assumption|].
  repeat (split; [reflexivity|]).
  intros k n Hk Hne. unfold counter in Hk. cbn [at_path] in Hk.
  change (get "body" (error_result cfg ex)) with
    (Some (dict [("error", VStr ("Erreur générale du script: " +:+ exn_msg ex));
                 ("summary",
                  dict [("total_images_analyzed", VInt 0);
                        ("total_tags_found", VInt 0);
                        ("successfully_deleted", VInt 0);
                        ("errors", VInt 1);
                        ("criteria_used", criteria_used cfg)])])) in Hk.
  cbn match in Hk.
  change (get "summary" (dict _)) with
    (Some (dict [("total_images_analyzed", VInt 0);
                 ("total_tags_found", VInt 0);
                 ("successfully_deleted", VInt 0);
                 ("errors", VInt 1);
                 ("criteria_used", criteria_used cfg)])) in Hk.
  cbn match in Hk. unfold dict, get in Hk.
  destruct (decide (k = "total_images_analyzed")) as [->|H1];
    [revert Hk; intros [= <-]; reflexivity|].
  destruct (decide (k = "total_tags_found")) as [->|H2];
    [revert Hk; intros [= <-]; reflexivity|].
  destruct (decide (k = "successfully_deleted")) as [->|H3];
    [revert Hk; intros [= <-]; reflexivity|].
  destruct (decide (k = "criteria_used")) as [->|H4];
    [revert Hk; intros [=]|].
  exfalso. revert Hk. cbn [list_to_map foldr uncurry fst snd].
  rewrite !lookup_insert_ne by congruence. rewrite lookup_empty. discriminate.
Qed.

Lemma failed_listing_result_witness :
  exists result,
    mem_handle sample_environ registry_down
      = (Ok result, registry_down,
         [(first_call sample_config,
           Raised (mkExn ApiError "registry unavailable"))]) /\
    status_code result = Some (VInt 500) /\
    counter "errors" result = Some 1.
Proof.
  assert (Hcfg : read_config sample_environ = Ok sample_config) by reflexivity.
  assert (Hfirst : first_listing sample_config registry_down
                   = (Raise (mkExn ApiError "registry unavailable"), registry_down))
    by reflexivity.
  destruct (failed_listing_result mem_isoformat sample_clock sample_environ
              sample_config registry_down registry_down
              (mkExn ApiError "registry unavailable") Hcfg Hfirst)
    as (result & Hrun & Hstatus & _ & _ & _ & _ & Herrors & _).
  exists result. repeat split; assumption.
Defined.

Lemma outcome_record_raised (isoformat : datetime -> string)
    (c : Candidate) (ex : Exn) :
  outcome_record isoformat c (Raised ex) = error_record (cand_tag c) (cand_reason c) ex.
Proof. reflexivity. Qed.




Lemma empty_listed_In (l : list (string * Reply)) (id : string) :
  In id (empty_listed l) <-> In (id, Images []) l.
Proof.
  unfold empty_listed. rewrite in_flat_map. split.
  - intros ([n reply] & Hin & Hid).
    destruct reply as [| [|image images] | | | |]; simpl in Hid; try tauto.
    destruct Hid as [<-|[]]. exact Hin.
  - intros Hin. exists (id, Images []). split; [exact Hin | left; reflexivity].
Qed.

(** C6. Over a whole run, [delete_namespace] is called exactly on the
    namespaces the sweep examined and whose image listing came back
    with no image, in the order it examined them, and the sweep examines
    namespaces only when it is enabled: a namespace is deleted if and
    only if the sweep is enabled and a listing of its images returned
    zero images, and a namespace none of whose listings came back empty
    is never deleted. *)
Theorem namespace_deleted_iff_enabled_and_empty `{RegexEngine} {W : Type}
    `{RegistryAPI W} (isoformat : datetime -> string) (clk : Clock)
    (environ : gmap string string) (cfg : Config) (w : W) :
  read_config environ = Ok cfg ->
  exists result w' tr,
    handle isoformat clk environ w = (Ok result, w', tr) /\
    delete_namespace_calls tr
      = (if delete_unused_namespaces cfg
         then empty_listed (sweep_listings tr) else []) /\
    (delete_unused_namespaces cfg = false -> sweep_listings tr = []) /\
    (forall id,
       In id (delete_namespace_calls tr)
       <-> delete_unused_namespaces cfg = true /\ In (id, Images []) (sweep_listings tr)) /\
    (forall id,
       (forall reply, In (id, reply) (sweep_listings tr) -> reply <> Images []) ->
       ~ In id (delete_namespace_calls tr)).
Proof.
  intros Hcfg.
  assert (Hmain : exists result w' tr,
    handle isoformat clk environ w = (Ok result, w', tr) /\
    delete_namespace_calls tr = empty_listed (sweep_listings tr) /\
    (delete_unused_namespaces cfg = false -> sweep_listings tr = [])).
  { destruct (first_listing cfg w) as [[images|ex] w1] eqn:Hfirst.
    - destruct (run_success isoformat clk cfg w w1 images Hfirst)
        as (w' & tr & ns & d & e & Hrun & _ & _ & _ & _ & Hdel & Hoff & _).
      cbv zeta in Hrun. eexists _, w', tr. split; [|split].
      + rewrite (handle_success isoformat clk environ cfg w w1 images Hcfg Hfirst).
        exact Hrun.
      + exact Hdel.
      + intros Hdis. apply (Hoff Hdis).
    - eexists _, w1, _. split; [apply handle_failure; eassumption|].
      destruct (first_call_only cfg (Raised ex)) as (_ & _ & _ & Hsl & Hdn & _).
      cbv zeta in Hsl, Hdn. split; [|intros _; exact Hsl].
      etransitivity; [exact Hdn|]. symmetry. exact (f_equal empty_listed Hsl). }
  destruct Hmain as (result & w' & tr & Hrun & Hdel & Hoff).
  exists result, w', tr. split; [exact Hrun|].
  assert (Hiff : forall id,
    In id (delete_namespace_calls tr)
    <-> delete_unused_namespaces cfg = true /\ In (id, Images []) (sweep_listings tr)).
  { intros id. rewrite Hdel, empty_listed_In. split.
    - intros Hin. split; [|exact Hin].
      destruct (delete_unused_namespaces cfg); [reflexivity|].
      rewrite (Hoff eq_refl) in Hin. destruct Hin.
    - intros [_ Hin]. exact Hin. }
  split; [|split; [exact Hoff|split; [exact Hiff|]]].
  - destruct (delete_unused_namespaces cfg); [exact Hdel|].
    rewrite Hdel, (Hoff eq_refl). reflexivity.
  - intros id Hnever Hin. apply Hiff in Hin. destruct Hin as [_ Hin].
    apply (Hnever _ Hin). reflexivity.
Qed.

Lemma namespace_deleted_iff_enabled_and_empty_witness :
  exists result w' tr,
    mem_handle sample_environ sample_registry = (Ok result, w', tr) /\
    fst <$> sweep_listings tr = ["ns-main"; "ns-empty"] /\
    delete_namespace_calls tr = ["ns-empty"].
Proof.
  destruct (namespace_deleted_iff_enabled_and_empty mem_isoformat sample_clock
              sample_environ sample_config sample_registry eq_refl)
    as (result & w' & tr & Hrun & Hdel & _).
  exists result, w', tr. split; [exact Hrun|].
  assert (Htr : sweep_listings tr
                = [("ns-main", Images [img_a; img_b]); ("ns-empty", Images [])]).
  { run_trace Hrun. reflexivity. }
  rewrite Hdel, Htr. split; reflexivity.
Defined.



Lemma outcome_record_tag_id (isoformat : datetime -> string)
    (c : Candidate) (reply : Reply) :
  get "tag_id" (outcome_record isoformat c reply) = Some (VStr (tag_id (cand_tag c))).
Proof.
  unfold outcome_record.
  assert (Herr : forall e,
    get "tag_id" (error_record (cand_tag c) (cand_reason c) e)
    = Some (VStr (tag_id (cand_tag c)))) by reflexivity.
  assert (Hok : forall record,
    deleted_record isoformat (cand_tag c) (cand_reason c) = Ok record ->
    get "tag_id" record = Some (VStr (tag_id (cand_tag c)))).
  { unfold deleted_record, isoformat_of.
    destruct (created_at (cand_tag c)), (updated_at (cand_tag c)); simpl; try discriminate.
    intros record [= <-]. reflexivity. }
  destruct reply; try apply Herr;
    (destruct (deleted_record isoformat (cand_tag c) (cand_reason c)) eqn:Hrec;
     [apply Hok; reflexivity | apply Herr]).
Qed.

(** An element of a zip comes from an element of the first list. *)
Lemma In_zip_with_l {A B C} (f : A -> B -> C) (l : list A) (k : list B) (z : C) :
  In z (zip_with f l k) -> exists x y, In x l /\ z = f x y.
Proof.
  revert k. induction l as [|x l IH]; intros [|y k]; simpl; try tauto.
  intros [<-|Hin].
  - exists x, y. split; [left|]; reflexivity.
  - destruct (IH k Hin) as (x' & y' & Hx & ->). exists x', y'. split; [right|]; auto.
Qed.




Lemma outcome_record_shape (isoformat : datetime -> string) (c : Candidate)
    (reply : Reply) :
  tag_record_shape (outcome_record isoformat c reply).
Proof.
  assert (Herr : forall e,
    tag_record_shape (error_record (cand_tag c) (cand_reason c) e)).
  { intros e. right. split; reflexivity. }
  assert (Hok : forall record,
    deleted_record isoformat (cand_tag c) (cand_reason c) = Ok record ->
    tag_record_shape record).
  { unfold deleted_record, isoformat_of.
    destruct (created_at (cand_tag c)), (updated_at (cand_tag c)); simpl; try discriminate.
    intros record [= <-]. left. split; reflexivity. }
  unfold outcome_record.
  destruct reply; try apply Herr;
    (destruct (deleted_record isoformat (cand_tag c) (cand_reason c)) eqn:Hrec;
     [apply Hok; reflexivity | apply Herr]).
Qed.

Lemma succeeded_done (isoformat : datetime -> string) (c : Candidate) (reply : Reply) :
  reply = Done \/ (exists ex, reply = Raised ex) ->
  has_status "deleted" (outcome_record isoformat c reply)
  = is_done reply && has_timestamps (cand_tag c).
Proof.
  intros [->|[ex ->]]; [|reflexivity].
  unfold outcome_record, deleted_record, isoformat_of, has_timestamps.
  destruct (created_at (cand_tag c)), (updated_at (cand_tag c)); reflexivity.
Qed.




Lemma operation_fetch_call (cfg : Config) :
  operation (fetch_call cfg)
  = if py_truthy (target_namespace_id cfg) then OpGetNamespace else OpListNamespaces.
Proof.
  unfold fetch_call. destruct (target_namespace_id cfg) as [target|]; [|reflexivity].
  destruct (py_truthy (Some target)); reflexivity.
Qed.

(** C10. When the call that fetches the namespaces to check raises, the
    run still ends with status 200, no namespace is examined or deleted,
    and [namespaces_deleted] is 0.  The call is the fetch of the
    targeted namespace when NAMESPACE_ID is set, and then
    [namespace_errors] is 0; it is the listing of all namespaces
    otherwise, and then [namespace_errors] is 1.  Such a call is made
    only when the sweep is enabled. *)
Theorem failed_namespace_fetch `{RegexEngine} {W : Type} `{RegistryAPI W}
    (isoformat : datetime -> string) (clk : Clock)
    (environ : gmap string string) (cfg : Config) (w : W) :
  read_config environ = Ok cfg ->
  exists result w' tr,
    handle isoformat clk environ w = (Ok result, w', tr) /\
    forall c ex,
      In (c, Raised ex) (namespace_fetches tr) ->
      delete_unused_namespaces cfg = true /\
      c = (match target_namespace_id cfg with
           | Some target =>
               if py_truthy (target_namespace_id cfg)
               then GetNamespace (region cfg) target
               else ListNamespacesAll (region cfg)
           | None => ListNamespacesAll (region cfg)
           end) /\
      status_code result = Some (VInt 200) /\
      sweep_listings tr = [] /\
      delete_namespace_calls tr = [] /\
      counter "namespaces_deleted" result = Some 0 /\
      counter "namespace_errors" result
        = Some (if py_truthy (target_namespace_id cfg) then 0 else 1).
Proof.
  intros Hcfg.
  destruct (first_listing cfg w) as [[images|ex] w1] eqn:Hfirst.
  - destruct (run_success isoformat clk cfg w w1 images Hfirst)
      as (w' & tr & ns & d & e & Hrun & _ & _ & _ & _ & Hdel & Hoff & Hfetch & Hfc).
    cbv zeta in Hrun.
    eexists _, w', tr. split.
    { rewrite (handle_success isoformat clk environ cfg w w1 images Hcfg Hfirst).
      exact Hrun. }
    intros c ex Hin.
    destruct (Hfetch c ex Hin) as (Hsl & _ & -> & ->).
    assert (Hen : delete_unused_namespaces cfg = true).
    { destruct (delete_unused_namespaces cfg); [reflexivity|].
      destruct (Hoff eq_refl) as [_ Hnone]. rewrite Hnone in Hin. destruct Hin. }
    assert (Hc : c = fetch_call cfg).
    { rewrite Hen in Hfc.
      assert (Hcin : In c (fst <$> namespace_fetches tr)).
      { apply list_elem_of_In, list_elem_of_fmap. exists (c, Raised ex).
        split; [reflexivity | apply list_elem_of_In, Hin]. }
      rewrite Hfc in Hcin. destruct Hcin as [<-|[]]. reflexivity. }
    split; [exact Hen|]. split; [exact Hc|]. split; [reflexivity|].
    split; [exact Hsl|]. split; [rewrite Hdel, Hsl; reflexivity|].
    rewrite Hc, operation_fetch_call.
    unfold counter, success_result. rewrite Hen.
    destruct (py_truthy (target_namespace_id cfg)); split; reflexivity.
  - eexists _, w1, _. split; [apply handle_failure; eassumption|].
    intros c ex' Hin. exfalso.
    destruct (first_call_only cfg (Raised ex)) as (_ & _ & _ & _ & _ & Hnf).
    cbv zeta in Hnf.
    assert (Hnone : In (c, Raised ex') (@nil Event)) by (rewrite <- Hnf; exact Hin).
    destruct Hnone.
Qed.

Lemma failed_namespace_fetch_witness :
  (exists result w' tr,
     mem_handle targeted_environ sample_registry = (Ok result, w', tr) /\
     In (GetNamespace "fr-par" "ns-gone", Raised (mkExn ApiError "namespace not found"))
        (namespace_fetches tr) /\
     status_code result = Some (VInt 200) /\
     counter "namespace_errors" result = Some 0) /\
  (exists result w' tr,
     mem_handle sample_environ registry_no_namespaces = (Ok result, w', tr) /\
     In (ListNamespacesAll "fr-par", Raised (mkExn ApiError "registry unavailable"))
        (namespace_fetches tr) /\
     status_code result = Some (VInt 200) /\
     counter "namespace_errors" result = Some 1).
Proof.
  split.
  - assert (Hcfg : read_config targeted_environ = Ok targeted_config) by reflexivity.
    destruct (failed_namespace_fetch mem_isoformat sample_clock targeted_environ
                targeted_config sample_registry Hcfg)
      as (result & w' & tr & Hrun & Hfail).
    exists result, w', tr. split; [exact Hrun|].
    assert (Hin : In (GetNamespace "fr-par" "ns-gone",
                      Raised (mkExn ApiError "namespace not found"))
                     (namespace_fetches tr)).
    { run_trace Hrun. left. reflexivity. }
    split; [exact Hin|].
    destruct (Hfail _ _ Hin) as (_ & _ & Hstatus & _ & _ & _ & Herrors).
    split; [exact Hstatus | exact Herrors].
  - assert (Hcfg : read_config sample_environ = Ok sample_config) by reflexivity.
    destruct (failed_namespace_fetch mem_isoformat sample_clock sample_environ
                sample_config registry_no_namespaces Hcfg)
      as (result & w' & tr & Hrun & Hfail).
    exists result, w', tr. split; [exact Hrun|].
    assert (Hin : In (ListNamespacesAll "fr-par",
                      Raised (mkExn ApiError "registry unavailable"))
                     (namespace_fetches tr)).
    { run_trace Hrun. left. reflexivity. }
    split; [exact Hin|].
    destruct (Hfail _ _ Hin) as (_ & _ & Hstatus & _ & _ & _ & Herrors).
    split; [exact Hstatus | exact Herrors].
Defined.

(** * Further properties of the run *)

(** ** The three phases, one after the other *)

Section RunPhases.
Context `{RegexEngine} {W : Type} `{RegistryAPI W}.
Variable isoformat : datetime -> string.
Variable clk : Clock.

(** A run that lists the images is the listing, then the scan of the
    images, then the deletion of the candidates, then the sweep; none
    of the three phases raises. *)
Lemma run_phases (cfg : Config) (w w1 : W) (images : list Image) :
  first_listing cfg w = (Ok images, w1) ->
  exists w2 w3 w4 t_scan t_del t_sweep ns_records d e,
    let cands := candidates_of clk cfg (listed_tags t_scan) in
    let records := zip_with (outcome_record isoformat) cands (snd <$> t_del) in
    scan_images clk cfg images [] w1 = (Ok cands, w2, t_scan) /\
    delete_tags isoformat cfg cands ([], 0) w2
      = (Ok (records, count_deleted records), w3, t_del) /\
    sweep cfg records w3 = (Ok (records ++ ns_records, d, e), w4, t_sweep) /\
    run isoformat clk cfg w
      = (Ok (success_result cfg images cands (records ++ ns_records)
                            (count_deleted records) d e),
         w4, (first_call cfg, Images images) :: t_scan ++ t_del ++ t_sweep) /\
    fst <$> t_scan
      = (fun image => ListTagsAll (region cfg) (image_id image) (Some "created_at_desc"))
          <$> images /\
    fst <$> t_del = (fun c => DeleteTag (region cfg) (tag_id (cand_tag c))) <$> cands /\
    Forall (fun reply => reply = Done \/ exists ex, reply = Raised ex) (snd <$> t_del) /\
    Forall (fun ev => is_sweep_call (fst ev) = true) t_sweep.
Proof.
  intros Hfirst.
  destruct (scan_images_spec clk cfg images [] w1) as (w2 & t_scan & Hscan & Hscan_calls).
  set (cands := candidates_of clk cfg (listed_tags t_scan)) in *.
  destruct (delete_tags_spec isoformat cfg cands [] 0 w2)
    as (w3 & t_del & Hdel & Hdel_calls & Hdel_replies).
  cbv zeta in Hdel.
  set (records := zip_with (outcome_record isoformat) cands (snd <$> t_del)) in *.
  destruct (sweep_spec cfg ([] ++ records) w3)
    as (w4 & t_sweep & ns_records & d & e & Hsweep & _ & Hcalls & _).
  exists w2, w3, w4, t_scan, t_del, t_sweep, ns_records, d, e.
  cbv zeta. fold cands. fold records.
  split; [exact Hscan|]. split; [rewrite Hdel, Z.add_0_l; reflexivity|].
  split; [exact Hsweep|].
  split; [|split; [exact Hscan_calls|split; [exact Hdel_calls|split; assumption]]].
  unfold run. rewrite (bind_ok _ _ w w1 images [(first_call cfg, Images images)]).
  2:{ rewrite run_first_call, Hfirst. reflexivity. }
  rewrite (bind_ok _ _ w1 w2 _ t_scan Hscan). fold cands.
  rewrite (bind_ok _ _ w2 w3 _ t_del Hdel).
  rewrite (bind_ok _ _ w3 w4 _ t_sweep Hsweep).
  unfold ret. simpl. rewrite Z.add_0_l, app_nil_r. reflexivity.
Qed.
End RunPhases.

(** ** The sweep, call by call *)

Lemma count_raised_app (l1 l2 : list (string * Reply)) :
  count_raised (l1 ++ l2) = count_raised l1 + count_raised l2.
Proof. unfold count_raised, len. rewrite List.filter_app, length_app. lia. Qed.

Lemma count_done_app (l1 l2 : list (string * Reply)) :
  count_done (l1 ++ l2) = count_done l1 + count_done l2.
Proof. unfold count_done, len. rewrite List.filter_app, length_app. lia. Qed.

Lemma delete_namespace_events_app (t1 t2 : list Event) :
  delete_namespace_events (t1 ++ t2)
  = delete_namespace_events t1 ++ delete_namespace_events t2.
Proof. apply flat_map_app. Qed.

Lemma fetched_namespaces_app (t1 t2 : list Event) :
  fetched_namespaces (t1 ++ t2) = fetched_namespaces t1 ++ fetched_namespaces t2.
Proof. apply flat_map_app. Qed.

Lemma namespace_listing_failures_app (t1 t2 : list Event) :
  namespace_listing_failures (t1 ++ t2)
  = namespace_listing_failures t1 + namespace_listing_failures t2.
Proof.
  unfold namespace_listing_failures, len.
  rewrite List.filter_app, length_app, Nat2Z.inj_add. reflexivity.
Qed.

Lemma zip_with_app_same {A B C} (f : A -> B -> C) (l1 l2 : list A) (k1 k2 : list B) :
  length l1 = length k1 ->
  zip_with f (l1 ++ l2) (k1 ++ k2) = zip_with f l1 k1 ++ zip_with f l2 k2.
Proof.
  revert k1. induction l1 as [|x l1 IH]; intros [|y k1]; simpl; try discriminate.
  - reflexivity.
  - intros [= Hlen]. rewrite (IH k1 Hlen). reflexivity.
Qed.

Lemma found_empty_cons (namespace : Namespace) (rest : list Namespace)
    (l1 l2 : list (string * Reply)) :
  length l1 = 1%nat ->
  found_empty (namespace :: rest) (l1 ++ l2)
  = found_empty [namespace] l1 ++ found_empty rest l2.
Proof.
  destruct l1 as [|x [|y l1]]; try discriminate. intros _.
  unfold found_empty. simpl. rewrite app_nil_r. reflexivity.
Qed.

Section SweepAccount.
Context {W : Type} `{RegistryAPI W}.
Variable cfg : Config.

(** What one iteration of the sweep leaves: the record of the namespace
    when it was found empty, and its share of the two counters. *)
Lemma sweep_one_account (namespace : Namespace) (msg : list Value) (d e : Z) (w : W) :
  exists w' tr,
    let listings := sweep_listings tr in
    let deletions := delete_namespace_events tr in
    sweep_one cfg namespace (msg, d, e) w
      = (Ok (msg ++ zip_with namespace_outcome (found_empty [namespace] listings)
                             (snd <$> deletions),
             d + count_done deletions,
             e + (count_raised listings + count_raised deletions)), w', tr) /\
    fst <$> listings = [namespace_id namespace] /\
    fst <$> deletions = namespace_id <$> found_empty [namespace] listings /\
    Forall (fun reply => reply = Done \/ exists ex, reply = Raised ex) (snd <$> deletions) /\
    fetched_namespaces tr = [] /\
    namespace_listing_failures tr = 0 /\
    Forall (fun ev => call_region (fst ev) = region cfg) tr.
Proof.
  assert (Hshape : forall (w' : W) (tr : list Event) (msg' : list Value) (d' e' : Z),
    msg' = msg ++ zip_with namespace_outcome (found_empty [namespace] (sweep_listings tr))
                           (snd <$> delete_namespace_events tr) ->
    d' = d + count_done (delete_namespace_events tr) ->
    e' = e + (count_raised (sweep_listings tr)
              + count_raised (delete_namespace_events tr)) ->
    (Ok (msg', d', e'), w', tr)
    = (Ok (msg ++ zip_with namespace_outcome (found_empty [namespace] (sweep_listings tr))
                           (snd <$> delete_namespace_events tr),
           d + count_done (delete_namespace_events tr),
           e + (count_raised (sweep_listings tr)
                + count_raised (delete_namespace_events tr))), w', tr)).
  { intros w' tr msg' d' e' -> -> ->. reflexivity. }
  unfold sweep_one, try_except at 1, bind, list_images_all, invoke.
  destruct (api_list_images_all (region cfg) (Some (namespace_id namespace)) None w)
    as [[images|ex] w1] eqn:Hlist.
  - rewrite len_eqb_0. destruct images as [|image images].
    + unfold try_except, bind, delete_namespace, invoke, ret.
      destruct (api_delete_namespace (region cfg) (namespace_id namespace) w1)
        as [[[]|ex] w2] eqn:Hdel; simpl.
      * exists w2,
          [(ListImagesAll (region cfg) (Some (namespace_id namespace)) None, Images []);
           (DeleteNamespace (region cfg) (namespace_id namespace), Done)].
        cbv zeta. split.
        { apply Hshape; [reflexivity | reflexivity | symmetry; apply Z.add_0_r]. }
        split; [reflexivity|]. split; [reflexivity|].
        split; [constructor; [left; reflexivity | constructor]|]. split; [reflexivity|].
        split; [reflexivity|]. repeat constructor.
      * exists w2,
          [(ListImagesAll (region cfg) (Some (namespace_id namespace)) None, Images []);
           (DeleteNamespace (region cfg) (namespace_id namespace), Raised ex)].
        cbv zeta. split.
        { apply Hshape; [reflexivity | symmetry; apply Z.add_0_r | reflexivity]. }
        split; [reflexivity|]. split; [reflexivity|].
        split; [constructor; [right; eauto | constructor]|]. split; [reflexivity|].
        split; [reflexivity|]. repeat constructor.
    + unfold ret. simpl.
      exists w1,
        [(ListImagesAll (region cfg) (Some (namespace_id namespace)) None,
          Images (image :: images))].
      cbv zeta. split.
      { apply Hshape; [symmetry; apply app_nil_r | symmetry; apply Z.add_0_r
                       | symmetry; apply Z.add_0_r]. }
      split; [reflexivity|]. split; [reflexivity|].
      split; [constructor|]. split; [reflexivity|].
      split; [reflexivity|]. repeat constructor.
  - unfold ret. simpl.
    exists w1,
      [(ListImagesAll (region cfg) (Some (namespace_id namespace)) None, Raised ex)].
    cbv zeta. split.
    { apply Hshape; [symmetry; apply app_nil_r | symmetry; apply Z.add_0_r | reflexivity]. }
    split; [reflexivity|]. split; [reflexivity|].
    split; [constructor|]. split; [reflexivity|].
    split; [reflexivity|]. repeat constructor.
Qed.

(** The loop of the sweep: one listing per namespace to check, in order;
    one [delete_namespace] call, and one record, per namespace found
    empty; the counters count the calls that went through and the ones
    that raised. *)
Lemma sweep_namespaces_account (to_check : list Namespace) :
  forall (msg : list Value) (d e : Z) (w : W),
  exists w' tr,
    let listings := sweep_listings tr in
    let deletions := delete_namespace_events tr in
    sweep_namespaces cfg to_check (msg, d, e) w
      = (Ok (msg ++ zip_with namespace_outcome (found_empty to_check listings)
                             (snd <$> deletions),
             d + count_done deletions,
             e + (count_raised listings + count_raised deletions)), w', tr) /\
    fst <$> listings = namespace_id <$> to_check /\
    fst <$> deletions = namespace_id <$> found_empty to_check listings /\
    Forall (fun reply => reply = Done \/ exists ex, reply = Raised ex) (snd <$> deletions) /\
    fetched_namespaces tr = [] /\
    namespace_listing_failures tr = 0 /\
    Forall (fun ev => call_region (fst ev) = region cfg) tr.
Proof.
  induction to_check as [|namespace rest IH]; intros msg d e w.
  - exists w, []. cbv zeta. simpl. unfold ret.
    rewrite app_nil_r, !Z.add_0_r.
    repeat (split; [reflexivity|]). split; [constructor|].
    repeat (split; [reflexivity|]). constructor.
  - cbn [sweep_namespaces]. unfold bind at 1.
    destruct (sweep_one_account namespace msg d e w)
      as (w1 & t1 & Hone & Hl1 & Hd1 & Hr1 & Hf1 & Hn1 & Hg1).
    cbv zeta in Hone. rewrite Hone.
    destruct (IH (msg ++ zip_with namespace_outcome
                           (found_empty [namespace] (sweep_listings t1))
                           (snd <$> delete_namespace_events t1))
                 (d + count_done (delete_namespace_events t1))
                 (e + (count_raised (sweep_listings t1)
                       + count_raised (delete_namespace_events t1))) w1)
      as (w2 & t2 & Hrest & Hl2 & Hd2 & Hr2 & Hf2 & Hn2 & Hg2).
    cbv zeta in Hrest. rewrite Hrest.
    exists w2, (t1 ++ t2). cbv zeta.
    rewrite sweep_listings_app, delete_namespace_events_app, fmap_app.
    assert (Hlen1 : length (sweep_listings t1) = 1%nat).
    { rewrite <- (length_fmap fst), Hl1. reflexivity. }
    rewrite (found_empty_cons namespace rest _ _ Hlen1).
    assert (Hlen : length (found_empty [namespace] (sweep_listings t1))
                   = length (snd <$> delete_namespace_events t1)).
    { rewrite length_fmap, <- (length_fmap fst (delete_namespace_events t1)), Hd1,
        length_fmap. reflexivity. }
    rewrite (zip_with_app_same _ _ _ _ _ Hlen), !count_done_app, !count_raised_app.
    split; [|split; [|split; [|split; [|split; [|split]]]]].
    + rewrite <- app_assoc.
      set (c1 := count_done (delete_namespace_events t1)).
      set (c2 := count_done (delete_namespace_events t2)).
      set (a1 := count_raised (sweep_listings t1)).
      set (a2 := count_raised (sweep_listings t2)).
      set (b1 := count_raised (delete_namespace_events t1)).
      set (b2 := count_raised (delete_namespace_events t2)).
      replace (d + c1 + c2) with (d + (c1 + c2)) by lia.
      replace (e + (a1 + b1) + (a2 + b2)) with (e + (a1 + a2 + (b1 + b2))) by lia.
      reflexivity.
    + rewrite fmap_app, Hl1, Hl2. reflexivity.
    + rewrite !fmap_app, Hd1, Hd2. reflexivity.
    + apply Forall_app. split; assumption.
    + rewrite fetched_namespaces_app, Hf1, Hf2. reflexivity.
    + rewrite namespace_listing_failures_app, Hn1, Hn2. reflexivity.
    + apply Forall_app. split; assumption.
Qed.

(** The whole sweep.  The namespaces examined are the ones the fetch
    returned. *)
Lemma sweep_account (msg : list Value) (w : W) :
  exists w' tr,
    let listings := sweep_listings tr in
    let deletions := delete_namespace_events tr in
    sweep cfg msg w
      = (Ok (msg ++ zip_with namespace_outcome
                             (found_empty (fetched_namespaces tr) listings)
                             (snd <$> deletions),
             count_done deletions,
             count_raised listings + count_raised deletions
             + namespace_listing_failures tr), w', tr) /\
    fst <$> listings = namespace_id <$> fetched_namespaces tr /\
    fst <$> deletions = namespace_id <$> found_empty (fetched_namespaces tr) listings /\
    Forall (fun reply => reply = Done \/ exists ex, reply = Raised ex) (snd <$> deletions) /\
    Forall (fun ev => call_region (fst ev) = region cfg) tr /\
    (delete_unused_namespaces cfg = false -> tr = []).
Proof.
  unfold sweep.
  destruct (delete_unused_namespaces cfg) eqn:Hen.
  2:{ exists w, []. cbv zeta. simpl. unfold ret. rewrite app_nil_r.
      repeat (split; [reflexivity|]). split; [constructor|].
      split; [constructor|reflexivity]. }
  assert (Hloop : forall (to_check : list Namespace) (w1 : W) (fetch : Event),
    fetched_namespaces [fetch] = to_check ->
    sweep_listings [fetch] = [] -> delete_namespace_events [fetch] = [] ->
    namespace_listing_failures [fetch] = 0 ->
    call_region (fst fetch) = region cfg ->
    exists w' t2,
      let tr := [fetch] ++ t2 in
      sweep_namespaces cfg to_check (msg, 0, 0) w1
        = (Ok (msg ++ zip_with namespace_outcome
                               (found_empty (fetched_namespaces tr) (sweep_listings tr))
                               (snd <$> delete_namespace_events tr),
               count_done (delete_namespace_events tr),
               count_raised (sweep_listings tr) + count_raised (delete_namespace_events tr)
               + namespace_listing_failures tr), w', t2) /\
      fst <$> sweep_listings tr = namespace_id <$> fetched_namespaces tr /\
      fst <$> delete_namespace_events tr
        = namespace_id <$> found_empty (fetched_namespaces tr) (sweep_listings tr) /\
      Forall (fun reply => reply = Done \/ exists ex, reply = Raised ex)
             (snd <$> delete_namespace_events tr) /\
      Forall (fun ev => call_region (fst ev) = region cfg) tr /\
      (true = false -> tr = [])).
  { intros to_check w1 fetch Hfe Hli Hde Hnl Hreg.
    destruct (sweep_namespaces_account to_check msg 0 0 w1)
      as (w2 & t2 & Hrun & Hl2 & Hd2 & Hr2 & Hf2 & Hn2 & Hg2).
    cbv zeta in Hrun. exists w2, t2. cbv zeta.
    rewrite sweep_listings_app, delete_namespace_events_app, fetched_namespaces_app,
      namespace_listing_failures_app, Hfe, Hli, Hde, Hnl, Hf2, Hn2.
    rewrite !app_nil_l, app_nil_r, Z.add_0_r.
    split; [exact Hrun|]. split; [exact Hl2|]. split; [exact Hd2|].
    split; [exact Hr2|]. split; [constructor; assumption | discriminate]. }
  assert (Hfail : forall (w1 : W) (ex : Exn),
    exists w' tr,
      (Ok (msg, 0, 0 + 1), w1, [(ListNamespacesAll (region cfg), Raised ex)] ++ [])
      = (Ok (msg ++ zip_with namespace_outcome
                             (found_empty (fetched_namespaces tr) (sweep_listings tr))
                             (snd <$> delete_namespace_events tr),
             count_done (delete_namespace_events tr),
             count_raised (sweep_listings tr) + count_raised (delete_namespace_events tr)
             + namespace_listing_failures tr), w', tr) /\
      fst <$> sweep_listings tr = namespace_id <$> fetched_namespaces tr /\
      fst <$> delete_namespace_events tr
        = namespace_id <$> found_empty (fetched_namespaces tr) (sweep_listings tr) /\
      Forall (fun reply => reply = Done \/ exists ex, reply = Raised ex)
             (snd <$> delete_namespace_events tr) /\
      Forall (fun ev => call_region (fst ev) = region cfg) tr /\
      (true = false -> tr = [])).
  { intros w1 ex. exists w1, [(ListNamespacesAll (region cfg), Raised ex)].
    simpl. rewrite app_nil_r.
    repeat (split; [reflexivity|]). split; [constructor|].
    split; [repeat constructor | discriminate]. }
  unfold try_except at 1, bind at 1, namespaces_to_check.
  destruct (target_namespace_id cfg) as [target|] eqn:Htarget;
    [destruct (py_truthy (Some target)) eqn:Htruthy|].
  - unfold try_except, bind, get_namespace, invoke, ret.
    destruct (api_get_namespace (region cfg) target w) as [[namespace|ex] w1] eqn:Hget.
    + destruct (Hloop [namespace] w1 (GetNamespace (region cfg) target, ANamespace namespace))
        as (w' & t2 & Hrun & Hrest); try reflexivity.
      cbv zeta in Hrun, Hrest. rewrite Hrun. exists w'. eexists.
      split; [reflexivity|exact Hrest].
    + destruct (Hloop [] w1 (GetNamespace (region cfg) target, Raised ex))
        as (w' & t2 & Hrun & Hrest); try reflexivity.
      cbv zeta in Hrun, Hrest. rewrite Hrun. exists w'. eexists.
      split; [reflexivity|exact Hrest].
  - unfold list_namespaces_all, invoke.
    destruct (api_list_namespaces_all (region cfg) w) as [[namespaces|ex] w1] eqn:Hlist.
    + destruct (Hloop namespaces w1 (ListNamespacesAll (region cfg), Namespaces namespaces))
        as (w' & t2 & Hrun & Hrest); try reflexivity.
      { simpl. apply app_nil_r. }
      cbv zeta in Hrun, Hrest. rewrite Hrun. exists w'. eexists.
      split; [reflexivity|exact Hrest].
    + unfold ret. apply Hfail.
  - unfold list_namespaces_all, invoke.
    destruct (api_list_namespaces_all (region cfg) w) as [[namespaces|ex] w1] eqn:Hlist.
    + destruct (Hloop namespaces w1 (ListNamespacesAll (region cfg), Namespaces namespaces))
        as (w' & t2 & Hrun & Hrest); try reflexivity.
      { simpl. apply app_nil_r. }
      cbv zeta in Hrun, Hrest. rewrite Hrun. exists w'. eexists.
      split; [reflexivity|exact Hrest].
    + unfold ret. apply Hfail.
Qed.
End SweepAccount.

(** ** Reading the record of a whole run *)

Section Projections.
Variables (cfg : Config) (images : list Image) (cands : list Candidate).
Variables (t_scan t_del t_sweep : list Event).
Hypothesis Hscan :
  fst <$> t_scan
  = (fun image => ListTagsAll (region cfg) (image_id image) (Some "created_at_desc"))
      <$> images.
Hypothesis Hdel :
  fst <$> t_del = (fun c => DeleteTag (region cfg) (tag_id (cand_tag c))) <$> cands.
Hypothesis Hsweep : Forall (fun ev => is_sweep_call (fst ev) = true) t_sweep.

Lemma whole_listed_tags :
  listed_tags (run_record cfg images t_scan t_del t_sweep) = listed_tags t_scan.
Proof.
  unfold run_record. change (listed_tags (?ev :: ?l)) with (listed_tags l).
  rewrite !listed_tags_app, (delete_listed_tags _ _ _ Hdel), (sweep_listed_tags _ Hsweep).
  rewrite !app_nil_r. reflexivity.
Qed.

Lemma whole_tag_listing_calls :
  tag_listing_calls (run_record cfg images t_scan t_del t_sweep) = image_id <$> images.
Proof.
  unfold run_record. change (tag_listing_calls (?ev :: ?l)) with (tag_listing_calls l).
  rewrite !tag_listing_calls_app, (delete_tag_listing_calls _ _ _ Hdel),
    (sweep_tag_listing_calls _ Hsweep), (scan_tag_listing_calls _ _ _ _ Hscan).
  rewrite !app_nil_r. reflexivity.
Qed.

Lemma whole_delete_tag_events :
  delete_tag_events (run_record cfg images t_scan t_del t_sweep) = delete_tag_events t_del.
Proof.
  unfold run_record. change (delete_tag_events (?ev :: ?l)) with (delete_tag_events l).
  rewrite !delete_tag_events_app, (scan_delete_tag_events _ _ _ _ Hscan),
    (sweep_delete_tag_events _ Hsweep).
  rewrite app_nil_r. reflexivity.
Qed.

Lemma first_sweep_listings (reply : Reply) :
  sweep_listings [(first_call cfg, reply)] = [].
Proof.
  unfold first_call, sweep_listings. simpl.
  destruct (if py_truthy (target_namespace_id cfg) then target_namespace_id cfg else None);
    reflexivity.
Qed.

Lemma whole_sweep_listings :
  sweep_listings (run_record cfg images t_scan t_del t_sweep) = sweep_listings t_sweep.
Proof.
  unfold run_record.
  change ((first_call cfg, Images images) :: t_scan ++ t_del ++ t_sweep)
    with ([(first_call cfg, Images images)] ++ t_scan ++ t_del ++ t_sweep).
  rewrite !sweep_listings_app, first_sweep_listings,
    (scan_sweep_listings _ _ _ _ Hscan), (delete_sweep_listings _ _ _ Hdel).
  reflexivity.
Qed.

Lemma whole_delete_namespace_events :
  delete_namespace_events (run_record cfg images t_scan t_del t_sweep)
  = delete_namespace_events t_sweep.
Proof.
  unfold run_record.
  change (delete_namespace_events (?ev :: ?l)) with (delete_namespace_events l).
  rewrite !delete_namespace_events_app.
  assert (H1 : delete_namespace_events t_scan = []).
  { apply flat_map_nil_Forall. apply (Forall_of_calls _ _ _ Hscan). reflexivity. }
  assert (H2 : delete_namespace_events t_del = []).
  { apply flat_map_nil_Forall. apply (Forall_of_calls _ _ _ Hdel). reflexivity. }
  rewrite H1, H2. reflexivity.
Qed.

Lemma whole_fetched_namespaces :
  fetched_namespaces (run_record cfg images t_scan t_del t_sweep) = fetched_namespaces t_sweep.
Proof.
  unfold run_record. change (fetched_namespaces (?ev :: ?l)) with (fetched_namespaces l).
  rewrite !fetched_namespaces_app.
  assert (H1 : fetched_namespaces t_scan = []).
  { apply flat_map_nil_Forall. apply (Forall_of_calls _ _ _ Hscan). reflexivity. }
  assert (H2 : fetched_namespaces t_del = []).
  { apply flat_map_nil_Forall. apply (Forall_of_calls _ _ _ Hdel). reflexivity. }
  rewrite H1, H2. reflexivity.
Qed.

Lemma whole_namespace_listing_failures :
  namespace_listing_failures (run_record cfg images t_scan t_del t_sweep)
  = namespace_listing_failures t_sweep.
Proof.
  unfold run_record.
  change (namespace_listing_failures (?ev :: ?l)) with (namespace_listing_failures l).
  rewrite !namespace_listing_failures_app.
  assert (H1 : namespace_listing_failures t_scan = 0).
  { unfold namespace_listing_failures. rewrite filter_nil_Forall; [reflexivity|].
    apply (Forall_of_calls _ _ _ Hscan). reflexivity. }
  assert (H2 : namespace_listing_failures t_del = 0).
  { unfold namespace_listing_failures. rewrite filter_nil_Forall; [reflexivity|].
    apply (Forall_of_calls _ _ _ Hdel). reflexivity. }
  rewrite H1, H2. reflexivity.
Qed.

Lemma whole_call_region :
  Forall (fun ev => call_region (fst ev) = region cfg) t_sweep ->
  Forall (fun ev => call_region (fst ev) = region cfg)
         (run_record cfg images t_scan t_del t_sweep).
Proof.
  intros Hreg. unfold run_record. constructor; [reflexivity|].
  apply Forall_app. split; [|apply Forall_app; split; [|exact Hreg]].
  - apply (Forall_of_calls _ _ _ Hscan). reflexivity.
  - apply (Forall_of_calls _ _ _ Hdel). reflexivity.
Qed.
End Projections.

Section Account.
Context `{RegexEngine} {W : Type} `{RegistryAPI W}.
Variable isoformat : datetime -> string.
Variable clk : Clock.

(** A run that lists the images, read off the record of its calls: the
    candidates are those of the tags listed, the message log holds one
    record per candidate and then one per namespace found empty, and
    the counters count calls. *)
Lemma handle_account (environ : gmap string string) (cfg : Config) (w w1 : W)
    (images : list Image) :
  read_config environ = Ok cfg ->
  first_listing cfg w = (Ok images, w1) ->
  exists w' t_scan t_del t_sweep,
    let tr := run_record cfg images t_scan t_del t_sweep in
    let cands := candidates_of clk cfg (listed_tags tr) in
    let records :=
      zip_with (outcome_record isoformat) cands (snd <$> delete_tag_events tr) in
    let ns_records :=
      zip_with namespace_outcome
               (found_empty (fetched_namespaces tr) (sweep_listings tr))
               (snd <$> delete_namespace_events tr) in
    handle isoformat clk environ w
      = (Ok (success_result cfg images cands (records ++ ns_records)
               (count_deleted records)
               (count_done (delete_namespace_events tr))
               (count_raised (sweep_listings tr)
                + count_raised (delete_namespace_events tr)
                + namespace_listing_failures tr)), w', tr) /\
    fst <$> t_scan
      = (fun image => ListTagsAll (region cfg) (image_id image) (Some "created_at_desc"))
          <$> images /\
    fst <$> t_del = (fun c => DeleteTag (region cfg) (tag_id (cand_tag c))) <$> cands /\
    Forall (fun ev => is_sweep_call (fst ev) = true) t_sweep /\
    Forall (fun ev => call_region (fst ev) = region cfg) tr /\
    fst <$> delete_tag_events tr = (fun c => tag_id (cand_tag c)) <$> cands /\
    Forall (fun reply => reply = Done \/ exists ex, reply = Raised ex)
           (snd <$> delete_tag_events tr) /\
    fst <$> sweep_listings tr = namespace_id <$> fetched_namespaces tr /\
    fst <$> delete_namespace_events tr
      = namespace_id <$> found_empty (fetched_namespaces tr) (sweep_listings tr) /\
    Forall (fun reply => reply = Done \/ exists ex, reply = Raised ex)
           (snd <$> delete_namespace_events tr) /\
    (delete_unused_namespaces cfg = false -> t_sweep = []).
Proof.
  intros Hcfg Hfirst.
  destruct (run_phases isoformat clk cfg w w1 images Hfirst)
    as (w2 & w3 & w4 & t_scan & t_del & t_sweep & ns_records & d & e
        & _ & _ & Hsweep & Hrun & Hscan_calls & Hdel_calls & Hdel_replies & Hcalls).
  cbv zeta in Hsweep, Hrun, Hdel_calls.
  destruct (sweep_account cfg
              (zip_with (outcome_record isoformat)
                        (candidates_of clk cfg (listed_tags t_scan)) (snd <$> t_del)) w3)
    as (w' & tr' & Hsweep' & Hexam & Hdels & Hreplies & Hregion & Hoff).
  cbv zeta in Hsweep'. rewrite Hsweep in Hsweep'.
  injection Hsweep' as Hmsg -> -> -> ->.
  rewrite Hmsg in Hrun.
  exists w', t_scan, t_del, tr'. cbv zeta.
  erewrite whole_listed_tags, whole_delete_tag_events, whole_sweep_listings,
    whole_delete_namespace_events, whole_fetched_namespaces,
    whole_namespace_listing_failures by eassumption.
  rewrite (delete_events_replies _ _ _ Hdel_calls), (delete_events_ids _ _ _ Hdel_calls).
  split; [rewrite (handle_success isoformat clk environ cfg w w1 images Hcfg Hfirst);
          exact Hrun|].
  split; [exact Hscan_calls|]. split; [exact Hdel_calls|]. split; [exact Hcalls|].
  split; [eapply whole_call_region; eassumption|].
  split; [reflexivity|]. split; [exact Hdel_replies|].
  split; [exact Hexam|]. split; [exact Hdels|]. split; [exact Hreplies | exact Hoff].
Qed.
End Account.

(** ** The age predicate, further *)

(** X1. A tag that lacks one of its timestamps, or whose two timestamps
    are one naive and one aware, is never old: the exception raised by
    the comparison is caught and the answer is false. *)
Theorem is_tag_old_ill_formed (clk : Clock) (tag : Tag) :
  created_at tag = None \/ updated_at tag = None \/
  (exists c u, created_at tag = Some c /\ updated_at tag = Some u /\
               ~ (is_Some (tzinfo c) <-> is_Some (tzinfo u))) ->
  is_tag_old clk tag = false.
Proof.
  unfold is_tag_old, is_tag_old_body, py_max.
  intros [Hc|[Hu|(c & u & Hc & Hu & Hkind)]].
  - rewrite Hc. reflexivity.
  - rewrite Hu. destruct (created_at tag); reflexivity.
  - rewrite Hc, Hu. unfold datetime_gt, datetime_cmp.
    destruct (tzinfo u) as [ou|] eqn:Hou, (tzinfo c) as [oc|] eqn:Hoc; try reflexivity;
      exfalso; apply Hkind; rewrite ?Hou, ?Hoc;
      split; intros Hx; first [exact Hx | eexists; reflexivity].
Qed.

Lemma is_tag_old_ill_formed_witness :
  is_tag_old sample_clock tag_undated = false /\
  is_tag_old sample_clock
    (mkTag "t-mixed" "build-1" (Some (mkDatetime (738000 * DAY) None))
           (Some (mkDatetime (738000 * DAY) (Some 0))) None) = false.
Proof.
  split.
  - apply is_tag_old_ill_formed. left. reflexivity.
  - apply is_tag_old_ill_formed. right. right.
    exists (mkDatetime (738000 * DAY) None), (mkDatetime (738000 * DAY) (Some 0)).
    split; [reflexivity|]. split; [reflexivity|].
    simpl. intros [_ Hk]. destruct Hk as [x Hx]; [eauto | discriminate Hx].
Defined.



(** X3. On aware timestamps the answer depends on instants only: two
    tags whose timestamps denote the same instants, written at whatever
    UTC offsets, get the same answer, on machines in whatever local
    zone, as long as their clocks show the same UTC time. *)
Theorem is_tag_old_zone_independent (clk clk' : Clock) (tag tag' : Tag)
    (c u c' u' : datetime) :
  created_at tag = Some c -> updated_at tag = Some u ->
  created_at tag' = Some c' -> updated_at tag' = Some u' ->
  is_Some (tzinfo c) -> is_Some (tzinfo u) ->
  is_Some (tzinfo c') -> is_Some (tzinfo u') ->
  valid_datetime c -> valid_datetime u -> valid_datetime c' -> valid_datetime u' ->
  clock_in_range clk c -> clock_in_range clk u ->
  clock_in_range clk' c' -> clock_in_range clk' u' ->
  instant c = instant c' -> instant u = instant u' ->
  utc_now clk = utc_now clk' ->
  is_tag_old clk tag = is_tag_old clk' tag'.
Proof.
  intros Hc Hu Hc' Hu' Ac Au Ac' Au' Vc Vu Vc' Vu' Nc Nu Nc' Nu' Hic Hiu Hnow.
  assert (Hk : is_Some (tzinfo c) <-> is_Some (tzinfo u)) by tauto.
  assert (Hk' : is_Some (tzinfo c') <-> is_Some (tzinfo u')) by tauto.
  pose proof (is_tag_old_some clk tag c u Hc Hu Vc Vu Hk Nc Nu) as Hold.
  pose proof (is_tag_old_some clk' tag' c' u' Hc' Hu' Vc' Vu' Hk' Nc' Nu') as Hold'.
  assert (Hsame : older_than_retention clk c u <-> older_than_retention clk' c' u').
  { unfold older_than_retention, current_instant.
    destruct Ac as [oc ->], Ac' as [oc' ->]. rewrite Hic, Hiu, Hnow. reflexivity. }
  destruct (is_tag_old clk tag), (is_tag_old clk' tag'); try reflexivity.
  - symmetry. apply Hold', Hsame, Hold. reflexivity.
  - apply Hold, Hsame, Hold'. reflexivity.
Qed.

Lemma is_tag_old_zone_independent_witness :
  is_tag_old sample_clock tag_stale
  = is_tag_old (mkClock (739000 * DAY) (3600 * 1000000))
      (mkTag "t-stale" "build-17"
             (Some (mkDatetime (738800 * DAY + 7200 * 1000000) (Some (7200 * 1000000))))
             (Some (mkDatetime (738800 * DAY - 3600 * 1000000) (Some (- 3600 * 1000000))))
             None).
Proof.
  apply (is_tag_old_zone_independent sample_clock (mkClock (739000 * DAY) (3600 * 1000000))
           tag_stale _
           (mkDatetime (738800 * DAY) (Some 0)) (mkDatetime (738800 * DAY) (Some 0))
           (mkDatetime (738800 * DAY + 7200 * 1000000) (Some (7200 * 1000000)))
           (mkDatetime (738800 * DAY - 3600 * 1000000) (Some (- 3600 * 1000000))));
    try reflexivity; try (simpl; eauto; fail);
    split; vm_compute; (discriminate || reflexivity).
Defined.

(** ** Reading the configuration *)

(** X4. Without REGION in the environment, [handle] raises [KeyError]
    before it makes any call: the lookup is outside the [try] block. *)
Theorem missing_region_raises `{RegexEngine} {W : Type} `{RegistryAPI W}
    (isoformat : datetime -> string) (clk : Clock)
    (environ : gmap string string) (w : W) :
  environ !! "REGION" = None ->
  exists e,
    handle isoformat clk environ w = (Raise e, w, []) /\ exn_kind e = KeyError.
Proof.
  intros Hregion. exists (mkExn KeyError "'REGION'"). split; [|reflexivity].
  unfold handle, read_config, environ_getitem, lift, bind. rewrite Hregion. reflexivity.
Qed.

Lemma missing_region_raises_witness :
  exists e,
    mem_handle (list_to_map [("TAG_NAME_PATTERN", "-rc")]) sample_registry
    = (Raise e, sample_registry, []) /\ exn_kind e = KeyError.
Proof.
  apply (missing_region_raises mem_isoformat sample_clock
           (list_to_map [("TAG_NAME_PATTERN", "-rc")]) sample_registry).
  reflexivity.
Defined.

Lemma environ_flag_default_true (environ : gmap string string) (k : string) :
  environ_flag environ k "true" = false
  <-> exists v, environ !! k = Some v /\ lower v <> "true".
Proof.
  unfold environ_flag, environ_get. destruct (environ !! k) as [v|].
  - destruct (String.eqb_spec (lower v) "true") as [Heq|Hne].
    + split; [discriminate|]. intros (v' & [= <-] & Hv'). contradiction.
    + split; [intros _; exists v; auto | reflexivity].
  - split; [discriminate | intros (v & [=] & _)].
Qed.

Lemma environ_flag_default_false (environ : gmap string string) (k : string) :
  environ_flag environ k "false" = true
  <-> exists v, environ !! k = Some v /\ lower v = "true".
Proof.
  unfold environ_flag, environ_get. destruct (environ !! k) as [v|].
  - destruct (String.eqb_spec (lower v) "true") as [Heq|Hne].
    + split; [intros _; exists v; auto | reflexivity].
    + split; [discriminate|]. intros (v' & [= <-] & Hv'). contradiction.
  - split; [discriminate | intros (v & [=] & _)].
Qed.

(** X5. What the environment turns on and off.  Deletion by age is on
    unless DELETE_OLD_TAGS is set to something other than "true" (in
    any letter case); the sweep of empty namespaces is off unless
    DELETE_UNUSED_NAMESPACE is set to "true" (in any letter case); the
    pattern and the targeted namespace are taken as they are, absent
    when unset.  In particular, with REGION alone the configuration is:
    age on, no pattern, sweep off, no target. *)
Theorem configuration_from_environment (environ : gmap string string) (cfg : Config) :
  read_config environ = Ok cfg ->
  environ !! "REGION" = Some (region cfg) /\
  (delete_old_tags cfg = false
   <-> exists v, environ !! "DELETE_OLD_TAGS" = Some v /\ lower v <> "true") /\
  (delete_unused_namespaces cfg = true
   <-> exists v, environ !! "DELETE_UNUSED_NAMESPACE" = Some v /\ lower v = "true") /\
  tag_name_pattern cfg = environ !! "TAG_NAME_PATTERN" /\
  target_namespace_id cfg = environ !! "NAMESPACE_ID" /\
  (environ !! "DELETE_OLD_TAGS" = None -> environ !! "TAG_NAME_PATTERN" = None ->
   environ !! "DELETE_UNUSED_NAMESPACE" = None -> environ !! "NAMESPACE_ID" = None ->
   cfg = mkConfig (region cfg) true None false None).
Proof.
  unfold read_config, environ_getitem.
  destruct (environ !! "REGION") as [r|] eqn:Hregion; [|discriminate].
  intros [= <-]. cbn [region delete_old_tags delete_unused_namespaces tag_name_pattern
                      target_namespace_id].
  split; [reflexivity|].
  split; [apply environ_flag_default_true|].
  split; [apply environ_flag_default_false|].
  assert (Hget : forall k, environ_get environ k None = environ !! k).
  { intros k. unfold environ_get. destruct (environ !! k); reflexivity. }
  rewrite !Hget. split; [reflexivity|]. split; [reflexivity|].
  intros H1 H2 H3 H4. unfold environ_flag, environ_get. rewrite H1, H2, H3, H4.
  reflexivity.
Qed.

Lemma configuration_from_environment_witness :
  ~ (exists v, sample_environ !! "DELETE_OLD_TAGS" = Some v /\ lower v <> "true") /\
  delete_unused_namespaces sample_config = true.
Proof.
  assert (Hcfg : read_config sample_environ = Ok sample_config) by reflexivity.
  destruct (configuration_from_environment sample_environ sample_config Hcfg)
    as (_ & Hold & Hsweep & _).
  split.
  - intros Hoff. apply Hold in Hoff. discriminate Hoff.
  - apply Hsweep. exists "True". split; reflexivity.
Defined.

(** ** The calls of a run *)



(** ** What gets selected *)

Lemma candidates_of_none `{RegexEngine} (clk : Clock) (cfg : Config) (tags : list Tag) :
  (forall tag, triggered clk cfg tag = false) -> candidates_of clk cfg tags = [].
Proof.
  intros Hnone. unfold candidates_of.
  rewrite (filter_nil_Forall (triggered clk cfg) tags); [reflexivity|].
  apply Forall_forall. intros tag _. apply Hnone.
Qed.

Lemma fmap_nil_eq {A B} (f : A -> B) (l : list A) : f <$> l = [] -> l = [].
Proof. destruct l; [reflexivity | discriminate]. Qed.

(** X7. With deletion by age turned off and no pattern, a run still
    lists the tags of every image but selects none of them: it makes no
    [delete_tag] call, its message log holds no record about a tag, and
    the three counters of tags are zero. *)
Theorem no_criteria_no_deletion `{RegexEngine} {W : Type} `{RegistryAPI W}
    (isoformat : datetime -> string) (clk : Clock)
    (environ : gmap string string) (cfg : Config) (w w1 : W) (images : list Image) :
  read_config environ = Ok cfg ->
  first_listing cfg w = (Ok images, w1) ->
  delete_old_tags cfg = false ->
  py_truthy (tag_name_pattern cfg) = false ->
  exists result w' tr msg,
    handle isoformat clk environ w = (Ok result, w', tr) /\
    tag_listing_calls tr = image_id <$> images /\
    delete_tag_events tr = [] /\
    message_log result = Some msg /\
    Forall is_namespace_record msg /\
    counter "total_tags_found" result = Some 0 /\
    counter "successfully_deleted" result = Some 0 /\
    counter "errors" result = Some 0.
Proof.
  intros Hcfg Hfirst Hage Hname.
  destruct (run_success isoformat clk cfg w w1 images Hfirst)
    as (w' & tr & ns & d & e & Hrun & Hcalls & Hids & _ & Hns & _).
  cbv zeta in Hrun, Hids.
  assert (Hnone : candidates_of clk cfg (listed_tags tr) = []).
  { apply candidates_of_none. intros tag.
    unfold triggered, age_triggered, name_triggered. rewrite Hage, Hname. reflexivity. }
  rewrite Hnone in Hrun, Hids. cbn [zip_with fmap list_fmap app] in Hrun, Hids.
  eexists _, w', tr, ns.
  split; [rewrite (handle_success isoformat clk environ cfg w w1 images Hcfg Hfirst);
          exact Hrun|].
  split; [exact Hcalls|]. split; [apply (fmap_nil_eq _ _ Hids)|].
  split; [reflexivity|]. split; [exact Hns|]. repeat split; reflexivity.
Qed.

Lemma no_criteria_no_deletion_witness :
  exists result w' tr msg,
    mem_handle (list_to_map [("REGION", "fr-par"); ("DELETE_OLD_TAGS", "False")])
               sample_registry = (Ok result, w', tr) /\
    tag_listing_calls tr = ["img-a"; "img-b"] /\
    delete_tag_events tr = [] /\
    message_log result = Some msg.
Proof.
  assert (Hcfg : read_config (list_to_map [("REGION", "fr-par"); ("DELETE_OLD_TAGS", "False")])
                 = Ok (mkConfig "fr-par" false None false None)) by reflexivity.
  assert (Hfirst : first_listing (mkConfig "fr-par" false None false None) sample_registry
                   = (Ok [img_a; img_b], sample_registry)) by reflexivity.
  destruct (no_criteria_no_deletion mem_isoformat sample_clock _ _ sample_registry
              sample_registry [img_a; img_b] Hcfg Hfirst eq_refl eq_refl)
    as (result & w' & tr & msg & Hrun & Hcalls & Hdel & Hmsg & _).
  exists result, w', tr, msg. repeat split; assumption.
Defined.



Lemma outcome_record_reasons (isoformat : datetime -> string) (c : Candidate)
    (reply : Reply) :
  get "deletion_reasons" (outcome_record isoformat c reply)
  = Some (VList (VStr <$> cand_reason c)).
Proof.
  unfold outcome_record.
  assert (Herr : forall e,
    get "deletion_reasons" (error_record (cand_tag c) (cand_reason c) e)
    = Some (VList (VStr <$> cand_reason c))) by reflexivity.
  assert (Hok : forall record,
    deleted_record isoformat (cand_tag c) (cand_reason c) = Ok record ->
    get "deletion_reasons" record = Some (VList (VStr <$> cand_reason c))).
  { unfold deleted_record, isoformat_of.
    destruct (created_at (cand_tag c)), (updated_at (cand_tag c)); simpl; try discriminate.
    intros record [= <-]. reflexivity. }
  destruct reply; try apply Herr;
    (destruct (deleted_record isoformat (cand_tag c) (cand_reason c)) eqn:Hrec;
     [apply Hok; reflexivity | apply Herr]).
Qed.

Lemma reasons_values `{RegexEngine} (clk : Clock) (cfg : Config) (tag : Tag) :
  triggered clk cfg tag = true ->
  (reasons clk cfg tag = ["old"] \/ reasons clk cfg tag = ["name_match"] \/
   reasons clk cfg tag = ["old"; "name_match"]) /\
  (In "old" (reasons clk cfg tag) -> delete_old_tags cfg = true) /\
  (In "name_match" (reasons clk cfg tag) -> py_truthy (tag_name_pattern cfg) = true).
Proof.
  unfold triggered, reasons.
  destruct (age_triggered clk cfg tag) eqn:Hage, (name_triggered cfg tag) eqn:Hname;
    simpl; try discriminate; intros _.
  - apply andb_prop in Hage, Hname. split; [tauto|]. split; intros _; tauto.
  - apply andb_prop in Hage. split; [tauto|]. split; [tauto|].
    intros [Hx|[]]. discriminate Hx.
  - apply andb_prop in Hname. split; [tauto|]. split; [|tauto].
    intros [Hx|[]]. discriminate Hx.
Qed.

(** X9. The [deletion_reasons] of a record about a tag is one of three
    lists: ["old"], ["name_match"], or ["old", "name_match"] in that
    order; it is never empty.  "old" appears only when deletion by age
    is on, "name_match" only when a pattern is set. *)
Theorem deletion_reasons_values `{RegexEngine} {W : Type} `{RegistryAPI W}
    (isoformat : datetime -> string) (clk : Clock)
    (environ : gmap string string) (cfg : Config) (w : W) :
  read_config environ = Ok cfg ->
  exists result w' tr,
    handle isoformat clk environ w = (Ok result, w', tr) /\
    forall msg record,
      message_log result = Some msg -> In record msg -> is_tag_record record ->
      exists rs,
        get "deletion_reasons" record = Some (VList (VStr <$> rs)) /\
        (rs = ["old"] \/ rs = ["name_match"] \/ rs = ["old"; "name_match"]) /\
        (In "old" rs -> delete_old_tags cfg = true) /\
        (In "name_match" rs -> py_truthy (tag_name_pattern cfg) = true).
Proof.
  intros Hcfg.
  destruct (first_listing cfg w) as [[images|ex] w1] eqn:Hfirst.
  - destruct (run_success isoformat clk cfg w w1 images Hfirst)
      as (w' & tr & ns & d & e & Hrun & _ & _ & _ & Hns & _).
    cbv zeta in Hrun.
    eexists _, w', tr. split.
    { rewrite (handle_success isoformat clk environ cfg w w1 images Hcfg Hfirst).
      exact Hrun. }
    intros msg record [= <-] Hin Htag.
    apply in_app_or in Hin. destruct Hin as [Hin|Hin].
    + apply In_zip_with_l in Hin. destruct Hin as (c & reply & Hc & ->).
      destruct (candidates_of_reasons clk cfg _ c Hc) as [Hr Ht].
      exists (cand_reason c). split; [apply outcome_record_reasons|].
      rewrite Hr. apply reasons_values, Ht.
    + rewrite Forall_forall in Hns. apply list_elem_of_In in Hin.
      destruct (Hns record Hin) as [_ Hnone].
      destruct Htag as [v Hv]. rewrite Hnone in Hv. discriminate Hv.
  - eexists _, w1, _. split; [apply handle_failure; eassumption|].
    intros msg record Hmsg. discriminate Hmsg.
Qed.

Lemma deletion_reasons_values_witness :
  exists result w' tr,
    mem_handle sample_environ sample_registry = (Ok result, w', tr) /\
    forall msg record,
      message_log result = Some msg -> In record msg -> is_tag_record record ->
      exists rs, get "deletion_reasons" record = Some (VList (VStr <$> rs)) /\ rs <> [].
Proof.
  assert (Hcfg : read_config sample_environ = Ok sample_config) by reflexivity.
  destruct (deletion_reasons_values mem_isoformat sample_clock sample_environ
              sample_config sample_registry Hcfg)
    as (result & w' & tr & Hrun & Hrecords).
  exists result, w', tr. split; [exact Hrun|].
  intros msg record Hmsg Hin Htag.
  destruct (Hrecords msg record Hmsg Hin Htag) as (rs & Hget & Hrs & _).
  exists rs. split; [exact Hget|].
  destruct Hrs as [-> | [-> | ->]]; discriminate.
Defined.

(** ** The summary and the message log *)

Lemma filter_all_true {A} (f : A -> bool) (l : list A) :
  Forall (fun x => f x = true) l -> List.filter f l = l.
Proof.
  induction 1 as [|x l Hx _ IH]; simpl; [reflexivity|]. rewrite Hx, IH. reflexivity.
Qed.

Lemma filter_complement_len {A} (f g : A -> bool) (l : list A) :
  Forall (fun x => g x = negb (f x)) l ->
  len (List.filter g l) = len l - len (List.filter f l).
Proof.
  unfold len. induction 1 as [|x l Hx _ IH]; [reflexivity|].
  cbn [List.filter]. rewrite Hx. destruct (f x); cbn [negb length]; lia.
Qed.

Lemma outcome_record_is_tag (isoformat : datetime -> string) (c : Candidate)
    (reply : Reply) :
  is_tag_recordb (outcome_record isoformat c reply) = true.
Proof. unfold is_tag_recordb. rewrite outcome_record_tag_id. reflexivity. Qed.

Lemma outcome_record_one_status (isoformat : datetime -> string) (c : Candidate)
    (reply : Reply) :
  has_status "error" (outcome_record isoformat c reply)
  = negb (has_status "deleted" (outcome_record isoformat c reply)).
Proof.
  unfold has_status.
  destruct (outcome_record_shape isoformat c reply) as [[_ ->]|[_ ->]]; reflexivity.
Qed.

Lemma Forall_zip_with {A B C} (P : C -> Prop) (f : A -> B -> C) (l : list A) (k : list B) :
  (forall x y, P (f x y)) -> Forall P (zip_with f l k).
Proof.
  intros HP. revert k. induction l as [|x l IH]; intros [|y k]; simpl; constructor; auto.
Qed.

(** The records about tags are the first ones of the message log. *)
Lemma tag_records_of_log (isoformat : datetime -> string) (cands : list Candidate)
    (replies : list Reply) (ns_records : list Value) :
  Forall is_namespace_record ns_records ->
  tag_records (zip_with (outcome_record isoformat) cands replies ++ ns_records)
  = zip_with (outcome_record isoformat) cands replies.
Proof.
  intros Hns. unfold tag_records. rewrite List.filter_app.
  rewrite filter_all_true
    by (apply Forall_zip_with; intros; apply outcome_record_is_tag).
  rewrite (filter_nil_Forall is_tag_recordb ns_records); [apply app_nil_r|].
  eapply Forall_impl; [exact Hns|]. intros record [_ Hnone].
  unfold is_tag_recordb. rewrite Hnone. reflexivity.
Qed.

(** X10. In the result of a run that lists the images, the summary
    agrees with the message log and with the calls made:
    [total_images_analyzed] is the number of tag listings;
    [total_tags_found] is the number of [delete_tag] calls and of
    records about tags; [successfully_deleted] is the number of those
    records that say "deleted" and [errors] the number that say
    "error"; so [successfully_deleted] lies between 0 and
    [total_tags_found].  Records about namespaces count in none of
    the four. *)
Theorem summary_matches_message_log `{RegexEngine} {W : Type} `{RegistryAPI W}
    (isoformat : datetime -> string) (clk : Clock)
    (environ : gmap string string) (cfg : Config) (w w1 : W) (images : list Image) :
  read_config environ = Ok cfg ->
  first_listing cfg w = (Ok images, w1) ->
  exists result w' tr msg,
    handle isoformat clk environ w = (Ok result, w', tr) /\
    message_log result = Some msg /\
    counter "total_images_analyzed" result = Some (len (tag_listing_calls tr)) /\
    counter "total_tags_found" result = Some (len (delete_tag_events tr)) /\
    len (tag_records msg) = len (delete_tag_events tr) /\
    counter "successfully_deleted" result
      = Some (len (List.filter (has_status "deleted") (tag_records msg))) /\
    counter "errors" result
      = Some (len (List.filter (has_status "error") (tag_records msg))) /\
    0 <= len (List.filter (has_status "deleted") (tag_records msg))
      <= len (delete_tag_events tr).
Proof.
  intros Hcfg Hfirst.
  destruct (run_success isoformat clk cfg w w1 images Hfirst)
    as (w' & tr & ns & d & e & Hrun & Hcalls & Hids & _ & Hns & _).
  cbv zeta in Hrun, Hids.
  set (cands := candidates_of clk cfg (listed_tags tr)) in *.
  set (records := zip_with (outcome_record isoformat) cands (snd <$> delete_tag_events tr))
    in *.
  assert (Hevents : length (delete_tag_events tr) = length cands).
  { rewrite <- (length_fmap fst (delete_tag_events tr)), Hids, length_fmap. reflexivity. }
  assert (Hlen : length records = length cands).
  { unfold records. rewrite length_zip_with, length_fmap, Hevents. lia. }
  assert (Htags : tag_records (records ++ ns) = records)
    by (apply tag_records_of_log, Hns).
  assert (Herrors : len (List.filter (has_status "error") records)
                    = len cands - count_deleted records).
  { unfold count_deleted.
    rewrite (filter_complement_len (has_status "deleted") (has_status "error") records).
    - unfold len. rewrite Hlen. reflexivity.
    - apply Forall_zip_with. intros. apply outcome_record_one_status. }
  eexists _, w', tr, (records ++ ns).
  split; [rewrite (handle_success isoformat clk environ cfg w w1 images Hcfg Hfirst);
          exact Hrun|].
  split; [reflexivity|]. rewrite Htags.
  split; [rewrite Hcalls; unfold len; rewrite length_fmap; reflexivity|].
  split; [unfold len; rewrite Hevents; reflexivity|].
  split; [unfold len; rewrite Hlen, Hevents; reflexivity|].
  split; [reflexivity|].
  split; [rewrite Herrors; reflexivity|].
  unfold len. rewrite Hevents, <- Hlen. split; [lia|].
  apply inj_le, filter_length_le.
Qed.

Lemma summary_matches_message_log_witness :
  exists result w' tr msg,
    mem_handle sample_environ registry_flaky = (Ok result, w', tr) /\
    message_log result = Some msg /\
    counter "total_tags_found" result = Some 3 /\
    len (tag_records msg) = 3.
Proof.
  assert (Hcfg : read_config sample_environ = Ok sample_config) by reflexivity.
  assert (Hfirst : first_listing sample_config registry_flaky
                   = (Ok [img_a; img_b], registry_flaky)) by reflexivity.
  destruct (summary_matches_message_log mem_isoformat sample_clock sample_environ
              sample_config registry_flaky registry_flaky [img_a; img_b] Hcfg Hfirst)
    as (result & w' & tr & msg & Hrun & Hmsg & _ & Hfound & Hrecords & _).
  exists result, w', tr, msg. split; [exact Hrun|]. split; [exact Hmsg|].
  assert (Hn : len (delete_tag_events tr) = 3) by (run_trace Hrun; reflexivity).
  rewrite Hfound, Hrecords, Hn. split; reflexivity.
Defined.



Lemma count_deleted_le_done (isoformat : datetime -> string) (cands : list Candidate) :
  forall events : list (string * Reply),
  Forall (fun reply => reply = Done \/ exists ex, reply = Raised ex) (snd <$> events) ->
  length cands = length events ->
  count_deleted (zip_with (outcome_record isoformat) cands (snd <$> events))
    <= count_done events /\
  (Forall (fun c => has_timestamps (cand_tag c) = true) cands ->
   count_deleted (zip_with (outcome_record isoformat) cands (snd <$> events))
   = count_done events).
Proof.
  unfold count_deleted, count_done, len.
  induction cands as [|c cands IH]; intros [|[id reply] events] Hreplies Hlen;
    try discriminate Hlen.
  - split; [reflexivity | intros _; reflexivity].
  - injection Hlen as Hlen. rewrite fmap_cons in Hreplies |- *.
    apply Forall_cons in Hreplies. destruct Hreplies as [Hr Hrs].
    destruct (IH events Hrs Hlen) as [Hle Heq].
    cbn [zip_with List.filter snd] in Hr |- *.
    rewrite (succeeded_done isoformat c reply Hr). split.
    + destruct (is_done reply), (has_timestamps (cand_tag c));
        cbn [andb length]; lia.
    + intros Hall. apply Forall_cons in Hall. destruct Hall as [Hc Hcs].
      rewrite Hc, andb_true_r. specialize (Heq Hcs).
      destruct (is_done reply); cbn [length]; lia.
Qed.

(** X12. [successfully_deleted] never exceeds the number of
    [delete_tag] calls that went through, and equals it when every
    candidate has both timestamps.  It can be smaller: a tag without
    timestamps selected by its name is deleted at the registry and
    reported as an error. *)
Theorem deleted_count_and_calls `{RegexEngine} {W : Type} `{RegistryAPI W}
    (isoformat : datetime -> string) (clk : Clock)
    (environ : gmap string string) (cfg : Config) (w w1 : W) (images : list Image) :
  read_config environ = Ok cfg ->
  first_listing cfg w = (Ok images, w1) ->
  exists result w' tr n,
    handle isoformat clk environ w = (Ok result, w', tr) /\
    counter "successfully_deleted" result = Some n /\
    n <= count_done (delete_tag_events tr) /\
    (Forall (fun tag => triggered clk cfg tag = true -> has_timestamps tag = true)
            (listed_tags tr) ->
     n = count_done (delete_tag_events tr)).
Proof.
  intros Hcfg Hfirst.
  destruct (run_success isoformat clk cfg w w1 images Hfirst)
    as (w' & tr & ns & d & e & Hrun & _ & Hids & Hreplies & _).
  cbv zeta in Hrun, Hids.
  assert (Hlen : length (candidates_of clk cfg (listed_tags tr))
                 = length (delete_tag_events tr)).
  { rewrite <- (length_fmap fst (delete_tag_events tr)), Hids, length_fmap. reflexivity. }
  destruct (count_deleted_le_done isoformat _ _ Hreplies Hlen) as [Hle Heq].
  eexists _, w', tr, _.
  split; [rewrite (handle_success isoformat clk environ cfg w w1 images Hcfg Hfirst);
          exact Hrun|].
  split; [reflexivity|]. split; [exact Hle|].
  intros Hdated. apply Heq. apply Forall_forall. intros c Hc.
  apply list_elem_of_In in Hc.
  destruct (candidates_of_reasons clk cfg _ c Hc) as [_ Htrig].
  rewrite Forall_forall in Hdated. apply Hdated; [|exact Htrig].
  assert (Hct : In (cand_tag c) (cand_tag <$> candidates_of clk cfg (listed_tags tr))).
  { apply list_elem_of_In, list_elem_of_fmap. exists c.
    split; [reflexivity | apply list_elem_of_In, Hc]. }
  rewrite candidates_of_tags in Hct. apply filter_In in Hct.
  apply list_elem_of_In, Hct.
Qed.

Lemma deleted_count_and_calls_witness :
  exists result w' tr,
    mem_handle sample_environ sample_registry = (Ok result, w', tr) /\
    counter "successfully_deleted" result = Some 3 /\
    count_done (delete_tag_events tr) = 4.
Proof.
  assert (Hcfg : read_config sample_environ = Ok sample_config) by reflexivity.
  assert (Hfirst : first_listing sample_config sample_registry
                   = (Ok [img_a; img_b], sample_registry)) by reflexivity.
  destruct (deleted_count_and_calls mem_isoformat sample_clock sample_environ
              sample_config sample_registry sample_registry [img_a; img_b] Hcfg Hfirst)
    as (result & w' & tr & n & Hrun & Hn & Hle & _).
  exists result, w', tr. split; [exact Hrun|].
  assert (Hcount :
    match fst (fst (handle mem_isoformat sample_clock sample_environ sample_registry)) with
    | Ok r => counter "successfully_deleted" r
    | Raise _ => None
    end = Some 3) by (vm_compute; reflexivity).
  rewrite Hrun in Hcount. cbn [fst] in Hcount.
  split; [exact Hcount|]. run_trace Hrun. reflexivity.
Defined.

(** ** The sweep, further *)

Lemma fetched_of_fetches (tr : list Event) :
  fetched_namespaces tr = fetched_namespaces (namespace_fetches tr).
Proof.
  induction tr as [|[c r] tr IH]; [reflexivity|].
  destruct c; simpl; rewrite IH; reflexivity.
Qed.

Lemma same_record {A W} (r1 r2 : Result A) (w1 w2 : W) (t1 t2 : list Event) :
  (r1, w1, t1) = (r2, w2, t2) -> t1 = t2.
Proof. intros [= _ _ ->]. reflexivity. Qed.

(** X13. The sweep examines exactly the namespaces its fetch returned,
    each once and in the order returned.  The fetch is a single call:
    [get_namespace] on the targeted namespace when NAMESPACE_ID is set,
    [list_namespaces_all] otherwise, and no call at all when the sweep
    is off.  So a targeted sweep never lists all namespaces and
    examines at most one. *)
Theorem sweep_examines_fetched_namespaces `{RegexEngine} {W : Type} `{RegistryAPI W}
    (isoformat : datetime -> string) (clk : Clock)
    (environ : gmap string string) (cfg : Config) (w w1 : W) (images : list Image) :
  read_config environ = Ok cfg ->
  first_listing cfg w = (Ok images, w1) ->
  exists result w' tr,
    handle isoformat clk environ w = (Ok result, w', tr) /\
    fst <$> sweep_listings tr = namespace_id <$> fetched_namespaces tr /\
    fst <$> namespace_fetches tr
      = (if delete_unused_namespaces cfg
         then [match target_namespace_id cfg with
               | Some target =>
                   if py_truthy (target_namespace_id cfg)
                   then GetNamespace (region cfg) target
                   else ListNamespacesAll (region cfg)
               | None => ListNamespacesAll (region cfg)
               end]
         else []) /\
    (py_truthy (target_namespace_id cfg) = true ->
     (length (sweep_listings tr) <= 1)%nat).
Proof.
  intros Hcfg Hfirst.
  destruct (handle_account isoformat clk environ cfg w w1 images Hcfg Hfirst)
    as (w' & t_scan & t_del & t_sweep & Hrun & _ & _ & _ & _ & _ & _ & Hexam & _).
  cbv zeta in Hrun, Hexam.
  destruct (run_success isoformat clk cfg w w1 images Hfirst)
    as (w'' & tr & ns & d & e & Hrun' & _ & _ & _ & _ & _ & _ & _ & Hfc).
  cbv zeta in Hrun'.
  rewrite <- (handle_success isoformat clk environ cfg w w1 images Hcfg Hfirst),
    Hrun in Hrun'.
  apply same_record in Hrun'. rewrite <- Hrun' in Hfc. clear Hrun'.
  set (tr0 := run_record cfg images t_scan t_del t_sweep) in *.
  eexists _, w', tr0. split; [exact Hrun|]. split; [exact Hexam|].
  split; [exact Hfc|].
  intros Htarget.
  rewrite <- (length_fmap fst), Hexam, length_fmap, fetched_of_fetches.
  destruct (delete_unused_namespaces cfg).
  - assert (Hget : exists target, fetch_call cfg = GetNamespace (region cfg) target).
    { unfold fetch_call. rewrite Htarget.
      destruct (target_namespace_id cfg) as [target|]; [eauto | discriminate Htarget]. }
    destruct Hget as [target Hget]. rewrite Hget in Hfc.
    destruct (namespace_fetches tr0) as [|[c reply] [|ev rest]]; try discriminate Hfc.
    injection Hfc as ->. destruct reply; simpl; lia.
  - apply fmap_nil_eq in Hfc. rewrite Hfc. simpl. lia.
Qed.

Lemma sweep_examines_fetched_namespaces_witness :
  exists result w' tr,
    mem_handle sample_environ sample_registry = (Ok result, w', tr) /\
    fetched_namespaces tr = [ns_main; ns_empty] /\
    fst <$> sweep_listings tr = ["ns-main"; "ns-empty"].
Proof.
  assert (Hcfg : read_config sample_environ = Ok sample_config) by reflexivity.
  assert (Hfirst : first_listing sample_config sample_registry
                   = (Ok [img_a; img_b], sample_registry)) by reflexivity.
  destruct (sweep_examines_fetched_namespaces mem_isoformat sample_clock sample_environ
              sample_config sample_registry sample_registry [img_a; img_b] Hcfg Hfirst)
    as (result & w' & tr & Hrun & Hexam & _).
  exists result, w', tr. split; [exact Hrun|].
  assert (Hfetched : fetched_namespaces tr = [ns_main; ns_empty])
    by (run_trace Hrun; reflexivity).
  split; [exact Hfetched|]. rewrite Hexam, Hfetched. reflexivity.
Defined.

(** X14. The two counters of namespaces count calls.  In the result of
    a run that lists the images, [namespaces_deleted] is the number of
    [delete_namespace] calls that went through, and [namespace_errors]
    is the number of image listings of the sweep that raised, plus the
    number of [delete_namespace] calls that raised, plus one when the
    listing of all namespaces raised.  With the sweep off both are
    zero and no call of the sweep is made. *)
Theorem namespace_counters_count_calls `{RegexEngine} {W : Type} `{RegistryAPI W}
    (isoformat : datetime -> string) (clk : Clock)
    (environ : gmap string string) (cfg : Config) (w w1 : W) (images : list Image) :
  read_config environ = Ok cfg ->
  first_listing cfg w = (Ok images, w1) ->
  exists result w' tr,
    handle isoformat clk environ w = (Ok result, w', tr) /\
    counter "namespaces_deleted" result = Some (count_done (delete_namespace_events tr)) /\
    counter "namespace_errors" result
      = Some (count_raised (sweep_listings tr)
              + count_raised (delete_namespace_events tr)
              + namespace_listing_failures tr) /\
    (delete_unused_namespaces cfg = false ->
     counter "namespaces_deleted" result = Some 0 /\
     counter "namespace_errors" result = Some 0 /\
     Forall (fun ev => is_sweep_call (fst ev) = false) tr).
Proof.
  intros Hcfg Hfirst.
  destruct (handle_account isoformat clk environ cfg w w1 images Hcfg Hfirst)
    as (w' & t_scan & t_del & t_sweep & Hrun & Hscan & Hdel & Hsweep & _ & _ & _ & _ & _
        & _ & Hoff).
  cbv zeta in Hrun.
  assert (Hquiet : delete_unused_namespaces cfg = false ->
    count_done (delete_namespace_events (run_record cfg images t_scan t_del t_sweep)) = 0 /\
    count_raised (sweep_listings (run_record cfg images t_scan t_del t_sweep))
    + count_raised (delete_namespace_events (run_record cfg images t_scan t_del t_sweep))
    + namespace_listing_failures (run_record cfg images t_scan t_del t_sweep) = 0).
  { intros Hdis.
    erewrite whole_sweep_listings, whole_delete_namespace_events,
      whole_namespace_listing_failures by eassumption.
    rewrite (Hoff Hdis). split; reflexivity. }
  eexists _, w', _. split; [exact Hrun|].
  split; [|split].
  - unfold counter, success_result.
    destruct (delete_unused_namespaces cfg); [reflexivity|].
    destruct (Hquiet eq_refl) as [-> _]. reflexivity.
  - unfold counter, success_result.
    destruct (delete_unused_namespaces cfg); [reflexivity|].
    destruct (Hquiet eq_refl) as [_ ->]. reflexivity.
  - intros Hdis. unfold counter, success_result. rewrite Hdis.
    split; [reflexivity|]. split; [reflexivity|].
    rewrite (Hoff Hdis). unfold run_record. rewrite app_nil_r.
    constructor.
    + unfold first_call. simpl.
      destruct (if py_truthy (target_namespace_id cfg) then target_namespace_id cfg
                else None); reflexivity.
    + apply Forall_app. split.
      * apply (Forall_of_calls _ _ _ Hscan). reflexivity.
      * apply (Forall_of_calls _ _ _ Hdel). reflexivity.
Qed.

Lemma namespace_counters_count_calls_witness :
  exists result w' tr,
    mem_handle sample_environ sample_registry = (Ok result, w', tr) /\
    counter "namespaces_deleted" result = Some 1 /\
    counter "namespace_errors" result = Some 0.
Proof.
  assert (Hcfg : read_config sample_environ = Ok sample_config) by reflexivity.
  assert (Hfirst : first_listing sample_config sample_registry
                   = (Ok [img_a; img_b], sample_registry)) by reflexivity.
  destruct (namespace_counters_count_calls mem_isoformat sample_clock sample_environ
              sample_config sample_registry sample_registry [img_a; img_b] Hcfg Hfirst)
    as (result & w' & tr & Hrun & Hdeleted & Herrors & _).
  exists result, w', tr. split; [exact Hrun|].
  rewrite Hdeleted, Herrors. run_trace Hrun. split; reflexivity.
Defined.

(** X15. In the message log of a run that lists the images, the
    records about tags come first and the records about namespaces
    follow: one per [delete_namespace] call, in the order of the calls,
    which are made on the namespaces found empty, in the order they
    were examined.  The record carries the id and the name of the
    namespace, the type "namespace" and the reason "empty_namespace";
    its status is "deleted" when the call went through, and "error",
    with the message of the exception, when it raised. *)
Theorem namespace_records_follow `{RegexEngine} {W : Type} `{RegistryAPI W}
    (isoformat : datetime -> string) (clk : Clock)
    (environ : gmap string string) (cfg : Config) (w w1 : W) (images : list Image) :
  read_config environ = Ok cfg ->
  first_listing cfg w = (Ok images, w1) ->
  exists result w' tr msg,
    let emptied := found_empty (fetched_namespaces tr) (sweep_listings tr) in
    let n := length (delete_tag_events tr) in
    handle isoformat clk environ w = (Ok result, w', tr) /\
    message_log result = Some msg /\
    length msg = (n + length (delete_namespace_events tr))%nat /\
    fst <$> delete_namespace_events tr = namespace_id <$> emptied /\
    forall i namespace reply,
      emptied !! i = Some namespace ->
      delete_namespace_events tr !! i = Some (namespace_id namespace, reply) ->
      msg !! (n + i)%nat
      = Some (match reply with
              | Raised e =>
                  dict [("namespace_id", VStr (namespace_id namespace));
                        ("namespace_name", VStr (namespace_name namespace));
                        ("status", VStr "error");
                        ("type", VStr "namespace");
                        ("reason", VStr "empty_namespace");
                        ("error", VStr (exn_msg e))]
              | _ =>
                  dict [("namespace_id", VStr (namespace_id namespace));
                        ("namespace_name", VStr (namespace_name namespace));
                        ("status", VStr "deleted");
                        ("type", VStr "namespace");
                        ("reason", VStr "empty_namespace")]
              end).
Proof.
  intros Hcfg Hfirst.
  destruct (handle_account isoformat clk environ cfg w w1 images Hcfg Hfirst)
    as (w' & t_scan & t_del & t_sweep & Hrun & _ & _ & _ & _ & Hids & _ & _ & Hdels & _).
  cbv zeta in Hrun, Hids, Hdels.
  set (tr := run_record cfg images t_scan t_del t_sweep) in *.
  set (cands := candidates_of clk cfg (listed_tags tr)) in *.
  set (records := zip_with (outcome_record isoformat) cands (snd <$> delete_tag_events tr))
    in *.
  set (emptied := found_empty (fetched_namespaces tr) (sweep_listings tr)) in *.
  set (ns_records := zip_with namespace_outcome emptied
                              (snd <$> delete_namespace_events tr)) in *.
  assert (Hlen : length records = length (delete_tag_events tr)).
  { unfold records. rewrite length_zip_with, length_fmap.
    rewrite <- (length_fmap fst (delete_tag_events tr)), Hids, length_fmap. lia. }
  assert (Hlen_ns : length ns_records = length (delete_namespace_events tr)).
  { unfold ns_records. rewrite length_zip_with, length_fmap.
    rewrite <- (length_fmap fst (delete_namespace_events tr)), Hdels, length_fmap. lia. }
  eexists _, w', tr, (records ++ ns_records). cbv zeta.
  split; [exact Hrun|]. split; [reflexivity|].
  split; [rewrite length_app, Hlen, Hlen_ns; reflexivity|].
  split; [exact Hdels|].
  intros i namespace reply Hns Hev. fold emptied in Hns.
  rewrite <- Hlen, lookup_app_r by lia.
  replace (length records + i - length records)%nat with i by lia.
  unfold ns_records. rewrite lookup_zip_with, Hns, list_lookup_fmap, Hev.
  destruct reply; reflexivity.
Qed.

Lemma namespace_records_follow_witness :
  exists result w' tr msg,
    mem_handle sample_environ sample_registry = (Ok result, w', tr) /\
    message_log result = Some msg /\
    msg !! 4%nat
    = Some (dict [("namespace_id", VStr "ns-empty");
                  ("namespace_name", VStr "scratch");
                  ("status", VStr "deleted");
                  ("type", VStr "namespace");
                  ("reason", VStr "empty_namespace")]).
Proof.
  assert (Hcfg : read_config sample_environ = Ok sample_config) by reflexivity.
  assert (Hfirst : first_listing sample_config sample_registry
                   = (Ok [img_a; img_b], sample_registry)) by reflexivity.
  destruct (namespace_records_follow mem_isoformat sample_clock sample_environ
              sample_config sample_registry sample_registry [img_a; img_b] Hcfg Hfirst)
    as (result & w' & tr & msg & Hrun & Hmsg & _ & _ & Hrecords).
  exists result, w', tr, msg. split; [exact Hrun|]. split; [exact Hmsg|].
  assert (Htr : length (delete_tag_events tr) = 4%nat /\
                found_empty (fetched_namespaces tr) (sweep_listings tr) = [ns_empty] /\
                delete_namespace_events tr = [("ns-empty", Done)]).
  { run_trace Hrun. repeat split; reflexivity. }
  destruct Htr as (Hn & Hemptied & Hevents).
  specialize (Hrecords 0%nat ns_empty Done).
  rewrite Hn, Hemptied, Hevents in Hrecords. apply Hrecords; reflexivity.
Defined.

(** ** The result *)

(** X16. When [handle] returns, and what.  Without REGION it raises
    [KeyError]; with REGION set, if building the client raises, that
    exception escapes; in both cases no call has been made and nothing
    is returned.  Otherwise [handle] returns a dict with the two keys
    [body] and [statusCode].  When the images were listed the status is
    200, the body holds [message] and [summary], and the summary has
    seven entries, the two counters of namespaces among them; otherwise
    the status is 500, the body holds [error] and [summary], and the
    summary has five entries.  Either way [criteria_used] gives back
    the configuration the run was made with. *)
Theorem result_shape `{RegexEngine} {W : Type} `{RegistryAPI W}
    (isoformat : datetime -> string) (clk : Clock) (new_client : Result unit)
    (environ : gmap string string) (w : W) :
  (forall e,
     read_config environ = Raise e ->
     handle_from_start isoformat clk new_client environ w = (Raise e, w, []) /\
     exn_kind e = KeyError) /\
  (forall cfg e,
     read_config environ = Ok cfg -> new_client = Raise e ->
     handle_from_start isoformat clk new_client environ w = (Raise e, w, [])) /\
  (forall cfg,
     read_config environ = Ok cfg -> new_client = Ok tt ->
     exists result w' tr body smry,
       handle_from_start isoformat clk new_client environ w = (Ok result, w', tr) /\
       handle isoformat clk environ w = (Ok result, w', tr) /\
       keys result = list_to_set ["body"; "statusCode"] /\
       get "body" result = Some body /\
       get "summary" body = Some smry /\
       get "criteria_used" smry
         = Some (dict [("delete_old_tags", VBool (delete_old_tags cfg));
                       ("tag_name_pattern",
                        match tag_name_pattern cfg with Some s => VStr s | None => VNone end);
                       ("delete_unused_namespaces", VBool (delete_unused_namespaces cfg));
                       ("target_namespace_id",
                        match target_namespace_id cfg with
                        | Some s => VStr s
                        | None => VNone
                        end)]) /\
       match fst (first_listing cfg w) with
       | Ok _ =>
           get "statusCode" result = Some (VInt 200) /\
           keys body = list_to_set ["message"; "summary"] /\
           keys smry = list_to_set ["total_images_analyzed"; "total_tags_found";
                                    "successfully_deleted"; "errors";
                                    "namespaces_deleted"; "namespace_errors";
                                    "criteria_used"]
       | Raise _ =>
           get "statusCode" result = Some (VInt 500) /\
           keys body = list_to_set ["error"; "summary"] /\
           keys smry = list_to_set ["total_images_analyzed"; "total_tags_found";
                                    "successfully_deleted"; "errors"; "criteria_used"]
       end).
Proof.
  split; [|split].
  - intros e Hcfg. split.
    + unfold handle_from_start, lift, bind. rewrite Hcfg. reflexivity.
    + revert Hcfg. unfold read_config, environ_getitem.
      destruct (environ !! "REGION"); [discriminate|]. intros [= <-]. reflexivity.
  - intros cfg e Hcfg ->. unfold handle_from_start, lift, bind. rewrite Hcfg. reflexivity.
  - intros cfg Hcfg ->.
    assert (Hsame : handle_from_start isoformat clk (Ok tt) environ w
                    = handle isoformat clk environ w).
    { unfold handle_from_start, handle, lift. unfold bind at 1 3. rewrite Hcfg.
      unfold bind at 1.
      destruct (try_except (run isoformat clk cfg) (fun e => ret (error_result cfg e)) w)
        as [[r w'] tr].
      reflexivity. }
    rewrite Hsame.
    destruct (first_listing cfg w) as [[images|ex] w1] eqn:Hfirst.
    + destruct (run_success isoformat clk cfg w w1 images Hfirst)
        as (w' & tr & ns & d & e & Hrun & _).
      cbv zeta in Hrun.
      rewrite <- (handle_success isoformat clk environ cfg w w1 images Hcfg Hfirst) in Hrun.
      eexists _, w', tr, _, _.
      split; [exact Hrun|]. split; [exact Hrun|].
      split; [reflexivity|]. split; [reflexivity|]. split; [reflexivity|].
      split; [reflexivity|]. cbn [fst]. repeat split; reflexivity.
    + pose proof (handle_failure isoformat clk environ cfg w w1 ex Hcfg Hfirst) as Hrun.
      eexists _, w1, _, _, _.
      split; [exact Hrun|]. split; [exact Hrun|].
      split; [reflexivity|]. split; [reflexivity|]. split; [reflexivity|].
      split; [reflexivity|]. cbn [fst]. repeat split; reflexivity.
Qed.

Lemma result_shape_witness :
  handle_from_start mem_isoformat sample_clock
    (Raise (mkExn ValueError "access key is required")) targeted_environ sample_registry
  = (Raise (mkExn ValueError "access key is required"), sample_registry, []) /\
  exists result w' tr body smry,
    handle_from_start mem_isoformat sample_clock (Ok tt) targeted_environ sample_registry
    = (Ok result, w', tr) /\
    get "body" result = Some body /\
    get "summary" body = Some smry /\
    get "criteria_used" smry
      = Some (dict [("delete_old_tags", VBool true);
                    ("tag_name_pattern", VStr "-rc");
                    ("delete_unused_namespaces", VBool true);
                    ("target_namespace_id", VStr "ns-gone")]).
Proof.
  assert (Hcfg : read_config targeted_environ = Ok targeted_config) by reflexivity.
  split.
  - apply (proj1 (proj2 (result_shape mem_isoformat sample_clock
                           (Raise (mkExn ValueError "access key is required"))
                           targeted_environ sample_registry))
                 targeted_config _ Hcfg eq_refl).
  - destruct (proj2 (proj2 (result_shape mem_isoformat sample_clock (Ok tt)
                              targeted_environ sample_registry))
                    targeted_config Hcfg eq_refl)
      as (result & w' & tr & body & smry & Hrun & _ & _ & Hbody & Hsmry & Hcriteria & _).
    exists result, w', tr, body, smry. repeat split; assumption.
Defined.




(** ** Empty settings *)

Section SameBehaviour.
Context `{RegexEngine} {W : Type} `{RegistryAPI W}.
Variable isoformat : datetime -> string.
Variable clk : Clock.
Variables cfg cfg' : Config.
Hypothesis Hregion : region cfg' = region cfg.
Hypothesis Hold : delete_old_tags cfg' = delete_old_tags cfg.
Hypothesis Hflag : delete_unused_namespaces cfg' = delete_unused_namespaces cfg.
Hypothesis Hname : forall tag, name_triggered cfg' tag = name_triggered cfg tag.
Hypothesis Htarget :
  (if py_truthy (target_namespace_id cfg') then target_namespace_id cfg' else None)
  = (if py_truthy (target_namespace_id cfg) then target_namespace_id cfg else None).

Lemma classify_tags_same (acc : list Candidate) (tags : list Tag) :
  classify_tags clk cfg' acc tags = classify_tags clk cfg acc tags.
Proof.
  assert (Ht : forall tag, triggered clk cfg' tag = triggered clk cfg tag).
  { intros tag. unfold triggered, age_triggered. rewrite Hold, Hname. reflexivity. }
  assert (Hr : forall tag, reasons clk cfg' tag = reasons clk cfg tag).
  { intros tag. unfold reasons, age_triggered. rewrite Hold, Hname. reflexivity. }
  rewrite !classify_tags_eq. f_equal. unfold candidates_of.
  induction tags as [|tag tags IH]; [reflexivity|]. cbn [List.filter].
  rewrite Ht. destruct (triggered clk cfg tag); [|exact IH].
  rewrite !fmap_cons. f_equal; [f_equal; apply Hr | exact IH].
Qed.

Lemma scan_images_same (images : list Image) :
  forall (acc : list Candidate) (w : W),
  scan_images clk cfg' images acc w = scan_images clk cfg images acc w.
Proof.
  induction images as [|image rest IH]; intros acc w; [reflexivity|].
  simpl. unfold bind, try_except, list_tags_all, invoke, ret. rewrite Hregion.
  destruct (api_list_tags_all (region cfg) (image_id image) (Some "created_at_desc") w)
    as [[tags|e] w1]; simpl; rewrite ?classify_tags_same, IH; reflexivity.
Qed.

Lemma delete_tags_same (cands : list Candidate) :
  forall (acc : list Value * Z) (w : W),
  delete_tags isoformat cfg' cands acc w = delete_tags isoformat cfg cands acc w.
Proof.
  induction cands as [|c rest IH]; intros acc w; [reflexivity|].
  cbn [delete_tags]. unfold bind.
  assert (Hone : delete_one isoformat cfg' c acc w = delete_one isoformat cfg c acc w).
  { unfold delete_one. destruct acc. rewrite Hregion. reflexivity. }
  rewrite Hone. destruct (delete_one isoformat cfg c acc w) as [[[acc'|e] w1] t1];
    [rewrite IH|]; reflexivity.
Qed.

Lemma sweep_namespaces_same (to_check : list Namespace) :
  forall (acc : SweepAcc) (w : W),
  sweep_namespaces cfg' to_check acc w = sweep_namespaces cfg to_check acc w.
Proof.
  induction to_check as [|namespace rest IH]; intros acc w; [reflexivity|].
  cbn [sweep_namespaces]. unfold bind.
  assert (Hone : sweep_one cfg' namespace acc w = sweep_one cfg namespace acc w).
  { unfold sweep_one. destruct acc as [[msg d] e]. rewrite Hregion. reflexivity. }
  rewrite Hone. destruct (sweep_one cfg namespace acc w) as [[[acc'|e] w1] t1];
    [rewrite IH|]; reflexivity.
Qed.

Lemma namespaces_to_check_same (w : W) :
  namespaces_to_check cfg' w = namespaces_to_check cfg w.
Proof.
  unfold namespaces_to_check. rewrite Hregion.
  destruct (target_namespace_id cfg') as [t'|] eqn:Ht',
    (target_namespace_id cfg) as [t|] eqn:Ht;
    try destruct (py_truthy (Some t')) eqn:Hp';
    try destruct (py_truthy (Some t)) eqn:Hp;
    try discriminate Htarget; try reflexivity.
  injection Htarget as ->. reflexivity.
Qed.

Lemma sweep_same (msg : list Value) (w : W) :
  sweep cfg' msg w = sweep cfg msg w.
Proof.
  unfold sweep. rewrite Hflag. destruct (delete_unused_namespaces cfg); [|reflexivity].
  unfold try_except, bind. rewrite namespaces_to_check_same.
  destruct (namespaces_to_check cfg w) as [[[to_check|e] w1] t1]; [|reflexivity].
  rewrite sweep_namespaces_same. reflexivity.
Qed.

Lemma first_call_same : first_call cfg' = first_call cfg.
Proof. unfold first_call. rewrite Hregion, Htarget. reflexivity. Qed.

Lemma first_listing_same (w : W) : first_listing cfg' w = first_listing cfg w.
Proof. unfold first_listing. rewrite Hregion, Htarget. reflexivity. Qed.

(** The two runs make the same calls and leave the registry in the same
    state; their results differ in [criteria_used] at most. *)
Lemma run_same (w : W) :
  match run isoformat clk cfg w, run isoformat clk cfg' w with
  | (Ok result, w1, tr), (Ok result', w1', tr') =>
      w1' = w1 /\ tr' = tr /\
      status_code result' = status_code result /\
      message_log result' = message_log result /\
      (forall k, In k summary_counters -> counter k result' = counter k result)
  | (Raise e, w1, tr), (Raise e', w1', tr') => e' = e /\ w1' = w1 /\ tr' = tr
  | _, _ => False
  end.
Proof.
  destruct (first_listing cfg w) as [[images|ex] w1] eqn:Hfirst.
  - assert (Hfirst' : first_listing cfg' w = (Ok images, w1))
      by (rewrite first_listing_same; exact Hfirst).
    destruct (run_phases isoformat clk cfg w w1 images Hfirst)
      as (w2 & w3 & w4 & t_scan & t_del & t_sweep & ns & d & e
          & Hscan & Hdel & Hsweep & Hrun & _).
    destruct (run_phases isoformat clk cfg' w w1 images Hfirst')
      as (w2' & w3' & w4' & t_scan' & t_del' & t_sweep' & ns' & d' & e'
          & Hscan' & Hdel' & Hsweep' & Hrun' & _).
    cbv zeta in Hscan, Hdel, Hsweep, Hrun, Hscan', Hdel', Hsweep', Hrun'.
    rewrite scan_images_same, Hscan in Hscan'. injection Hscan' as Hcands <- <-.
    rewrite <- Hcands in Hdel', Hsweep', Hrun'. clear Hcands.
    rewrite delete_tags_same, Hdel in Hdel'. injection Hdel' as _ _ <- <-.
    rewrite sweep_same, Hsweep in Hsweep'. injection Hsweep' as Hns <- <- <- <-.
    apply app_inv_head in Hns. subst ns'.
    rewrite Hrun, Hrun', first_call_same.
    split; [reflexivity|]. split; [reflexivity|]. split; [reflexivity|].
    split; [reflexivity|].
    intros k Hk. simpl in Hk.
    destruct Hk as [<-|[<-|[<-|[<-|[<-|[<-|[]]]]]]];
      unfold counter, success_result; rewrite ?Hflag; reflexivity.
  - assert (Hfirst' : first_listing cfg' w = (Raise ex, w1))
      by (rewrite first_listing_same; exact Hfirst).
    rewrite (run_failure isoformat clk cfg w w1 ex Hfirst),
      (run_failure isoformat clk cfg' w w1 ex Hfirst'), first_call_same.
    split; [reflexivity|]. split; reflexivity.
Qed.
End SameBehaviour.

Lemma read_config_without `{RegexEngine} (environ : gmap string string) (k : string)
    (cfg : Config) :
  k = "TAG_NAME_PATTERN" \/ k = "NAMESPACE_ID" ->
  environ !! k = Some "" ->
  read_config environ = Ok cfg ->
  exists cfg',
    read_config (delete k environ) = Ok cfg' /\
    region cfg' = region cfg /\
    delete_old_tags cfg' = delete_old_tags cfg /\
    delete_unused_namespaces cfg' = delete_unused_namespaces cfg /\
    (forall tag, name_triggered cfg' tag = name_triggered cfg tag) /\
    (if py_truthy (target_namespace_id cfg') then target_namespace_id cfg' else None)
    = (if py_truthy (target_namespace_id cfg) then target_namespace_id cfg else None).
Proof.
  intros Hk Hempty. unfold read_config, environ_getitem, environ_flag, environ_get.
  destruct (environ !! "REGION") as [r|] eqn:Hregion; [|discriminate].
  intros [= <-]. cbn [rbind].
  assert (Hother : forall j, k <> j -> delete k environ !! j = environ !! j)
    by (intros j Hj; apply lookup_delete_ne, Hj).
  destruct Hk as [-> | ->].
  - rewrite (Hother "REGION"), (Hother "DELETE_OLD_TAGS"),
      (Hother "DELETE_UNUSED_NAMESPACE"), (Hother "NAMESPACE_ID") by discriminate.
    rewrite lookup_delete_eq, Hregion, Hempty.
    eexists. split; [reflexivity|]. cbn.
    split; [reflexivity|]. split; [reflexivity|]. split; [reflexivity|].
    split; [intros tag; reflexivity | reflexivity].
  - rewrite (Hother "REGION"), (Hother "DELETE_OLD_TAGS"),
      (Hother "DELETE_UNUSED_NAMESPACE"), (Hother "TAG_NAME_PATTERN") by discriminate.
    rewrite lookup_delete_eq, Hregion, Hempty.
    eexists. split; [reflexivity|]. cbn.
    split; [reflexivity|]. split; [reflexivity|]. split; [reflexivity|].
    split; [intros tag; reflexivity | reflexivity].
Qed.

(** X18. An empty TAG_NAME_PATTERN or NAMESPACE_ID acts as none at all.
    Run in the same registry state with the variable set to the empty
    string and with the variable removed, [handle] makes the same
    calls, leaves the registry in the same state and returns results
    with the same status, message log and counters (they differ in
    what [criteria_used] reports); and when it raises, for want of
    REGION, it raises the same exception. *)
Theorem empty_setting_is_unset `{RegexEngine} {W : Type} `{RegistryAPI W}
    (isoformat : datetime -> string) (clk : Clock)
    (environ : gmap string string) (k : string) (w : W) :
  k = "TAG_NAME_PATTERN" \/ k = "NAMESPACE_ID" ->
  environ !! k = Some "" ->
  match handle isoformat clk environ w, handle isoformat clk (delete k environ) w with
  | (Ok result, w1, tr), (Ok result', w1', tr') =>
      w1' = w1 /\ tr' = tr /\
      status_code result' = status_code result /\
      message_log result' = message_log result /\
      (forall c, In c summary_counters -> counter c result' = counter c result)
  | (Raise e, w1, tr), (Raise e', w1', tr') => e' = e /\ w1' = w1 /\ tr' = tr
  | _, _ => False
  end.
Proof.
  intros Hk Hempty.
  destruct (read_config environ) as [cfg|e] eqn:Hcfg.
  - destruct (read_config_without environ k cfg Hk Hempty Hcfg)
      as (cfg' & Hcfg' & Hregion & Hold & Hflag & Hname & Htarget).
    rewrite (handle_run isoformat clk environ cfg w Hcfg),
      (handle_run isoformat clk (delete k environ) cfg' w Hcfg').
    pose proof (run_same isoformat clk cfg cfg' Hregion Hold Hflag Hname Htarget w)
      as Hsame.
    unfold try_except.
    destruct (run isoformat clk cfg w) as [[[result|e] w1] tr],
      (run isoformat clk cfg' w) as [[[result'|e'] w1'] tr']; try contradiction.
    + exact Hsame.
    + destruct Hsame as (-> & -> & ->). unfold ret.
      split; [reflexivity|]. split; [reflexivity|]. split; [reflexivity|].
      split; [reflexivity|].
      intros c Hc. simpl in Hc.
      destruct Hc as [<-|[<-|[<-|[<-|[<-|[<-|[]]]]]]]; reflexivity.
  - assert (Hcfg' : read_config (delete k environ) = Raise e).
    { revert Hcfg. unfold read_config, environ_getitem.
      rewrite lookup_delete_ne by (destruct Hk as [-> | ->]; discriminate).
      destruct (environ !! "REGION"); [discriminate | trivial]. }
    unfold handle, lift, bind. rewrite Hcfg, Hcfg'. repeat split; reflexivity.
Qed.

Lemma empty_setting_is_unset_witness :
  snd (mem_handle (<["NAMESPACE_ID" := ""]> sample_environ) sample_registry)
  = snd (mem_handle (delete "NAMESPACE_ID" (<["NAMESPACE_ID" := ""]> sample_environ))
                    sample_registry).
Proof.
  assert (Hempty : (<["NAMESPACE_ID" := ""]> sample_environ) !! "NAMESPACE_ID" = Some "")
    by reflexivity.
  pose proof (empty_setting_is_unset mem_isoformat sample_clock
                (<["NAMESPACE_ID" := ""]> sample_environ) "NAMESPACE_ID" sample_registry
                (or_intror eq_refl) Hempty) as Hsame.
  unfold mem_handle.
  destruct (handle mem_isoformat sample_clock (<["NAMESPACE_ID" := ""]> sample_environ)
                   sample_registry) as [[[result|e] w1] tr],
    (handle mem_isoformat sample_clock
            (delete "NAMESPACE_ID" (<["NAMESPACE_ID" := ""]> sample_environ))
            sample_registry) as [[[result'|e'] w1'] tr']; try contradiction; cbn [snd].
  - destruct Hsame as (_ & -> & _). reflexivity.
  - destruct Hsame as (_ & _ & ->). reflexivity.
Defined.
